(** * Cappocas front end: a shallow embedding of [frontend/src/main.js]

    The browser application is modelled as state-passing code over a
    [World] (the [ApiClient] and [App] objects, the part of the DOM the
    handlers read and write, and a chronological trace of what the page
    did to its environment).  Whatever the browser decides (the answer of
    [fetch], how [Date] and [parseFloat] read a string) is collected in a
    [Host] record that every handler receives. *)

From Stdlib Require Import Floats String Ascii ZArith NArith List Lia Bool.
From stdpp Require Import gmap list.
Import ListNotations.

Local Open Scope N_scope.
#[local] Set Warnings "-register-all".

(** ** JavaScript strings

    A JavaScript string is a sequence of UTF-16 code units; [length]
    counts code units.  Literals of the source file are written as Rocq
    strings (UTF-8 bytes) and decoded by [js]. *)

Definition char16 : Type := N.
Definition jsstring : Type := list N.

Fixpoint utf16_of_utf8 (bs : list N) : jsstring :=
  match bs with
  | [] => []
  | b0 :: r0 =>
      if b0 <? 128 then b0 :: utf16_of_utf8 r0
      else
        match r0 with
        | [] => []
        | b1 :: r1 =>
            if b0 <? 224 then ((b0 - 192) * 64 + (b1 - 128)) :: utf16_of_utf8 r1
            else
              match r1 with
              | [] => []
              | b2 :: r2 =>
                  if b0 <? 240
                  then ((b0 - 224) * 4096 + (b1 - 128) * 64 + (b2 - 128))
                         :: utf16_of_utf8 r2
                  else
                    match r2 with
                    | [] => []
                    | b3 :: r3 =>
                        let cp := (b0 - 240) * 262144 + (b1 - 128) * 4096
                                  + (b2 - 128) * 64 + (b3 - 128) in
                        let v := cp - 65536 in
                        (55296 + v / 1024) :: (56320 + v mod 1024)
                          :: utf16_of_utf8 r3
                    end
              end
        end
  end.

Definition js (s : string) : jsstring :=
  utf16_of_utf8 (List.map N_of_ascii (list_ascii_of_string s)).
Arguments js : simpl never.

(** WhiteSpace and LineTerminator code points of ECMAScript, the ones
    [String.prototype.trim] strips. *)
Definition is_white_space (c : char16) : bool :=
  (c =? 9) || (c =? 10) || (c =? 11) || (c =? 12) || (c =? 13) || (c =? 32)
  || (c =? 160) || (c =? 5760) || ((8192 <=? c) && (c <=? 8202))
  || (c =? 8232) || (c =? 8233) || (c =? 8239) || (c =? 8287)
  || (c =? 12288) || (c =? 65279).

Fixpoint trim_start (s : jsstring) : jsstring :=
  match s with
  | [] => []
  | c :: r => if is_white_space c then trim_start r else s
  end.

Definition trim_end (s : jsstring) : jsstring := rev (trim_start (rev s)).

Definition trim (s : jsstring) : jsstring := trim_end (trim_start s).

Definition jsstring_eqb (a b : jsstring) : bool := bool_decide (a = b).

(** [s.split(',')] for a one-unit separator: the pieces between commas,
    one piece more than there are commas. *)
Fixpoint split_on (sep : char16) (s : jsstring) : list jsstring :=
  match s with
  | [] => [[]]
  | c :: r =>
      match split_on sep r with
      | [] => if c =? sep then [[]; []] else [[c]]
      | p :: ps => if c =? sep then [] :: p :: ps else (c :: p) :: ps
      end
  end.

(** ** JavaScript values

    What [JSON.parse] can deliver, plus [undefined].  Numbers are IEEE 754
    binary64, as in the language. *)

Inductive JsVal : Type :=
| JUndefined
| JNull
| JBool (b : bool)
| JNum (x : float)
| JStr (s : jsstring)
| JArr (items : list JsVal)
| JObj (props : list (jsstring * JsVal)).

(** ToBoolean. *)
Definition truthy (v : JsVal) : bool :=
  match v with
  | JUndefined | JNull => false
  | JBool b => b
  | JNum x => negb (PrimFloat.eqb x 0%float || PrimFloat.is_nan x)
  | JStr s => match s with [] => false | _ => true end
  | JArr _ | JObj _ => true
  end.

Definition is_nullish (v : JsVal) : bool :=
  match v with JUndefined | JNull => true | _ => false end.

Fixpoint lookup_prop (k : jsstring) (props : list (jsstring * JsVal)) : option JsVal :=
  match props with
  | [] => None
  | (k', v) :: r => if jsstring_eqb k k' then Some v else lookup_prop k r
  end.

(** [v?.k] for the data properties the application reads ([name], [path],
    [id], [message], ...), none of which a string, a number, a boolean or
    an array carries and none of which [Object.prototype] defines. *)
Definition get (v : JsVal) (k : jsstring) : JsVal :=
  match v with
  | JObj props => match lookup_prop k props with Some x => x | None => JUndefined end
  | _ => JUndefined
  end.

(** [a || b] *)
Definition or_else (a b : JsVal) : JsVal := if truthy a then a else b.

Definition str_or_null (s : jsstring) : JsVal :=
  match s with [] => JNull | _ => JStr s end.

(** ** Errors, template literals, requests *)

Inductive Exn : Type :=
| Error (message : JsVal)      (* [new Error(m)]; the message is [String(m)] *)
| TypeError                    (* property read on null or undefined, call of a non-function *)
| RangeError                   (* [toISOString] of an invalid date *)
| SyntaxError                  (* [response.json()] on a body that is not JSON *)
| NetworkError.                (* [fetch] rejected *)

(** A template literal, kept as its pieces: the text that the engine
    produces for a number or an object is not spelled out. *)
Inductive Part : Type :=
| Lit (s : jsstring)
| Val (v : JsVal)              (* [${v}] *)
| Rounded (x : float)          (* [${Math.round(x)}] *)
| Count (n : nat)              (* [${xs.length}] *)
| UriEncoded (v : JsVal)       (* [${encodeURIComponent(v)}] *)
| MessageOf (e : Exn).         (* [${error.message}] *)

Definition Template : Type := list Part.

Record File : Type := { file_name : jsstring; file_type : jsstring }.

Inductive Body : Type :=
| NoBody
| JsonBody (data : JsVal)      (* [JSON.stringify(data)] *)
| FormBody (files : list File).

Record Options : Type := {
  opt_method : option jsstring;
  opt_headers : gmap jsstring Template;
  opt_body : Body
}.

Record Request : Type := {
  req_url : Template;
  req_options : Options
}.

Inductive FetchResult : Type :=
| Rejected
| Response (status : N) (json : option JsVal).

Definition response_ok (status : N) : bool := (200 <=? status) && (status <=? 299).

Inductive ToastType : Type := success | error | warning | info.

Inductive Task : Type := LoadDashboard | LoadListings.

Inductive Event : Type :=
| EFetch (r : Request)
| EToast (message : Template) (type : ToastType) (icon : jsstring)
| ESpawn (t : Task)
| EPreventDefault.

(** ** The host: what the browser answers *)

Record Host : Type := {
  fetch : list Event -> Request -> FetchResult;
  date_parse : jsstring -> option Z;       (* time value of [new Date(s)], [None] for an invalid date *)
  date_iso : Z -> jsstring;                (* [toISOString] of a valid date *)
  parse_float : jsstring -> float;
  to_number : JsVal -> float               (* ToNumber of a string, array or object *)
}.

(** ** The world: the two objects of the page and the DOM they touch *)

Record ApiClient : Type := {
  token : JsVal;                  (* [this.token] *)
  stored_token : option JsVal     (* [localStorage] entry ['token'] *)
}.

Record Form : Type := {
  listing_title : jsstring;
  listing_description : jsstring;
  listing_price : jsstring;
  listing_condition : jsstring;
  listing_location : jsstring;
  listing_brand : jsstring;
  listing_size : jsstring;
  listing_colors : jsstring;
  listing_schedule : jsstring;
  post_leboncoin : bool;
  post_vinted : bool
}.

(** Content of the element [vinted-category-preview], as the tree its
    [innerHTML] builds. *)
Inductive PreviewContent : Type :=
| CategoryHint (text : Template)
| CategoryDetected (full_path : JsVal) (confidenceClass confidenceText : jsstring)
    (percent : Part) (gender : option JsVal) (alternatives : list JsVal).

Record Dom : Type := {
  pages : list jsstring;          (* the [page-...] elements of the document *)
  visible_page : option jsstring;
  nav_active : jsstring;
  nav_hidden : bool;
  form : Form;
  form_defaults : Form;           (* what [form.reset()] restores *)
  preview_class : jsstring;
  preview_content : PreviewContent;
  image_preview : list (JsVal * nat)   (* one preview per image: its [url], its index *)
}.

Record App : Type := {
  currentPage : jsstring;
  uploadedImages : list JsVal;
  detectedCategory : JsVal
}.

Record World : Type := {
  api : ApiClient;
  app : App;
  dom : Dom;
  trace : list Event
}.

Definition with_api (f : ApiClient -> ApiClient) (w : World) : World :=
  {| api := f (api w); app := app w; dom := dom w; trace := trace w |}.
Definition with_app (f : App -> App) (w : World) : World :=
  {| api := api w; app := f (app w); dom := dom w; trace := trace w |}.
Definition with_dom (f : Dom -> Dom) (w : World) : World :=
  {| api := api w; app := app w; dom := f (dom w); trace := trace w |}.
Definition emit (e : Event) (w : World) : World :=
  {| api := api w; app := app w; dom := dom w; trace := trace w ++ [e] |}.

Definition set_uploadedImages (imgs : list JsVal) (a : App) : App :=
  {| currentPage := currentPage a; uploadedImages := imgs;
     detectedCategory := detectedCategory a |}.
Definition set_detectedCategory (c : JsVal) (a : App) : App :=
  {| currentPage := currentPage a; uploadedImages := uploadedImages a;
     detectedCategory := c |}.
Definition set_currentPage (p : jsstring) (a : App) : App :=
  {| currentPage := p; uploadedImages := uploadedImages a;
     detectedCategory := detectedCategory a |}.

Definition set_preview (cls : jsstring) (c : PreviewContent) (d : Dom) : Dom :=
  {| pages := pages d; visible_page := visible_page d; nav_active := nav_active d;
     nav_hidden := nav_hidden d; form := form d; form_defaults := form_defaults d;
     preview_class := cls; preview_content := c; image_preview := image_preview d |}.
Definition set_image_preview (p : list (JsVal * nat)) (d : Dom) : Dom :=
  {| pages := pages d; visible_page := visible_page d; nav_active := nav_active d;
     nav_hidden := nav_hidden d; form := form d; form_defaults := form_defaults d;
     preview_class := preview_class d; preview_content := preview_content d;
     image_preview := p |}.
Definition set_form (f : Form) (d : Dom) : Dom :=
  {| pages := pages d; visible_page := visible_page d; nav_active := nav_active d;
     nav_hidden := nav_hidden d; form := f; form_defaults := form_defaults d;
     preview_class := preview_class d; preview_content := preview_content d;
     image_preview := image_preview d |}.
Definition set_page (visible : option jsstring) (active : jsstring) (hidden : bool)
    (d : Dom) : Dom :=
  {| pages := pages d; visible_page := visible; nav_active := active;
     nav_hidden := hidden; form := form d; form_defaults := form_defaults d;
     preview_class := preview_class d; preview_content := preview_content d;
     image_preview := image_preview d |}.

(** ** Computations: host in, world through, a value or an exception out *)

Inductive Outcome (A : Type) : Type :=
| Returned (a : A)
| Thrown (e : Exn).
Arguments Returned {A} a.
Arguments Thrown {A} e.

Definition M (A : Type) : Type := Host -> World -> Outcome A * World.

Definition ret {A} (a : A) : M A := fun _ w => (Returned a, w).
Definition throw {A} (e : Exn) : M A := fun _ w => (Thrown e, w).
Definition bind {A B} (m : M A) (k : A -> M B) : M B :=
  fun h w =>
    match m h w with
    | (Returned a, w') => k a h w'
    | (Thrown e, w') => (Thrown e, w')
    end.
Definition try_catch {A} (m : M A) (handler : Exn -> M A) : M A :=
  fun h w =>
    match m h w with
    | (Returned a, w') => (Returned a, w')
    | (Thrown e, w') => handler e h w'
    end.
Definition world : M World := fun _ w => (Returned w, w).
Definition host : M Host := fun h w => (Returned h, w).
Definition modify (f : World -> World) : M unit := fun _ w => (Returned tt, f w).

Declare Scope js_scope.
Delimit Scope js_scope with js.
Notation "'let*' x ':=' m 'in' k" := (bind m (fun x => k))
  (at level 10, x name, m at level 100, k at level 200) : js_scope.
Notation "m ';;;' k" := (bind m (fun _ => k))
  (at level 100, k at level 200, right associativity) : js_scope.
Local Open Scope js_scope.

(** [await fetch(url, options)]: the request leaves the page, the host
    answers knowing what happened so far. *)
Definition do_fetch (r : Request) : M (N * option JsVal) :=
  fun h w =>
    match fetch h (trace w) r with
    | Rejected => (Thrown NetworkError, emit (EFetch r) w)
    | Response status json => (Returned (status, json), emit (EFetch r) w)
    end.

(** ** Toasts *)

Definition getToastIcon (type : ToastType) : jsstring :=
  match type with
  | success => js "✓"
  | error => js "✗"
  | warning => js "⚠"
  | info => js "ℹ"
  end.

(** The toast is appended to [toast-container]; its removal four seconds
    later is a timer of its own and is not followed here. *)
Definition showToast (message : Template) (type : ToastType) : M unit :=
  modify (emit (EToast message type (getToastIcon type))).

(** ** Router

    [loadDashboard] and [loadListings] are started and not awaited: the
    handler that shows the page goes on without them, so they appear in
    the trace as spawned tasks. *)

Definition showPage (page : jsstring) : M unit :=
  modify (fun w =>
    let shown := if bool_decide (page ∈ pages (dom w)) then Some page else None in
    let isAuth := bool_decide (page ∈ [js "login"; js "register"]) in
    let w1 := with_dom (set_page shown page isAuth) w in
    let w2 :=
      if jsstring_eqb page (js "dashboard") then emit (ESpawn LoadDashboard) w1
      else if jsstring_eqb page (js "listings") then emit (ESpawn LoadListings) w1
      else w1 in
    with_app (set_currentPage page) w2).

(** ** API client *)

Definition API_BASE : jsstring := js "/api".

Definition setToken (t : JsVal) : M unit :=
  modify (with_api (fun _ => {| token := t; stored_token := Some t |})).

Definition clearToken : M unit :=
  modify (with_api (fun _ => {| token := JNull; stored_token := None |})).

Definition no_options : Options :=
  {| opt_method := None; opt_headers := ∅; opt_body := NoBody |}.

Definition post (body : Body) : Options :=
  {| opt_method := Some (js "POST"); opt_headers := ∅; opt_body := body |}.

Definition request (endpoint : Template) (options : Options) : M JsVal :=
  let* w := world in
  let headers0 : gmap jsstring Template :=
    opt_headers options ∪ {[ js "Content-Type" := [Lit (js "application/json")] ]} in
  let headers :=
    if truthy (token (api w))
    then <[ js "Authorization" := [Lit (js "Bearer "); Val (token (api w))] ]> headers0
    else headers0 in
  let* response :=
    do_fetch {| req_url := Lit API_BASE :: endpoint;
                req_options := {| opt_method := opt_method options;
                                  opt_headers := headers;
                                  opt_body := opt_body options |} |} in
  let '(status, json) := response in
  if status =? 401 then
    clearToken ;;;
    showPage (js "login") ;;;
    throw (Error (JStr (js "Session expirée")))
  else if negb (response_ok status) then
    let error := match json with Some v => v | None => JObj [] end in
    if is_nullish error then throw TypeError
    else throw (Error (or_else (get error (js "detail"))
                               (JStr (js "Une erreur est survenue"))))
  else if status =? 204 then ret JNull
  else match json with
       | Some v => ret v
       | None => throw SyntaxError
       end.

(** [data.access_token] after an awaited request: reading a property of
    [null] throws. *)
Definition member (v : JsVal) (k : jsstring) : M JsVal :=
  if is_nullish v then throw TypeError else ret (get v k).

Definition login (email password : JsVal) : M JsVal :=
  let* data := request [Lit (js "/auth/login")]
                 (post (JsonBody (JObj [(js "email", email); (js "password", password)]))) in
  let* t := member data (js "access_token") in
  setToken t ;;;
  ret data.

Definition register (username email password telegramChatId : JsVal) : M JsVal :=
  let* data := request [Lit (js "/auth/register")]
                 (post (JsonBody (JObj [(js "username", username); (js "email", email);
                                        (js "password", password);
                                        (js "telegram_chat_id", telegramChatId)]))) in
  let* t := member data (js "access_token") in
  setToken t ;;;
  ret data.

Definition getMe : M JsVal := request [Lit (js "/auth/me")] no_options.

Definition getListings : M JsVal := request [Lit (js "/listings/")] no_options.

Definition getListing (id : JsVal) : M JsVal :=
  request [Lit (js "/listings/"); Val id] no_options.

Definition createListing (data : JsVal) : M JsVal :=
  request [Lit (js "/listings/")] (post (JsonBody data)).

Definition updateListing (id data : JsVal) : M JsVal :=
  request [Lit (js "/listings/"); Val id]
    {| opt_method := Some (js "PUT"); opt_headers := ∅; opt_body := JsonBody data |}.

Definition deleteListing (id : JsVal) : M JsVal :=
  request [Lit (js "/listings/"); Val id]
    {| opt_method := Some (js "DELETE"); opt_headers := ∅; opt_body := NoBody |}.

Definition publishListing (id : JsVal) : M JsVal :=
  request [Lit (js "/listings/"); Val id; Lit (js "/publish")] (post NoBody).

Definition analyzeCategory (title description : jsstring) : M JsVal :=
  request [Lit (js "/categories/analyze")]
    (post (JsonBody (JObj [(js "title", JStr title); (js "description", JStr description)]))).

Definition searchCategories (query : JsVal) : M JsVal :=
  request [Lit (js "/categories/search?q="); UriEncoded query] no_options.

Definition uploadImages (files : list File) : M JsVal :=
  let* w := world in
  let* response :=
    do_fetch {| req_url := [Lit API_BASE; Lit (js "/uploads/images")];
                req_options :=
                  {| opt_method := Some (js "POST");
                     opt_headers := {[ js "Authorization" :=
                                         [Lit (js "Bearer "); Val (token (api w))] ]};
                     opt_body := FormBody files |} |} in
  let '(status, json) := response in
  if negb (response_ok status) then throw (Error (JStr (js "Erreur lors de l'upload")))
  else match json with
       | Some v => ret v
       | None => throw SyntaxError
       end.

(** The operations of [ApiClient], gathered in one type. *)
Inductive ApiCall : Type :=
| CallLogin (email password : JsVal)
| CallRegister (username email password telegramChatId : JsVal)
| CallGetMe
| CallGetListings
| CallGetListing (id : JsVal)
| CallCreateListing (data : JsVal)
| CallUpdateListing (id data : JsVal)
| CallDeleteListing (id : JsVal)
| CallPublishListing (id : JsVal)
| CallAnalyzeCategory (title description : jsstring)
| CallSearchCategories (query : JsVal)
| CallUploadImages (files : list File).

Definition api_call (c : ApiCall) : M JsVal :=
  match c with
  | CallLogin email password => login email password
  | CallRegister username email password telegramChatId =>
      register username email password telegramChatId
  | CallGetMe => getMe
  | CallGetListings => getListings
  | CallGetListing id => getListing id
  | CallCreateListing data => createListing data
  | CallUpdateListing id data => updateListing id data
  | CallDeleteListing id => deleteListing id
  | CallPublishListing id => publishListing id
  | CallAnalyzeCategory title description => analyzeCategory title description
  | CallSearchCategories query => searchCategories query
  | CallUploadImages files => uploadImages files
  end.

(** ** Category auto-detection *)

(** The doubles that the literals [0.7] and [0.4] denote. *)
Definition threshold_high : float := 0x1.6666666666666p-1%float.
Definition threshold_medium : float := 0x1.999999999999ap-2%float.

Definition ToNumber (h : Host) (v : JsVal) : float :=
  match v with
  | JUndefined => PrimFloat.nan
  | JNull => 0%float
  | JBool b => if b then 1%float else 0%float
  | JNum x => x
  | _ => to_number h v
  end.

(** [v >= k] and [v > k] against a number [k]. *)
Definition js_ge (h : Host) (v : JsVal) (k : float) : bool := PrimFloat.leb k (ToNumber h v).
Definition js_gt (h : Host) (v : JsVal) (k : float) : bool := PrimFloat.ltb k (ToNumber h v).

Definition confidence_label (h : Host) (confidence : JsVal) : jsstring * jsstring :=
  if js_ge h confidence threshold_high then (js "confidence-high", js "Élevée")
  else if js_ge h confidence threshold_medium then (js "confidence-medium", js "Moyenne")
  else (js "confidence-low", js "Faible").

(** [alts.length > 0] *)
Definition length_positive (h : Host) (alts : JsVal) : bool :=
  match alts with
  | JArr l => negb (Nat.eqb (length l) 0)
  | JStr s => negb (Nat.eqb (length s) 0)
  | JObj _ => js_gt h (get alts (js "length")) 0%float
  | _ => false
  end.

(** The names shown in the "Alternatives" block; no name, no block.
    [map] exists on arrays only, and reading [a.name] needs [a] to be
    neither [null] nor [undefined]. *)
Definition alternative_names (alts : JsVal) : M (list JsVal) :=
  let* h := host in
  if truthy alts && length_positive h alts then
    match alts with
    | JArr l =>
        if existsb is_nullish l then throw TypeError
        else ret (List.map (fun a => get a (js "name")) l)
    | _ => throw TypeError
    end
  else ret [].

Definition hint_detect : Template :=
  [Lit (js "💡 La catégorie sera détectée automatiquement d'après le titre")].

Definition set_detected (c : JsVal) : M unit :=
  modify (with_app (set_detectedCategory c)).

Definition show_preview (cls : jsstring) (c : PreviewContent) : M unit :=
  modify (with_dom (set_preview cls c)).

Definition analyzeVintedCategory : M unit :=
  let* h := host in
  let* w := world in
  let title := trim (listing_title (form (dom w))) in
  let description := trim (listing_description (form (dom w))) in
  if (length title <? 3)%nat then
    show_preview (js "category-preview") (CategoryHint hint_detect)
  else
    show_preview (js "category-preview loading")
      (CategoryHint [Lit (js "🔍 Analyse en cours...")]) ;;;
    try_catch
      (let* result := analyzeCategory title description in
       let* suggested := member result (js "suggested_category") in
       if truthy suggested then
         let confidence := get result (js "confidence") in
         let '(confidenceClass, confidenceText) := confidence_label h confidence in
         let percent := Rounded (PrimFloat.mul (ToNumber h confidence) 100%float) in
         let gender :=
           if truthy (get result (js "detected_gender"))
           then Some (get result (js "detected_gender")) else None in
         let* names := alternative_names (get result (js "alternatives")) in
         show_preview (js "category-preview detected")
           (CategoryDetected (get suggested (js "full_path")) confidenceClass
              confidenceText percent gender names) ;;;
         set_detected suggested
       else
         show_preview (js "category-preview")
           (CategoryHint
              [Lit (js "⚠️ ");
               Val (or_else (get result (js "message"))
                            (JStr (js "Impossible de détecter la catégorie")))]) ;;;
         set_detected JNull)
      (fun _ =>
         show_preview (js "category-preview")
           (CategoryHint [Lit (js "❌ Erreur lors de l'analyse")]) ;;;
         set_detected JNull).

(** ** Status labels *)

Definition translations : gmap jsstring jsstring :=
  list_to_map
    [ (js "draft", js "Brouillon");
      (js "pending", js "En attente");
      (js "scheduled", js "Planifié");
      (js "publishing", js "Publication...");
      (js "published", js "Publié");
      (js "failed", js "Échec");
      (js "deleted", js "Supprimé") ].

(** Members every object literal inherits from [Object.prototype]. *)
Definition object_prototype_keys : list jsstring :=
  List.map js
    [ "constructor"; "__proto__"; "hasOwnProperty"; "isPrototypeOf";
      "propertyIsEnumerable"; "toLocaleString"; "toString"; "valueOf";
      "__defineGetter__"; "__defineSetter__"; "__lookupGetter__";
      "__lookupSetter__" ]%string.

Inductive StatusText : Type :=
| Text (s : jsstring)
| InheritedMember (key : jsstring).

(** [translations[status] || status] *)
Definition translateStatus (status : jsstring) : StatusText :=
  match translations !! status with
  | Some label => if truthy (JStr label) then Text label else Text status
  | None =>
      if bool_decide (status ∈ object_prototype_keys) then InheritedMember status
      else Text status
  end.

(** ** Image upload *)

Definition image_types : list jsstring :=
  [js "image/jpeg"; js "image/png"; js "image/webp"; js "image/gif"].

Definition valid_image (f : File) : Prop := file_type f ∈ image_types.

#[global] Instance valid_image_dec (f : File) : Decision (valid_image f) :=
  decide (file_type f ∈ image_types).

Definition is_high_surrogate (c : char16) : bool := (55296 <=? c) && (c <? 56320).
Definition is_low_surrogate (c : char16) : bool := (56320 <=? c) && (c <? 57344).

(** Iterating a string yields its code points, a surrogate pair as one
    two-unit string. *)
Fixpoint code_points (s : jsstring) : list jsstring :=
  match s with
  | [] => []
  | c :: r =>
      match r with
      | d :: r' =>
          if is_high_surrogate c && is_low_surrogate d
          then [c; d] :: code_points r'
          else [c] :: code_points r
      | [] => [[c]]
      end
  end.

(** What iterating [v] yields: arrays and strings are iterable, nothing
    else that JSON delivers is. *)
Definition iterate (v : JsVal) : option (list JsVal) :=
  match v with
  | JArr l => Some l
  | JStr s => Some (List.map JStr (code_points s))
  | _ => None
  end.

(** [...v] in an argument list *)
Definition spread (v : JsVal) : M (list JsVal) :=
  match iterate v with
  | Some items => ret items
  | None => throw TypeError
  end.

Definition length_part (v : JsVal) : Part :=
  match v with
  | JArr l => Count (length l)
  | JStr s => Count (length s)
  | _ => Val (get v (js "length"))
  end.

Definition renderImagePreviews : M unit :=
  let* w := world in
  let imgs := uploadedImages (app w) in
  if existsb is_nullish imgs then throw TypeError
  else modify (with_dom (set_image_preview
                           (imap (fun index img => (get img (js "url"), index)) imgs))).

Definition handleImageUpload (files : list File) : M unit :=
  let validFiles := filter valid_image files in
  if Nat.eqb (length validFiles) 0 then
    showToast [Lit (js "Aucun fichier image valide")] error
  else
    try_catch
      (let* uploaded := uploadImages validFiles in
       let* items := spread uploaded in
       modify (with_app (fun a => set_uploadedImages (uploadedImages a ++ items) a)) ;;;
       renderImagePreviews ;;;
       showToast [length_part uploaded; Lit (js " image(s) uploadée(s)")] success)
      (fun e => showToast [MessageOf e] error).

(** [splice(index, 1)] with the index an inline handler was rendered with. *)
Definition removeImage (index : nat) : M unit :=
  modify (with_app (fun a => set_uploadedImages (delete index (uploadedImages a)) a)) ;;;
  renderImagePreviews.

(** ** Listing creation *)

Definition comma : char16 := 44.

Definition parse_colors (colorsValue : jsstring) : JsVal :=
  match colorsValue with
  | [] => JNull
  | _ =>
      JArr (List.map JStr
              (List.filter (fun c => truthy (JStr c))
                 (List.map trim (split_on comma colorsValue))))
  end.

(** [this.uploadedImages.map(img => img.id)] *)
Definition image_ids (imgs : list JsVal) : M JsVal :=
  if existsb is_nullish imgs then throw TypeError
  else ret (JArr (List.map (fun img => get img (js "id")) imgs)).

(** The object [data], with [scheduled_at] added when the schedule field
    is filled in; [toISOString] throws on an invalid date. *)
Definition listing_data : M JsVal :=
  let* h := host in
  let* w := world in
  let f := form (dom w) in
  let category := detectedCategory (app w) in
  let* ids := image_ids (uploadedImages (app w)) in
  let data :=
    [ (js "title", JStr (listing_title f));
      (js "description", JStr (listing_description f));
      (js "price", JNum (parse_float h (listing_price f)));
      (js "condition", str_or_null (listing_condition f));
      (js "category", or_else (get category (js "name")) JNull);
      (js "category_path", or_else (get category (js "path")) JNull);
      (js "location", str_or_null (listing_location f));
      (js "brand", str_or_null (listing_brand f));
      (js "size", str_or_null (listing_size f));
      (js "colors", parse_colors (listing_colors f));
      (js "post_to_leboncoin", JBool (post_leboncoin f));
      (js "post_to_vinted", JBool (post_vinted f));
      (js "image_ids", ids) ] in
  match listing_schedule f with
  | [] => ret (JObj data)
  | scheduleValue =>
      match date_parse h scheduleValue with
      | Some t => ret (JObj (data ++ [(js "scheduled_at", JStr (date_iso h t))]))
      | None => throw RangeError
      end
  end.

Definition warn_no_category : Template :=
  [Lit (js "Impossible de détecter la catégorie Vinted. Veuillez préciser le titre.")].

Definition reset_form : M unit :=
  modify (with_dom (fun d => set_form (form_defaults d) d)).

Definition handleCreateListing : M unit :=
  modify (emit EPreventDefault) ;;;
  let* data := listing_data in
  let* w := world in
  let scheduleValue := listing_schedule (form (dom w)) in
  if post_vinted (form (dom w)) && negb (truthy (detectedCategory (app w))) then
    showToast warn_no_category warning
  else
    try_catch
      (let* listing := createListing data in
       showToast [Lit (js "Annonce créée avec succès")] success ;;;
       match scheduleValue with
       | [] =>
           let* id := member listing (js "id") in
           publishListing id ;;;
           showToast [Lit (js "Publication lancée")] success
       | _ => ret tt
       end ;;;
       reset_form ;;;
       modify (with_app (set_uploadedImages [])) ;;;
       set_detected JNull ;;;
       renderImagePreviews ;;;
       show_preview (js "category-preview") (CategoryHint hint_detect) ;;;
       showPage (js "listings"))
      (fun e => showToast [MessageOf e] error).

(** ** Debounced trigger of the analysis

    Timers of the page, with time in milliseconds.  A timer fires when
    the loop reaches its due time; a timer that is due when an input
    event arrives fires before the event is handled. *)

Inductive Callback : Type :=
| RunAnalysis.                    (* [() => this.analyzeVintedCategory()] *)

Record Timer : Type := { timer_id : nat; due : Z; callback : Callback }.

Record Loop : Type := {
  next_id : nat;
  pending : list Timer;                  (* by due time, then by age *)
  categoryDebounceTimer : option nat;    (* [undefined] until the first input *)
  fired : list (Z * Callback)
}.

Definition debounce_delay : Z := 500.

Fixpoint enqueue (t : Timer) (q : list Timer) : list Timer :=
  match q with
  | [] => [t]
  | t' :: r => if (due t' <=? due t)%Z then t' :: enqueue t r else t :: q
  end.

Definition clearTimeout (id : option nat) (l : Loop) : Loop :=
  match id with
  | None => l
  | Some i =>
      {| next_id := next_id l;
         pending := List.filter (fun t => negb (Nat.eqb (timer_id t) i)) (pending l);
         categoryDebounceTimer := categoryDebounceTimer l;
         fired := fired l |}
  end.

Definition setTimeout (cb : Callback) (delay now : Z) (l : Loop) : nat * Loop :=
  (next_id l,
   {| next_id := S (next_id l);
      pending := enqueue {| timer_id := next_id l; due := (now + delay)%Z; callback := cb |}
                   (pending l);
      categoryDebounceTimer := categoryDebounceTimer l;
      fired := fired l |}).

Definition triggerCategoryAnalysis (now : Z) (l : Loop) : Loop :=
  let l1 := clearTimeout (categoryDebounceTimer l) l in
  let '(id, l2) := setTimeout RunAnalysis debounce_delay now l1 in
  {| next_id := next_id l2; pending := pending l2;
     categoryDebounceTimer := Some id; fired := fired l2 |}.

(** Let time pass until [now]: the timers due by then fire, in order. *)
Definition advance (now : Z) (l : Loop) : Loop :=
  let ready := List.filter (fun t => (due t <=? now)%Z) (pending l) in
  {| next_id := next_id l;
     pending := List.filter (fun t => negb (due t <=? now)%Z) (pending l);
     categoryDebounceTimer := categoryDebounceTimer l;
     fired := fired l ++ List.map (fun t => (due t, callback t)) ready |}.

(** Input events on the title or description field, at the given times. *)
Fixpoint input_events (times : list Z) (l : Loop) : Loop :=
  match times with
  | [] => l
  | t :: r => input_events r (triggerCategoryAnalysis t (advance t l))
  end.

(** Nothing more is typed: every timer still pending fires. *)
Definition settle (l : Loop) : Loop :=
  {| next_id := next_id l; pending := [];
     categoryDebounceTimer := categoryDebounceTimer l;
     fired := fired l ++ List.map (fun t => (due t, callback t)) (pending l) |}.

Definition initial_loop : Loop :=
  {| next_id := 0; pending := []; categoryDebounceTimer := None; fired := [] |}.

(** The times at which [analyzeVintedCategory] is called. *)
Definition analysis_calls (times : list Z) : list Z :=
  List.map fst (fired (settle (input_events times initial_loop))).

(** A burst: events in time order, each less than 500 ms after the one
    before. *)
Fixpoint burst (times : list Z) : Prop :=
  match times with
  | t1 :: ((t2 :: _) as r) => (t1 <= t2 < t1 + debounce_delay)%Z /\ burst r
  | _ => True
  end.

(** ** The page when the script has run *)

Definition constructed (stored : option JsVal) (d : Dom) : World :=
  {| api := {| token := match stored with Some t => t | None => JNull end;
               stored_token := stored |};
     app := {| currentPage := js "login"; uploadedImages := [];
               detectedCategory := JUndefined |};
     dom := d;
     trace := [] |}.

(** What the user and the page's handlers can do between two renders. *)
Inductive Action : Type :=
| FillForm (f : Form)
| DropFiles (files : list File)
| RemoveImage (index : nat)
| Analyze
| Submit.

Definition perform (a : Action) : M unit :=
  match a with
  | FillForm f => modify (with_dom (set_form f))
  | DropFiles files => handleImageUpload files
  | RemoveImage index => removeImage index
  | Analyze => analyzeVintedCategory
  | Submit => handleCreateListing
  end.

Fixpoint perform_all (actions : list Action) (h : Host) (w : World) : World :=
  match actions with
  | [] => w
  | a :: r => perform_all r h (snd (perform a h w))
  end.

(** ** The rest of the page: account, dashboard and listings

    The handlers below also touch [this.user], [this.listings] and the
    dashboard and listings elements.  They run over a [Page]: the world
    of the handlers above, and an [Account] beside it. *)

Record Stats : Type := {
  total_listings : nat;             (* [this.listings.length] *)
  published_listings : nat;
  pending_listings : nat;
  failed_listings : nat
}.

Record ActivityItem : Type := {
  activity_emoji : jsstring;
  activity_title : JsVal;
  activity_date : JsVal             (* [created_at], shown by [toLocaleDateString('fr-FR')] *)
}.

(** Content of the element [recent-activity]. *)
Inductive Activity : Type :=
| NoActivity                        (* "Aucune activité récente" *)
| RecentActivity (items : list ActivityItem).

(** The text of a status badge: [translateStatus] of a string, or of a
    value that is no string, whose text is not spelled out. *)
Inductive BadgeText : Type :=
| Label (t : StatusText)
| LabelOf (status : JsVal).

Record Badge : Type := { badge_class : JsVal; badge_text : BadgeText }.

Record Card : Type := {
  card_id : JsVal;
  card_image : JsVal;               (* [src] of the image *)
  card_title : JsVal;
  card_price : float;               (* shown by [toFixed(2)] *)
  card_leboncoin : option Badge;
  card_vinted : option Badge
}.

(** Content of the element [listings-container]. *)
Inductive ListingsView : Type :=
| NoListings                        (* "Vous n'avez pas encore d'annonces" *)
| Cards (cards : list Card).

Record Account : Type := {
  user : JsVal;                     (* [this.user] *)
  listings : JsVal;                 (* [this.listings] *)
  dashboard_stats : option Stats;   (* [None]: as the document came *)
  recent_activity : option Activity;
  listings_container : option ListingsView
}.

Record Page : Type := { base : World; account : Account }.

Definition set_user (u : JsVal) (a : Account) : Account :=
  {| user := u; listings := listings a; dashboard_stats := dashboard_stats a;
     recent_activity := recent_activity a; listings_container := listings_container a |}.
Definition set_listings (l : JsVal) (a : Account) : Account :=
  {| user := user a; listings := l; dashboard_stats := dashboard_stats a;
     recent_activity := recent_activity a; listings_container := listings_container a |}.
Definition set_dashboard (s : Stats) (r : Activity) (a : Account) : Account :=
  {| user := user a; listings := listings a; dashboard_stats := Some s;
     recent_activity := Some r; listings_container := listings_container a |}.
Definition set_listings_container (v : ListingsView) (a : Account) : Account :=
  {| user := user a; listings := listings a; dashboard_stats := dashboard_stats a;
     recent_activity := recent_activity a; listings_container := Some v |}.

Definition MP (A : Type) : Type := Host -> Page -> Outcome A * Page.

Definition retP {A} (a : A) : MP A := fun _ p => (Returned a, p).
Definition throwP {A} (e : Exn) : MP A := fun _ p => (Thrown e, p).
Definition bindP {A B} (m : MP A) (k : A -> MP B) : MP B :=
  fun h p =>
    match m h p with
    | (Returned a, p') => k a h p'
    | (Thrown e, p') => (Thrown e, p')
    end.
Definition try_catchP {A} (m : MP A) (handler : Exn -> MP A) : MP A :=
  fun h p =>
    match m h p with
    | (Returned a, p') => (Returned a, p')
    | (Thrown e, p') => handler e h p'
    end.
(** A computation of the world, run inside the page. *)
Definition lift {A} (m : M A) : MP A :=
  fun h p =>
    match m h (base p) with
    | (o, w') => (o, {| base := w'; account := account p |})
    end.
Definition page : MP Page := fun _ p => (Returned p, p).
Definition modify_account (f : Account -> Account) : MP unit :=
  fun _ p => (Returned tt, {| base := base p; account := f (account p) |}).

Notation "'let+' x ':=' m 'in' k" := (bindP m (fun x => k))
  (at level 10, x name, m at level 100, k at level 200) : js_scope.
Notation "m ';;+' k" := (bindP m (fun _ => k))
  (at level 100, k at level 200, right associativity) : js_scope.

(** [v === 'literal'] *)
Definition is_string (v : JsVal) (s : jsstring) : bool :=
  match v with
  | JStr s' => jsstring_eqb s' s
  | _ => false
  end.

(** [l.leboncoin_status === status || l.vinted_status === status] *)
Definition has_status (status : jsstring) (l : JsVal) : bool :=
  is_string (get l (js "leboncoin_status")) status
  || is_string (get l (js "vinted_status")) status.

Definition getStatusEmoji (listing : JsVal) : jsstring :=
  if has_status (js "published") listing then js "✅"
  else if has_status (js "pending") listing then js "⏳"
  else if has_status (js "failed") listing then js "❌"
  else js "📝".

(** The elements over which [filter] and [map] run their callback, when
    the callback reads a property of each element: only arrays have
    these methods, and no element may be [null] or [undefined]. *)
Definition elements_of (v : JsVal) : MP (list JsVal) :=
  match v with
  | JArr l => if existsb is_nullish l then throwP TypeError else retP l
  | _ => throwP TypeError
  end.

Definition activity_item (listing : JsVal) : ActivityItem :=
  {| activity_emoji := getStatusEmoji listing;
     activity_title := get listing (js "title");
     activity_date := get listing (js "created_at") |}.

Definition loadDashboard : MP unit :=
  try_catchP
    (let+ result := lift getListings in
     modify_account (set_listings result) ;;+
     if is_nullish result then throwP TypeError
     else
       let+ items := elements_of result in
       let total := length items in
       let published := length (List.filter (has_status (js "published")) items) in
       let pending := length (List.filter (has_status (js "pending")) items) in
       let failed := length (List.filter (has_status (js "failed")) items) in
       let recent :=
         match items with
         | [] => NoActivity
         | _ => RecentActivity (List.map activity_item (take 5 items))
         end in
       modify_account
         (set_dashboard
            {| total_listings := total; published_listings := published;
               pending_listings := pending; failed_listings := failed |}
            recent))
    (fun e => lift (showToast [MessageOf e] error)).

(** [images[0]] *)
Definition first_of (images : JsVal) : JsVal :=
  match images with
  | JArr l => match l with x :: _ => x | [] => JUndefined end
  | JStr s => match s with c :: _ => JStr [c] | [] => JUndefined end
  | _ => get images (js "0")
  end.

Definition badge (status : JsVal) : Badge :=
  {| badge_class := status;
     badge_text := match status with
                   | JStr s => Label (translateStatus s)
                   | _ => LabelOf status
                   end |}.

(** One card of the listings page; [listing.images[0]] needs [images],
    and [toFixed] a number. *)
Definition card (listing : JsVal) : MP Card :=
  if is_nullish listing then throwP TypeError
  else if is_nullish (get listing (js "images")) then throwP TypeError
  else
    match get listing (js "price") with
    | JNum price =>
        retP {| card_id := get listing (js "id");
                card_image := or_else (get (first_of (get listing (js "images"))) (js "url"))
                                      (JStr (js "/placeholder.png"));
                card_title := get listing (js "title");
                card_price := price;
                card_leboncoin :=
                  if truthy (get listing (js "post_to_leboncoin"))
                  then Some (badge (get listing (js "leboncoin_status"))) else None;
                card_vinted :=
                  if truthy (get listing (js "post_to_vinted"))
                  then Some (badge (get listing (js "vinted_status"))) else None |}
    | _ => throwP TypeError
    end.

Fixpoint cards_of (items : list JsVal) : MP (list Card) :=
  match items with
  | [] => retP []
  | listing :: rest =>
      let+ c := card listing in
      let+ cs := cards_of rest in
      retP (c :: cs)
  end.

(** [this.listings.length === 0] *)
Definition length_is_zero (v : JsVal) : bool :=
  match v with
  | JArr l => Nat.eqb (length l) 0
  | JStr s => Nat.eqb (length s) 0
  | _ =>
      match get v (js "length") with
      | JNum x => PrimFloat.eqb x 0%float
      | _ => false
      end
  end.

Definition loadListings : MP unit :=
  try_catchP
    (let+ result := lift getListings in
     modify_account (set_listings result) ;;+
     if is_nullish result then throwP TypeError
     else if length_is_zero result then
       modify_account (set_listings_container NoListings)
     else
       match result with
       | JArr items =>
           let+ cs := cards_of items in
           modify_account (set_listings_container (Cards cs))
       | _ => throwP TypeError
       end)
    (fun e => lift (showToast [MessageOf e] error)).

(** The body of a task that [showPage] started. *)
Definition run_task (t : Task) : MP unit :=
  match t with
  | LoadDashboard => loadDashboard
  | LoadListings => loadListings
  end.

(** *** Authentication *)

Definition checkAuth : MP unit :=
  let+ p := page in
  if negb (truthy (token (api (base p)))) then lift (showPage (js "login"))
  else
    try_catchP
      (let+ me := lift getMe in
       modify_account (set_user me) ;;+
       lift (showPage (js "dashboard")))
      (fun _ => lift (showPage (js "login"))).

Definition handleLogin (email password : jsstring) : MP unit :=
  lift (modify (emit EPreventDefault)) ;;+
  try_catchP
    (let+ data := lift (login (JStr email) (JStr password)) in
     let+ u := lift (member data (js "user")) in
     modify_account (set_user u) ;;+
     lift (showToast [Lit (js "Connexion réussie")] success) ;;+
     lift (showPage (js "dashboard")))
    (fun e => lift (showToast [MessageOf e] error)).

Definition handleRegister (username email password telegram : jsstring) : MP unit :=
  lift (modify (emit EPreventDefault)) ;;+
  try_catchP
    (let+ data := lift (register (JStr username) (JStr email) (JStr password)
                          (str_or_null telegram)) in
     let+ u := lift (member data (js "user")) in
     modify_account (set_user u) ;;+
     lift (showToast [Lit (js "Compte créé avec succès")] success) ;;+
     lift (showPage (js "dashboard")))
    (fun e => lift (showToast [MessageOf e] error)).

Definition handleLogout : MP unit :=
  lift clearToken ;;+
  modify_account (set_user JNull) ;;+
  lift (showPage (js "login")) ;;+
  lift (showToast [Lit (js "Déconnexion réussie")] success).

(** *** Actions on a card; [this.loadListings()] is started, not awaited *)

Definition publishListing_app (id : JsVal) : MP unit :=
  try_catchP
    (lift (publishListing id) ;;+
     lift (showToast [Lit (js "Publication lancée")] success) ;;+
     lift (modify (emit (ESpawn LoadListings))))
    (fun e => lift (showToast [MessageOf e] error)).

(** [confirmed] is the user's answer to [confirm(...)]. *)
Definition deleteListing_app (confirmed : bool) (id : JsVal) : MP unit :=
  if negb confirmed then retP tt
  else
    try_catchP
      (lift (deleteListing id) ;;+
       lift (showToast [Lit (js "Annonce supprimée")] success) ;;+
       lift (modify (emit (ESpawn LoadListings))))
      (fun e => lift (showToast [MessageOf e] error)).

Definition constructed_page (stored : option JsVal) (d : Dom) : Page :=
  {| base := constructed stored d;
     account := {| user := JNull; listings := JArr []; dashboard_stats := None;
                   recent_activity := None; listings_container := None |} |}.


(** * Vocabulary of the statements *)

(** ** Requests and answers *)

(** The request that [request] hands to [fetch]. *)
Definition sent (c : ApiClient) (endpoint : Template) (options : Options) : Request :=
  let headers0 : gmap jsstring Template :=
    opt_headers options ∪ {[ js "Content-Type" := [Lit (js "application/json")] ]} in
  {| req_url := Lit API_BASE :: endpoint;
     req_options :=
       {| opt_method := opt_method options;
          opt_headers :=
            if truthy (token c)
            then <[ js "Authorization" := [Lit (js "Bearer "); Val (token c)] ]> headers0
            else headers0;
          opt_body := opt_body options |} |}.

(** What [request] makes of an answer other than 401. *)
Definition settled (status : N) (json : option JsVal) : Outcome JsVal :=
  if negb (response_ok status) then
    let error := match json with Some v => v | None => JObj [] end in
    if is_nullish error then Thrown TypeError
    else Thrown (Error (or_else (get error (js "detail")) (JStr (js "Une erreur est survenue"))))
  else if status =? 204 then Returned JNull
  else match json with Some v => Returned v | None => Thrown SyntaxError end.

Definition session_expired : Exn := Error (JStr (js "Session expirée")).

(** The world once [request] has met a 401. *)
Definition logged_out (h : Host) (w : World) : World :=
  snd (showPage (js "login") h (snd (clearToken h w))).

(** Whatever the page asks next, the server answers 401. *)
Definition unauthorized (h : Host) (w : World) : Prop :=
  forall r, exists json, fetch h (trace w) r = Response 401 json.

Definition through_request (c : ApiCall) : bool :=
  match c with CallUploadImages _ => false | _ => true end.

Definition toast (message : Template) (type : ToastType) : Event :=
  EToast message type (getToastIcon type).

(** What a handler added to the trace. *)
Definition new_events (w w' : World) : list Event := drop (length (trace w)) (trace w').

(** ** Category analysis *)

Definition analyze_request (w : World) : Request :=
  sent (api w) [Lit (js "/categories/analyze")]
    (post (JsonBody (JObj [(js "title", JStr (trim (listing_title (form (dom w)))));
                           (js "description",
                            JStr (trim (listing_description (form (dom w)))))]))).

(** The classifier endpoint answered the request of this analysis with
    [result]. *)
Definition classified (h : Host) (w : World) (result : JsVal) : Prop :=
  (3 <= length (trim (listing_title (form (dom w)))))%nat
  /\ exists status,
       fetch h (trace w) (analyze_request w) = Response status (Some result)
       /\ response_ok status = true /\ status <> 204.

Definition no_category_text : JsVal := JStr (js "Impossible de détecter la catégorie").

Definition loading (w : World) : World :=
  with_dom (set_preview (js "category-preview loading")
              (CategoryHint [Lit (js "🔍 Analyse en cours...")])) w.

Definition shown_alternatives (h : Host) (alts : JsVal) : list JsVal :=
  if truthy alts && length_positive h alts then
    match alts with
    | JArr l => List.map (fun a => get a (js "name")) l
    | _ => []
    end
  else [].

(** The [alternatives] of a result can be listed: there are none to show,
    or they are an array without [null] entries. *)
Definition alternatives_listable (h : Host) (alts : JsVal) : Prop :=
  truthy alts && length_positive h alts = false
  \/ exists l, alts = JArr l /\ existsb is_nullish l = false.

Definition detected_preview (h : Host) (result : JsVal) : PreviewContent :=
  let suggested := get result (js "suggested_category") in
  let confidence := get result (js "confidence") in
  CategoryDetected (get suggested (js "full_path"))
    (fst (confidence_label h confidence)) (snd (confidence_label h confidence))
    (Rounded (PrimFloat.mul (ToNumber h confidence) 100%float))
    (if truthy (get result (js "detected_gender"))
     then Some (get result (js "detected_gender")) else None)
    (shown_alternatives h (get result (js "alternatives"))).

(** ** Status vocabulary of the specification *)

Definition status_vocabulary : list jsstring :=
  List.map js
    ["draft"; "scheduled"; "pending"; "publishing"; "published"; "failed"; "deleted"]%string.

(** ** Debounce *)

Definition debounce_timer (id : nat) (t : Z) : Timer :=
  {| timer_id := id; due := (t + debounce_delay)%Z; callback := RunAnalysis |}.

(** After an input at [t], the loop holds the one timer set by that
    input and nothing else. *)
Definition armed (t : Z) (l : Loop) : Prop :=
  exists id, pending l = [debounce_timer id t] /\ categoryDebounceTimer l = Some id.

(** ** Submission of a listing *)

(** The schedule field is empty or holds a date, and no uploaded image is
    [null]: building [data] does not throw. *)
Definition well_formed_submission (h : Host) (w : World) : Prop :=
  existsb is_nullish (uploadedImages (app w)) = false
  /\ (listing_schedule (form (dom w)) = []
      \/ is_Some (date_parse h (listing_schedule (form (dom w))))).

(** The object [data] the handler builds. *)
Definition payload (h : Host) (w : World) : JsVal :=
  match fst (listing_data h w) with
  | Returned data => data
  | Thrown _ => JUndefined
  end.

(** The guard of [handleCreateListing]: Vinted is targeted and no
    category is stored. *)
Definition blocked (w : World) : bool :=
  post_vinted (form (dom w)) && negb (truthy (detectedCategory (app w))).

Definition create_request (h : Host) (w : World) : Request :=
  sent (api w) [Lit (js "/listings/")] (post (JsonBody (payload h w))).

Definition has_prop (v : JsVal) (k : jsstring) : bool :=
  match v with
  | JObj props => match lookup_prop k props with Some _ => true | None => false end
  | _ => false
  end.

Definition publish_request (w : World) (listing : JsVal) : Request :=
  sent (api w) [Lit (js "/listings/"); Val (get listing (js "id")); Lit (js "/publish")]
    (post NoBody).

Definition is_publish (r : Request) : Prop :=
  exists id, req_url r = [Lit API_BASE; Lit (js "/listings/"); Val id; Lit (js "/publish")].

Definition created_toast : Event := toast [Lit (js "Annonce créée avec succès")] success.

(** [api.createListing(data)] resolved with [listing]. *)
Definition created (h : Host) (w : World) (listing : JsVal) : Prop :=
  exists status json,
    fetch h (trace w ++ [EPreventDefault]) (create_request h w) = Response status json
    /\ status <> 401
    /\ settled status json = Returned listing.

(** ** Uploads *)

Definition upload_request (w : World) (files : list File) : Request :=
  {| req_url := [Lit API_BASE; Lit (js "/uploads/images")];
     req_options :=
       {| opt_method := Some (js "POST");
          opt_headers := {[ js "Authorization" :=
                              [Lit (js "Bearer "); Val (token (api w))] ]};
          opt_body := FormBody files |} |}.

(** [img] came with the answer to an upload whose files all have an
    accepted type. *)
Definition from_validated_upload (h : Host) (tr : list Event) (img : JsVal) : Prop :=
  exists before r after files status uploaded items,
    tr = before ++ EFetch r :: after
    /\ opt_body (req_options r) = FormBody files
    /\ files <> [] /\ Forall valid_image files
    /\ fetch h before r = Response status (Some uploaded)
    /\ iterate uploaded = Some items
    /\ img ∈ items.

Definition images_validated (h : Host) (w : World) : Prop :=
  forall img, img ∈ uploadedImages (app w) -> from_validated_upload h (trace w) img.

(** ** How a computation moves the world *)

(** The trace is left alone. *)
Definition quiet {A} (m : M A) : Prop := forall h w, trace (snd (m h w)) = trace w.

(** The trace only grows and no image is added. *)
Definition advances (w w' : World) : Prop :=
  (exists evs, trace w' = trace w ++ evs)
  /\ uploadedImages (app w') ⊆ uploadedImages (app w).

Definition extends {A} (m : M A) : Prop := forall h w, advances w (snd (m h w)).

(** The computation first adds [evs] to the trace. *)
Definition leads {A} (m : M A) (h : Host) (w : World) (evs : list Event) : Prop :=
  exists rest, trace (snd (m h w)) = trace w ++ evs ++ rest.

(** ** A sample page and sample servers *)

Definition sample_form : Form :=
  {| listing_title := js " Veste en jean taille M ";
     listing_description := js "très bon état";
     listing_price := js "12.5";
     listing_condition := js "good";
     listing_location := [];
     listing_brand := js "Levis";
     listing_size := js "M";
     listing_colors := js "bleu, ,noir";
     listing_schedule := [];
     post_leboncoin := true;
     post_vinted := true |}.

Definition scheduled_form : Form :=
  {| listing_title := listing_title sample_form;
     listing_description := listing_description sample_form;
     listing_price := listing_price sample_form;
     listing_condition := listing_condition sample_form;
     listing_location := listing_location sample_form;
     listing_brand := listing_brand sample_form;
     listing_size := listing_size sample_form;
     listing_colors := listing_colors sample_form;
     listing_schedule := js "2026-11-02T18:30";
     post_leboncoin := true;
     post_vinted := false |}.

Definition short_form : Form :=
  {| listing_title := js "  ab ";
     listing_description := [];
     listing_price := [];
     listing_condition := [];
     listing_location := [];
     listing_brand := [];
     listing_size := [];
     listing_colors := [];
     listing_schedule := [];
     post_leboncoin := false;
     post_vinted := false |}.

Definition sample_dom (f : Form) : Dom :=
  {| pages := List.map js ["login"; "register"; "dashboard"; "listings"; "create"]%string;
     visible_page := Some (js "create");
     nav_active := js "create";
     nav_hidden := false;
     form := f;
     form_defaults := short_form;
     preview_class := js "category-preview";
     preview_content := CategoryHint hint_detect;
     image_preview := [] |}.

Definition sample_world (f : Form) : World :=
  constructed (Some (JStr (js "secret"))) (sample_dom f).

Definition sample_category : JsVal :=
  JObj [(js "name", JStr (js "Vestes en jean"));
        (js "path", JStr (js "femmes/vestes/jean"));
        (js "full_path", JStr (js "Femmes > Vestes > Vestes en jean"))].

(** A primary candidate of low confidence, with two alternatives. *)
Definition sample_result : JsVal :=
  JObj [(js "suggested_category", sample_category);
        (js "confidence", JNum 0.25%float);
        (js "alternatives",
         JArr [JObj [(js "name", JStr (js "Manteaux"))];
               JObj [(js "name", JStr (js "Blousons"))]])].

Definition empty_result : JsVal :=
  JObj [(js "suggested_category", JNull); (js "confidence", JNum 0%float)].

Definition sample_listing : JsVal := JObj [(js "id", JNum 7%float)].

Definition endpoint_of (r : Request) : jsstring :=
  match req_url r with
  | [Lit _; Lit p] => p
  | _ => []
  end.

(** A server that classifies with [result], stores uploads and creates
    listings. *)
Definition serving (result : JsVal) : Host :=
  {| fetch := fun _ r =>
       match opt_body (req_options r) with
       | FormBody files =>
           Response 200
             (Some (JArr (List.map
                            (fun f => JObj [(js "id", JStr (file_name f));
                                            (js "url", JStr (file_name f))])
                            files)))
       | _ =>
           if jsstring_eqb (endpoint_of r) (js "/categories/analyze")
           then Response 200 (Some result)
           else if jsstring_eqb (endpoint_of r) (js "/listings/")
                then Response 201 (Some sample_listing)
                else Response 200 (Some (JObj []))
       end;
     date_parse := fun s => match s with [] => None | _ => Some 1793644200000%Z end;
     date_iso := fun _ => js "2026-11-02T17:30:00.000Z";
     parse_float := fun _ => 12.5%float;
     to_number := fun _ => PrimFloat.nan |}.

(** A server for which the session is over. *)
Definition refusing : Host :=
  {| fetch := fun _ _ => Response 401 None;
     date_parse := fun _ => None;
     date_iso := fun _ => [];
     parse_float := fun _ => PrimFloat.nan;
     to_number := fun _ => PrimFloat.nan |}.

Definition photo : File := {| file_name := js "veste.png"; file_type := js "image/png" |}.
Definition notes : File := {| file_name := js "notes.txt"; file_type := js "text/plain" |}.

(** ** Vocabulary of the further statements *)

(** A string without white space at either end. *)
Definition starts_clean (s : jsstring) : Prop :=
  match s with
  | c :: _ => is_white_space c = false
  | [] => True
  end.

Definition trimmed (s : jsstring) : Prop := starts_clean s /\ starts_clean (rev s).

(** A colour as the server should get it. *)
Definition clean_colour (c : jsstring) : Prop := c <> [] /\ trimmed c /\ comma ∉ c.

Definition blank_or_comma (c : char16) : bool := is_white_space c || (c =? comma).

(** The events after which nothing is typed for 500 ms: the last one, and
    each one followed by a silence of at least that length. *)
Fixpoint followed_by_silence (times : list Z) : list Z :=
  match times with
  | [] => []
  | t :: r =>
      match r with
      | [] => [t]
      | t' :: _ =>
          if (t + debounce_delay <=? t')%Z then t :: followed_by_silence r
          else followed_by_silence r
      end
  end.

(** Times in the order in which events happen. *)
Fixpoint in_time_order (times : list Z) : Prop :=
  match times with
  | t1 :: ((t2 :: _) as r) => (t1 <= t2)%Z /\ in_time_order r
  | _ => True
  end.

(** A piece of [s] between two separators [sep]. *)
Definition piece_of (sep : N) (s p : list N) : Prop :=
  (sep ∉ p) /\ forall x, x ∈ p -> x ∈ s.

(** Headers of a request. *)
Definition authorization (r : Request) : option Template :=
  opt_headers (req_options r) !! js "Authorization".
Definition content_type (r : Request) : option Template :=
  opt_headers (req_options r) !! js "Content-Type".

Definition generic_failure : JsVal := JStr (js "Une erreur est survenue").

(** [api.createListing(data)] failed with [e], the session staying open. *)
Definition creation_fails (h : Host) (w : World) (e : Exn) : Prop :=
  (fetch h (trace w ++ [EPreventDefault]) (create_request h w) = Rejected
   /\ e = NetworkError)
  \/ exists status json,
       fetch h (trace w ++ [EPreventDefault]) (create_request h w) = Response status json
       /\ status <> 401
       /\ settled status json = Thrown e.

(** The trace when [api.publishListing(listing.id)] is called. *)
Definition trace_at_publish (h : Host) (w : World) : list Event :=
  trace w ++ [EPreventDefault; EFetch (create_request h w); created_toast].

(** [api.publishListing(listing.id)] resolved. *)
Definition published (h : Host) (w : World) (listing : JsVal) : Prop :=
  exists status json v,
    fetch h (trace_at_publish h w) (publish_request w listing) = Response status json
    /\ status <> 401
    /\ settled status json = Returned v.

(** [api.publishListing(listing.id)] failed with [e], the session staying
    open. *)
Definition publication_fails (h : Host) (w : World) (listing : JsVal) (e : Exn) : Prop :=
  (fetch h (trace_at_publish h w) (publish_request w listing) = Rejected
   /\ e = NetworkError)
  \/ exists status json,
       fetch h (trace_at_publish h w) (publish_request w listing) = Response status json
       /\ status <> 401
       /\ settled status json = Thrown e.

(** The state a successful submission leaves. *)
Definition form_is_reset (w w' : World) : Prop :=
  uploadedImages (app w') = []
  /\ detectedCategory (app w') = JNull
  /\ form (dom w') = form_defaults (dom w)
  /\ image_preview (dom w') = []
  /\ preview_class (dom w') = js "category-preview"
  /\ preview_content (dom w') = CategoryHint hint_detect
  /\ currentPage (app w') = js "listings"
  /\ api w' = api w.

(** The analysis request got no usable answer: no answer, the end of
    the session, an error, [null], or a suggestion whose alternatives
    cannot be listed. *)
Definition analysis_fails (h : Host) (w : World) : Prop :=
  fetch h (trace w) (analyze_request w) = Rejected
  \/ exists status json,
       fetch h (trace w) (analyze_request w) = Response status json
       /\ (status = 401
           \/ (exists e, settled status json = Thrown e)
           \/ (exists result,
                 settled status json = Returned result
                 /\ (is_nullish result = true
                     \/ (truthy (get result (js "suggested_category")) = true
                         /\ ~ alternatives_listable h (get result (js "alternatives")))))).

Definition analysis_error : PreviewContent :=
  CategoryHint [Lit (js "❌ Erreur lors de l'analyse")].

(** A server that gives the same answer to everything. *)
Definition answering (answer : FetchResult) : Host :=
  {| fetch := fun _ _ => answer;
     date_parse := fun s => match s with [] => None | _ => Some 1793644200000%Z end;
     date_iso := fun _ => js "2026-11-02T17:30:00.000Z";
     parse_float := fun _ => 12.5%float;
     to_number := fun _ => PrimFloat.nan |}.

Definition unprocessable : FetchResult :=
  Response 422 (Some (JObj [(js "detail", JStr (js "Titre trop court"))])).

(** A server that creates listings and fails at everything else. *)
Definition creating_only : Host :=
  {| fetch := fun _ r =>
       if jsstring_eqb (endpoint_of r) (js "/listings/")
       then Response 201 (Some sample_listing)
       else Response 500 None;
     date_parse := fun _ => None;
     date_iso := fun _ => [];
     parse_float := fun _ => 12.5%float;
     to_number := fun _ => PrimFloat.nan |}.

(** A form whose title was cut down to two letters. *)
Definition cut_form : Form :=
  {| listing_title := js "Ve";
     listing_description := listing_description sample_form;
     listing_price := listing_price sample_form;
     listing_condition := listing_condition sample_form;
     listing_location := listing_location sample_form;
     listing_brand := listing_brand sample_form;
     listing_size := listing_size sample_form;
     listing_colors := listing_colors sample_form;
     listing_schedule := [];
     post_leboncoin := true;
     post_vinted := true |}.

(** ** Images and their previews *)

Definition gallery (w : World) : list JsVal * list (JsVal * nat) :=
  (uploadedImages (app w), image_preview (dom w)).

(** Preview [k] shows image [k] and its button removes image [k]. *)
Definition previews_in_sync (w : World) : Prop :=
  image_preview (dom w)
  = imap (fun index img => (get img (js "url"), index)) (uploadedImages (app w)).

Definition no_null_images (w : World) : Prop :=
  existsb is_nullish (uploadedImages (app w)) = false.

(** What the server delivers when iterated holds no [null]. *)
Definition delivers_objects (h : Host) : Prop :=
  forall tr r status v items,
    fetch h tr r = Response status (Some v) -> iterate v = Some items ->
    existsb is_nullish items = false.

(** The gallery is as it was, or empty. *)
Definition kept_or_emptied (w w' : World) : Prop :=
  gallery w' = gallery w \/ gallery w' = ([], []).

Definition same_gallery (w w' : World) : Prop := gallery w' = gallery w.

(** The computation [m] takes every world to one related to it by [R]. *)
Definition respects (R : World -> World -> Prop) {A} (m : M A) : Prop :=
  forall h w, R w (snd (m h w)).

(** ** Account, dashboard and listings *)

Definition login_request (w : World) (email password : jsstring) : Request :=
  sent (api w) [Lit (js "/auth/login")]
    (post (JsonBody (JObj [(js "email", JStr email); (js "password", JStr password)]))).

Definition register_request (w : World) (username email password telegram : jsstring)
    : Request :=
  sent (api w) [Lit (js "/auth/register")]
    (post (JsonBody (JObj [(js "username", JStr username); (js "email", JStr email);
                           (js "password", JStr password);
                           (js "telegram_chat_id", str_or_null telegram)]))).

(** The server accepted the request [r], made when the trace was [tr],
    and answered with the object [data]. *)
Definition accepted (h : Host) (tr : list Event) (r : Request) (data : JsVal) : Prop :=
  exists status,
    fetch h tr r = Response status (Some data)
    /\ response_ok status = true /\ status <> 204.

(** The server turned the request down, the session staying open:
    [request] throws [e]. *)
Definition turned_down (h : Host) (tr : list Event) (r : Request) (e : Exn) : Prop :=
  (fetch h tr r = Rejected /\ e = NetworkError)
  \/ exists status json,
       fetch h tr r = Response status json
       /\ status <> 401
       /\ settled status json = Thrown e.

(** The server answered the request and [request] returns [v]. *)
Definition answered (h : Host) (tr : list Event) (r : Request) (v : JsVal) : Prop :=
  exists status json,
    fetch h tr r = Response status json
    /\ status <> 401
    /\ settled status json = Returned v.

Definition me_request (w : World) : Request := sent (api w) [Lit (js "/auth/me")] no_options.

Definition listings_request (w : World) : Request :=
  sent (api w) [Lit (js "/listings/")] no_options.

Definition delete_request (w : World) (id : JsVal) : Request :=
  sent (api w) [Lit (js "/listings/"); Val id]
    {| opt_method := Some (js "DELETE"); opt_headers := ∅; opt_body := NoBody |}.

Definition publish_request_for (w : World) (id : JsVal) : Request :=
  sent (api w) [Lit (js "/listings/"); Val id; Lit (js "/publish")] (post NoBody).

(** What a handler added to the trace of the page. *)
Definition new_page_events (p p' : Page) : list Event := new_events (base p) (base p').

(** A listing that the listings page can draw: an object with [images]
    and a numeric [price]. *)
Definition drawable (listing : JsVal) : bool :=
  negb (is_nullish listing)
  && negb (is_nullish (get listing (js "images")))
  && match get listing (js "price") with JNum _ => true | _ => false end.

(** The card [c] is the card of [listing]. *)
Definition card_matches (listing : JsVal) (c : Card) : Prop :=
  card_id c = get listing (js "id")
  /\ card_title c = get listing (js "title")
  /\ get listing (js "price") = JNum (card_price c)
  /\ (is_Some (card_leboncoin c) <-> truthy (get listing (js "post_to_leboncoin")) = true)
  /\ (is_Some (card_vinted c) <-> truthy (get listing (js "post_to_vinted")) = true)
  /\ (truthy (get (first_of (get listing (js "images"))) (js "url")) = false ->
      card_image c = JStr (js "/placeholder.png")).

(** An answer over which the loaders cannot iterate: no array, or an
    array that holds [null]. *)
Definition malformed (v : JsVal) : Prop :=
  match v with
  | JArr items => existsb is_nullish items = true
  | _ => True
  end.

(** What the dashboard and the listings page show. *)
Definition views (a : Account) : option Stats * option Activity * option ListingsView :=
  (dashboard_stats a, recent_activity a, listings_container a).

Definition shows (emoji : string) (listing : JsVal) : bool :=
  jsstring_eqb (getStatusEmoji listing) (js emoji).

Definition count_showing (emoji : string) (items : list JsVal) : nat :=
  length (List.filter (shows emoji) items).

(** Listings of a dashboard: one sold on both platforms, one that failed
    on one and is published on the other, one waiting, one draft. *)
Definition sample_listings : list JsVal :=
  [ JObj [(js "id", JNum 1%float); (js "title", JStr (js "Veste"));
          (js "price", JNum 12.5%float); (js "images", JArr []);
          (js "post_to_leboncoin", JBool true); (js "post_to_vinted", JBool true);
          (js "leboncoin_status", JStr (js "published"));
          (js "vinted_status", JStr (js "published"))];
    JObj [(js "id", JNum 2%float); (js "title", JStr (js "Jean"));
          (js "price", JNum 20%float);
          (js "images", JArr [JObj [(js "url", JStr (js "/img/jean.png"))]]);
          (js "post_to_leboncoin", JBool true); (js "post_to_vinted", JBool true);
          (js "leboncoin_status", JStr (js "failed"));
          (js "vinted_status", JStr (js "published"))];
    JObj [(js "id", JNum 3%float); (js "title", JStr (js "Pull"));
          (js "price", JNum 8%float); (js "images", JArr []);
          (js "post_to_leboncoin", JBool true); (js "post_to_vinted", JBool false);
          (js "leboncoin_status", JStr (js "pending"));
          (js "vinted_status", JStr (js "draft"))];
    JObj [(js "id", JNum 4%float); (js "title", JStr (js "Robe"));
          (js "price", JNum 15%float); (js "images", JArr []);
          (js "post_to_leboncoin", JBool false); (js "post_to_vinted", JBool false);
          (js "leboncoin_status", JStr (js "draft"));
          (js "vinted_status", JStr (js "draft"))] ].

Definition sample_page (f : Form) : Page :=
  constructed_page (Some (JStr (js "secret"))) (sample_dom f).

Definition sample_session : JsVal :=
  JObj [(js "access_token", JStr (js "fresh"));
        (js "user", JObj [(js "username", JStr (js "capponuts"))])].


(** * Properties *)

(** ** Order of binary64 numbers *)

Section FloatOrder.

Lemma compare_cont_swap (p q : positive) :
  PosDef.Pos.compare_cont Eq q p = CompOpp (PosDef.Pos.compare_cont Eq p q).
Proof. symmetry. apply (Pos.compare_cont_antisym p q Eq). Qed.

Lemma SFcompare_swap (a b : spec_float) :
  SFcompare b a = option_map CompOpp (SFcompare a b).
Proof.
  destruct a as [sa|sa| |sa ma ea], b as [sb|sb| |sb mb eb]; cbn;
    try reflexivity; try (destruct sa; reflexivity); try (destruct sb; reflexivity);
    try (destruct sa, sb; reflexivity).
  destruct sa, sb; cbn; try reflexivity; f_equal;
    rewrite (Z.compare_antisym ea eb);
    destruct (ea ?= eb)%Z; cbn; try reflexivity;
    rewrite (compare_cont_swap ma mb); reflexivity.
Qed.

Lemma SFltb_negb_SFleb (a b : spec_float) :
  a <> S754_nan -> b <> S754_nan -> SFltb b a = negb (SFleb a b).
Proof.
  intros Ha Hb. unfold SFltb, SFleb. rewrite (SFcompare_swap a b).
  destruct (SFcompare a b) as [[| |]|] eqn:E; cbn; try reflexivity.
  exfalso. destruct a, b; cbn in E; congruence.
Qed.

Lemma not_nan_spec (c : float) : PrimFloat.is_nan c = false -> Prim2SF c <> S754_nan.
Proof.
  unfold PrimFloat.is_nan. rewrite FloatAxioms.eqb_spec. intros H E.
  rewrite E in H. cbn in H. discriminate H.
Qed.

(** Away from NaN, [c < k] is the negation of [k <= c]. *)
Lemma ltb_negb_leb (k c : float) :
  PrimFloat.is_nan k = false -> PrimFloat.is_nan c = false ->
  PrimFloat.ltb c k = negb (PrimFloat.leb k c).
Proof.
  intros Hk Hc. rewrite ltb_spec, leb_spec.
  apply SFltb_negb_SFleb; apply not_nan_spec; assumption.
Qed.

Lemma thresholds_spec :
  Prim2SF threshold_high = S754_finite false 6305039478318694 (-53)
  /\ Prim2SF threshold_medium = S754_finite false 7205759403792794 (-54).
Proof. split; vm_compute; reflexivity. Qed.

Lemma thresholds_not_nan :
  PrimFloat.is_nan threshold_high = false /\ PrimFloat.is_nan threshold_medium = false.
Proof. split; vm_compute; reflexivity. Qed.

Lemma below_medium_below_high (c : float) :
  PrimFloat.ltb c threshold_medium = true -> PrimFloat.leb threshold_high c = false.
Proof.
  rewrite ltb_spec, leb_spec.
  destruct thresholds_spec as [Hh Hm]. rewrite Hh, Hm. clear Hh Hm.
  destruct (Prim2SF c) as [s|s| |s m e]; cbv beta iota delta [SFltb SFleb SFcompare].
  - intros _. reflexivity.
  - destruct s; intros H; [reflexivity|discriminate H].
  - intros H. discriminate H.
  - destruct s; [reflexivity|].
    destruct (Z.compare_spec e (-54)) as [He|Hlt|Hgt].
    + intros _. subst e. reflexivity.
    + intros _. destruct (Z.compare_spec (-53) e); [lia|lia|reflexivity].
    + intros H. discriminate H.
Qed.

End FloatOrder.

Lemma confidence_classes_differ :
  js "confidence-high" <> js "confidence-medium"
  /\ js "confidence-high" <> js "confidence-low"
  /\ js "confidence-medium" <> js "confidence-low".
Proof. repeat split; intros E; vm_compute in E; discriminate E. Qed.

(** ** Status labels *)

Lemma translations_domain (status : jsstring) :
  is_Some (translations !! status) <-> status ∈ status_vocabulary.
Proof.
  rewrite <- elem_of_dom. unfold translations.
  rewrite dom_list_to_map_L, elem_of_list_to_set.
  cbn [fmap list_fmap fst status_vocabulary List.map].
  rewrite !elem_of_cons. rewrite !elem_of_nil. tauto.
Qed.

(** C4: [translateStatus] gives a French label to each of the seven
    statuses [draft], [scheduled], [pending], [publishing], [published],
    [failed], [deleted]; the table has an entry for these seven keys and
    for no other; a status outside the table (and outside what every
    object inherits) is shown as it is. *)
Theorem translateStatus_vocabulary :
  (translateStatus (js "draft") = Text (js "Brouillon")
   /\ translateStatus (js "scheduled") = Text (js "Planifié")
   /\ translateStatus (js "pending") = Text (js "En attente")
   /\ translateStatus (js "publishing") = Text (js "Publication...")
   /\ translateStatus (js "published") = Text (js "Publié")
   /\ translateStatus (js "failed") = Text (js "Échec")
   /\ translateStatus (js "deleted") = Text (js "Supprimé"))
  /\ (forall status, is_Some (translations !! status) <-> status ∈ status_vocabulary)
  /\ (forall status, status ∉ status_vocabulary -> status ∉ object_prototype_keys ->
        translateStatus status = Text status).
Proof.
  split; [ repeat split; vm_compute; reflexivity |].
  split; [ apply translations_domain |].
  intros status Hv Hp. unfold translateStatus.
  destruct (translations !! status) as [label|] eqn:E.
  - exfalso. apply Hv, translations_domain. rewrite E. eauto.
  - rewrite bool_decide_eq_false_2 by exact Hp. reflexivity.
Qed.

Lemma translateStatus_vocabulary_witness :
  (js "sold" ∉ status_vocabulary) /\ (js "sold" ∉ object_prototype_keys)
  /\ translateStatus (js "sold") = Text (js "sold").
Proof.
  assert (Hv : js "sold" ∉ status_vocabulary)
    by (apply (bool_decide_unpack _); vm_compute; reflexivity).
  assert (Hp : js "sold" ∉ object_prototype_keys)
    by (apply (bool_decide_unpack _); vm_compute; reflexivity).
  split; [exact Hv|]. split; [exact Hp|].
  exact (proj2 (proj2 translateStatus_vocabulary) (js "sold") Hv Hp).
Defined.

(** ** Debounce *)

Lemma trigger_arms (t : Z) (l : Loop) :
  pending l = [] ->
  armed t (triggerCategoryAnalysis t l) /\ fired (triggerCategoryAnalysis t l) = fired l.
Proof.
  intros Hp. unfold triggerCategoryAnalysis, armed.
  destruct (categoryDebounceTimer l) as [i|]; cbn; rewrite Hp; cbn; eauto.
Qed.

Lemma trigger_rearms (t t' : Z) (l : Loop) :
  armed t l -> (t <= t' < t + debounce_delay)%Z ->
  armed t' (triggerCategoryAnalysis t' (advance t' l))
  /\ fired (triggerCategoryAnalysis t' (advance t' l)) = fired l.
Proof.
  intros (id & Hp & Hc) Hgap.
  unfold triggerCategoryAnalysis, advance, armed. cbn. rewrite Hc, Hp. cbn.
  replace (t + debounce_delay <=? t')%Z with false by (symmetry; apply Z.leb_gt; lia).
  cbn. rewrite Nat.eqb_refl. cbn. rewrite app_nil_r. eauto.
Qed.

Lemma last_cons_cons (r : list Z) : forall t t' : Z, List.last (t' :: r) t = List.last r t'.
Proof.
  induction r as [|a r IH]; intros t t'; [reflexivity|].
  change (List.last (a :: r) t = List.last (a :: r) t').
  rewrite (IH t a), (IH t' a). reflexivity.
Qed.

Lemma input_events_burst (times : list Z) : forall (t : Z) (l : Loop),
  armed t l -> burst (t :: times) ->
  armed (List.last times t) (input_events times l)
  /\ fired (input_events times l) = fired l.
Proof.
  induction times as [|t' r IH]; intros t l Ha Hb.
  - cbn. auto.
  - destruct Hb as [Hgap Hb].
    destruct (trigger_rearms t t' l Ha Hgap) as [Ha' Hf'].
    destruct (IH t' _ Ha' Hb) as [Ha'' Hf''].
    cbn [input_events]. rewrite Hf'', Hf', last_cons_cons. auto.
Qed.

(** C5: during a burst of input events (each less than 500 ms after the
    one before) every event replaces the timer of the one before, so that
    one timer is pending and none has fired; when the burst is over
    [analyzeVintedCategory] is called once, 500 ms after the last event. *)
Theorem debounce_coalesces (t : Z) (times : list Z) :
  burst (t :: times) ->
  armed (List.last times t) (input_events (t :: times) initial_loop)
  /\ fired (input_events (t :: times) initial_loop) = []
  /\ analysis_calls (t :: times) = [(List.last times t + debounce_delay)%Z].
Proof.
  intros Hb.
  destruct (trigger_arms t (advance t initial_loop) eq_refl) as [Ha Hf].
  destruct (input_events_burst times t _ Ha Hb) as [Ha' Hf'].
  cbn [input_events]. repeat split; [exact Ha'| rewrite Hf', Hf; reflexivity |].
  unfold analysis_calls, settle. cbn [input_events fired].
  rewrite Hf', Hf. destruct Ha' as (id & Hp & _). rewrite Hp. reflexivity.
Qed.

Lemma debounce_coalesces_witness :
  burst [0; 120; 400; 899]%Z /\ analysis_calls [0; 120; 400; 899]%Z = [1399%Z].
Proof.
  assert (Hb : burst [0; 120; 400; 899]%Z) by (unfold burst, debounce_delay; lia).
  split; [exact Hb|].
  exact (proj2 (proj2 (debounce_coalesces 0 [120; 400; 899]%Z Hb))).
Defined.

(** ** Requests *)

Lemma request_unfold (endpoint : Template) (options : Options) (h : Host) (w : World) :
  request endpoint options h w =
  let r := sent (api w) endpoint options in
  match fetch h (trace w) r with
  | Rejected => (Thrown NetworkError, emit (EFetch r) w)
  | Response status json =>
      if status =? 401 then (Thrown session_expired, logged_out h (emit (EFetch r) w))
      else (settled status json, emit (EFetch r) w)
  end.
Proof.
  unfold request, bind, world, do_fetch, sent. cbn zeta.
  destruct (fetch h (trace w) _) as [|status json]; [reflexivity|].
  unfold settled, logged_out.
  destruct (status =? 401); [reflexivity|].
  destruct (negb (response_ok status)).
  - destruct (is_nullish _); reflexivity.
  - destruct (status =? 204); [reflexivity|]. destruct json; reflexivity.
Qed.

Lemma login_is_no_loader :
  jsstring_eqb (js "login") (js "dashboard") = false
  /\ jsstring_eqb (js "login") (js "listings") = false.
Proof. split; vm_compute; reflexivity. Qed.

Lemma listings_is_loader :
  jsstring_eqb (js "listings") (js "dashboard") = false
  /\ jsstring_eqb (js "listings") (js "listings") = true.
Proof. split; vm_compute; reflexivity. Qed.

Lemma logged_out_api h w : api (logged_out h w) = {| token := JNull; stored_token := None |}.
Proof.
  unfold logged_out, showPage, clearToken, modify. cbn.
  destruct login_is_no_loader as [-> ->]. reflexivity.
Qed.

Lemma logged_out_app h w : app (logged_out h w) = set_currentPage (js "login") (app w).
Proof.
  unfold logged_out, showPage, clearToken, modify. cbn.
  destruct login_is_no_loader as [-> ->]. reflexivity.
Qed.

Lemma logged_out_trace h w : trace (logged_out h w) = trace w.
Proof.
  unfold logged_out, showPage, clearToken, modify. cbn.
  destruct login_is_no_loader as [-> ->]. reflexivity.
Qed.

Lemma request_unauthorized endpoint options h w :
  unauthorized h w ->
  request endpoint options h w =
    (Thrown session_expired, logged_out h (emit (EFetch (sent (api w) endpoint options)) w)).
Proof.
  intros Hu. rewrite request_unfold. cbn zeta.
  destruct (Hu (sent (api w) endpoint options)) as [json ->]. reflexivity.
Qed.

Lemma request_trace endpoint options h w :
  trace (snd (request endpoint options h w)) = trace w ++ [EFetch (sent (api w) endpoint options)].
Proof.
  rewrite request_unfold. cbn zeta.
  destruct (fetch h (trace w) _) as [|status json]; [reflexivity|].
  destruct (status =? 401); cbn [snd]; [rewrite logged_out_trace|]; reflexivity.
Qed.

Lemma request_images endpoint options h w :
  uploadedImages (app (snd (request endpoint options h w))) = uploadedImages (app w).
Proof.
  rewrite request_unfold. cbn zeta.
  destruct (fetch h (trace w) _) as [|status json]; [reflexivity|].
  destruct (status =? 401); cbn [snd]; [rewrite logged_out_app|]; reflexivity.
Qed.

Lemma ok_not_401 status : response_ok status = true -> (status =? 401) = false.
Proof.
  unfold response_ok. intros H. apply andb_prop in H as [_ H].
  apply N.leb_le in H. apply N.eqb_neq. lia.
Qed.

Lemma settled_ok status result :
  response_ok status = true -> status <> 204 -> settled status (Some result) = Returned result.
Proof.
  intros Hok H204. unfold settled. rewrite Hok. cbn.
  apply N.eqb_neq in H204. rewrite H204. reflexivity.
Qed.


(** ** Computations that leave the trace alone *)

Lemma quiet_ret {A} (a : A) : quiet (ret a).
Proof. intros h w; reflexivity. Qed.

Lemma quiet_throw {A} (e : Exn) : quiet (@throw A e).
Proof. intros h w; reflexivity. Qed.

Lemma quiet_bind {A B} (m : M A) (k : A -> M B) :
  quiet m -> (forall a, quiet (k a)) -> quiet (bind m k).
Proof.
  intros Hm Hk h w. unfold bind. specialize (Hm h w).
  destruct (m h w) as [[a|e] w1]; cbn in *; [rewrite Hk|]; exact Hm.
Qed.

Lemma quiet_show_preview cls c : quiet (show_preview cls c).
Proof. intros h w; reflexivity. Qed.

Lemma quiet_set_detected c : quiet (set_detected c).
Proof. intros h w; reflexivity. Qed.

Lemma quiet_member v k : quiet (member v k).
Proof. intros h w. unfold member. destruct (is_nullish v); reflexivity. Qed.

Lemma quiet_alternative_names alts : quiet (alternative_names alts).
Proof.
  intros h w. unfold alternative_names, bind, host. cbn.
  destruct (truthy alts && length_positive h alts); [|reflexivity].
  destruct alts; try reflexivity. destruct (existsb is_nullish items); reflexivity.
Qed.

(** One request inside a [try], quiet code after it and in the handler:
    the request is all that the trace gains. *)
Lemma trace_request_then {A} endpoint options (k : JsVal -> M A) (handler : Exn -> M A) h w :
  (forall v, quiet (k v)) -> (forall e, quiet (handler e)) ->
  trace (snd (try_catch (bind (request endpoint options) k) handler h w))
  = trace w ++ [EFetch (sent (api w) endpoint options)].
Proof.
  intros Hk Hh. unfold try_catch, bind.
  pose proof (request_trace endpoint options h w) as Ht.
  destruct (request endpoint options h w) as [[v|e] w1]; cbn in Ht.
  - specialize (Hk v h w1). destruct (k v h w1) as [[a|e] w2]; cbn in *.
    + congruence.
    + rewrite Hh. congruence.
  - rewrite Hh. exact Ht.
Qed.

(** ** Category analysis *)

(** C2: with a trimmed title of fewer than 3 code units
    [analyzeVintedCategory] only shows the hint and returns, the trace is
    untouched (no call of the classifier endpoint); with 3 or more, the
    request to [/categories/analyze] is what the trace gains. *)
Theorem short_title_never_analyzed (h : Host) (w : World) :
  let title := trim (listing_title (form (dom w))) in
  ((length title < 3)%nat ->
     analyzeVintedCategory h w =
       (Returned tt,
        with_dom (set_preview (js "category-preview") (CategoryHint hint_detect)) w))
  /\ ((3 <= length title)%nat ->
     trace (snd (analyzeVintedCategory h w)) = trace w ++ [EFetch (analyze_request w)]).
Proof.
  cbn zeta. split; intros Hlen.
  - unfold analyzeVintedCategory, bind, host, world.
    apply Nat.ltb_lt in Hlen. rewrite Hlen. reflexivity.
  - unfold analyzeVintedCategory. unfold bind at 1 2, host, world.
    apply Nat.ltb_ge in Hlen. rewrite Hlen.
    unfold bind at 1. cbn [show_preview modify].
    unfold analyzeCategory. rewrite trace_request_then.
    + reflexivity.
    + intros result. apply quiet_bind; [apply quiet_member|]. intros suggested.
      destruct (truthy suggested).
      * destruct (confidence_label h _).
        apply quiet_bind; [apply quiet_alternative_names|]. intros names.
        apply quiet_bind; [apply quiet_show_preview|]. intros _.
        apply quiet_set_detected.
      * apply quiet_bind; [apply quiet_show_preview|]. intros _.
        apply quiet_set_detected.
    + intros e. apply quiet_bind; [apply quiet_show_preview|]. intros _.
      apply quiet_set_detected.
Qed.

Lemma analyze_request_returns h w result :
  classified h w result ->
  forall cls c,
  analyzeCategory (trim (listing_title (form (dom w))))
    (trim (listing_description (form (dom w)))) h (with_dom (set_preview cls c) w)
  = (Returned result, emit (EFetch (analyze_request w)) (with_dom (set_preview cls c) w)).
Proof.
  intros (_ & status & Hf & Hok & H204) cls c.
  unfold analyzeCategory. rewrite request_unfold. cbn zeta.
  change (sent (api (with_dom (set_preview cls c) w)) ?e ?o) with (analyze_request w).
  change (trace (with_dom (set_preview cls c) w)) with (trace w).
  rewrite Hf, (ok_not_401 _ Hok), (settled_ok _ _ Hok H204). reflexivity.
Qed.

Lemma analyze_without_candidate (h : Host) (w : World) (result : JsVal) :
  classified h w result ->
  is_nullish result = false ->
  truthy (get result (js "suggested_category")) = false ->
  analyzeVintedCategory h w =
    (Returned tt,
     with_app (set_detectedCategory JNull)
       (with_dom
          (set_preview (js "category-preview")
             (CategoryHint [Lit (js "⚠️ ");
                            Val (or_else (get result (js "message")) no_category_text)]))
          (emit (EFetch (analyze_request w)) (loading w)))).
Proof.
  intros Hc Hnn Hsc. pose proof Hc as [Hlen _]. apply Nat.ltb_ge in Hlen.
  unfold analyzeVintedCategory. unfold bind at 1 2, host, world.
  rewrite Hlen. unfold bind at 1. cbn [show_preview modify].
  unfold try_catch. unfold bind at 1.
  rewrite (analyze_request_returns h w result Hc).
  unfold bind at 1. unfold member. rewrite Hnn. cbn [ret]. rewrite Hsc.
  reflexivity.
Qed.


Lemma alternative_names_listable h w alts :
  alternatives_listable h alts ->
  alternative_names alts h w = (Returned (shown_alternatives h alts), w).
Proof.
  unfold alternative_names, shown_alternatives, bind, host.
  intros [Hno | (l & -> & Hl)].
  - rewrite Hno. reflexivity.
  - destruct (truthy (JArr l) && length_positive h (JArr l)); [|reflexivity].
    rewrite Hl. reflexivity.
Qed.

Lemma truthy_get_not_nullish v k : truthy (get v k) = true -> is_nullish v = false.
Proof. destruct v; cbn; congruence. Qed.

Lemma analyze_with_candidate (h : Host) (w : World) (result : JsVal) :
  classified h w result ->
  truthy (get result (js "suggested_category")) = true ->
  alternatives_listable h (get result (js "alternatives")) ->
  analyzeVintedCategory h w =
    (Returned tt,
     with_app (set_detectedCategory (get result (js "suggested_category")))
       (with_dom (set_preview (js "category-preview detected") (detected_preview h result))
          (emit (EFetch (analyze_request w)) (loading w)))).
Proof.
  intros Hc Hsc Hal. pose proof Hc as [Hlen _]. apply Nat.ltb_ge in Hlen.
  unfold analyzeVintedCategory. unfold bind at 1 2, host, world.
  rewrite Hlen. unfold bind at 1. cbn [show_preview modify].
  unfold try_catch. unfold bind at 1.
  rewrite (analyze_request_returns h w result Hc).
  unfold bind at 1. unfold member. rewrite (truthy_get_not_nullish _ _ Hsc).
  cbn [ret]. rewrite Hsc. unfold detected_preview.
  destruct (confidence_label h (get result (js "confidence"))) as [cls txt].
  unfold bind at 1. rewrite (alternative_names_listable h _ _ Hal).
  reflexivity.
Qed.

Ltac clash :=
  match goal with
  | H : ?a = ?b, N : ?a <> ?b |- _ => destruct (N H)
  | H : ?a = ?b, N : ?b <> ?a |- _ => destruct (N (eq_sym H))
  end.


(** ** Computations that only add to the trace *)

Lemma advances_refl w : advances w w.
Proof. split; [exists []; rewrite app_nil_r; reflexivity | intros x Hx; exact Hx]. Qed.

Lemma advances_trans w1 w2 w3 : advances w1 w2 -> advances w2 w3 -> advances w1 w3.
Proof.
  intros [[e1 H1] S1] [[e2 H2] S2]. split.
  - exists (e1 ++ e2). rewrite H2, H1, app_assoc. reflexivity.
  - intros x Hx. apply S1, S2, Hx.
Qed.

Lemma advances_same w w' :
  trace w' = trace w -> uploadedImages (app w') = uploadedImages (app w) -> advances w w'.
Proof.
  intros Ht Hi. split; [exists []; rewrite app_nil_r; exact Ht|].
  rewrite Hi. intros x Hx; exact Hx.
Qed.

Lemma advances_emit e w : advances w (emit e w).
Proof. split; [exists [e]; reflexivity | intros x Hx; exact Hx]. Qed.

Lemma extends_trace {A} (m : M A) h w :
  extends m -> exists evs, trace (snd (m h w)) = trace w ++ evs.
Proof. intros H. apply (H h w). Qed.

Lemma extends_ret {A} (a : A) : extends (ret a).
Proof. intros h w. apply advances_refl. Qed.

Lemma extends_throw {A} (e : Exn) : extends (@throw A e).
Proof. intros h w. apply advances_refl. Qed.

Lemma extends_world : extends world.
Proof. intros h w. apply advances_refl. Qed.

Lemma extends_host : extends host.
Proof. intros h w. apply advances_refl. Qed.

Lemma extends_bind {A B} (m : M A) (k : A -> M B) :
  extends m -> (forall a, extends (k a)) -> extends (bind m k).
Proof.
  intros Hm Hk h w. unfold bind. specialize (Hm h w).
  destruct (m h w) as [[a|e] w1]; cbn [snd] in *; [|exact Hm].
  eapply advances_trans; [exact Hm | apply Hk].
Qed.

Lemma extends_try_catch {A} (m : M A) (k : Exn -> M A) :
  extends m -> (forall e, extends (k e)) -> extends (try_catch m k).
Proof.
  intros Hm Hk h w. unfold try_catch. specialize (Hm h w).
  destruct (m h w) as [[a|e] w1]; cbn [snd] in *; [exact Hm|].
  eapply advances_trans; [exact Hm | apply Hk].
Qed.

Lemma extends_request endpoint options : extends (request endpoint options).
Proof.
  intros h w. split.
  - eexists. apply request_trace.
  - rewrite request_images. intros x Hx; exact Hx.
Qed.

Lemma extends_showToast message type : extends (showToast message type).
Proof. intros h w. apply advances_emit. Qed.

Lemma extends_showPage page : extends (showPage page).
Proof.
  intros h w. unfold showPage, modify. cbn [snd].
  destruct (jsstring_eqb page (js "dashboard"));
    [|destruct (jsstring_eqb page (js "listings"))];
    (split; [|intros x Hx; exact Hx]).
  - eexists. reflexivity.
  - eexists. reflexivity.
  - exists []. rewrite app_nil_r. reflexivity.
Qed.

Lemma extends_show_preview cls c : extends (show_preview cls c).
Proof. intros h w. apply advances_same; reflexivity. Qed.

Lemma extends_set_detected c : extends (set_detected c).
Proof. intros h w. apply advances_same; reflexivity. Qed.

Lemma extends_reset_form : extends reset_form.
Proof. intros h w. apply advances_same; reflexivity. Qed.

Lemma extends_member v k : extends (member v k).
Proof. intros h w. unfold member. destruct (is_nullish v); apply advances_refl. Qed.

Lemma extends_alternative_names alts : extends (alternative_names alts).
Proof.
  intros h w. unfold alternative_names, bind, host. cbn.
  destruct (truthy alts && length_positive h alts); [|apply advances_refl].
  destruct alts; try apply advances_refl.
  destruct (existsb is_nullish items); apply advances_refl.
Qed.

Lemma extends_renderImagePreviews : extends renderImagePreviews.
Proof.
  intros h w. unfold renderImagePreviews, bind, world.
  destruct (existsb is_nullish _); apply advances_same; reflexivity.
Qed.

Lemma extends_clear_images : extends (modify (with_app (set_uploadedImages []))).
Proof.
  intros h w. split; [exists []; rewrite app_nil_r; reflexivity|].
  intros x Hx. cbn in Hx. apply elem_of_nil in Hx. destruct Hx.
Qed.

Lemma extends_prevent_default : extends (modify (emit EPreventDefault)).
Proof. intros h w. apply advances_emit. Qed.

Create HintDb traces.
#[local] Hint Resolve extends_ret extends_throw extends_world extends_host
  extends_request extends_showToast extends_showPage extends_show_preview
  extends_set_detected extends_reset_form extends_member extends_alternative_names
  extends_renderImagePreviews extends_clear_images extends_prevent_default : traces.

Ltac extends_tac :=
  repeat first
    [ progress intros
    | solve [ auto with traces ]
    | match goal with |- extends (match ?x with _ => _ end) => destruct x end
    | match goal with |- extends (if ?x then _ else _) => destruct x end
    | apply extends_bind
    | apply extends_try_catch ].

Lemma leads_bind {A B} (m : M A) (k : A -> M B) h w evs :
  leads m h w evs -> (forall a, extends (k a)) -> leads (bind m k) h w evs.
Proof.
  intros [rest Hm] Hk. unfold leads, bind.
  destruct (m h w) as [[a|x] w1]; cbn [snd] in *.
  - destruct (extends_trace (k a) h w1 (Hk a)) as [more He]. exists (rest ++ more).
    rewrite He, Hm, <- !app_assoc. reflexivity.
  - eauto.
Qed.

Lemma leads_try_catch {A} (m : M A) (k : Exn -> M A) h w evs :
  leads m h w evs -> (forall x, extends (k x)) -> leads (try_catch m k) h w evs.
Proof.
  intros [rest Hm] Hk. unfold leads, try_catch.
  destruct (m h w) as [[a|x] w1]; cbn [snd] in *.
  - eauto.
  - destruct (extends_trace (k x) h w1 (Hk x)) as [more He]. exists (rest ++ more).
    rewrite He, Hm, <- !app_assoc. reflexivity.
Qed.

Lemma leads_request endpoint options h w :
  leads (request endpoint options) h w [EFetch (sent (api w) endpoint options)].
Proof. exists []. rewrite app_nil_r. apply request_trace. Qed.

Lemma leads_ret_bind {A B} (a : A) (k : A -> M B) h w evs :
  leads (k a) h w evs -> leads (bind (ret a) k) h w evs.
Proof. intros H. exact H. Qed.

Lemma leads_toast_bind {B} message type (k : unit -> M B) h w evs :
  leads (k tt) h (emit (toast message type) w) evs ->
  leads (bind (showToast message type) k) h w (toast message type :: evs).
Proof.
  intros [rest H]. exists rest. unfold bind. cbn [showToast modify].
  unfold toast in H. rewrite H. cbn [emit trace]. rewrite <- app_assoc. reflexivity.
Qed.

Lemma try_catch_bind_returned {A B} (m : M A) (k : A -> M B) handler h w a w1 :
  m h w = (Returned a, w1) ->
  try_catch (bind m k) handler h w = try_catch (k a) handler h w1.
Proof. intros E. unfold try_catch, bind. rewrite E. reflexivity. Qed.

Lemma new_events_app w w' evs : trace w' = trace w ++ evs -> new_events w w' = evs.
Proof. intros E. unfold new_events. rewrite E. apply drop_app_length. Qed.

(** ** Submission of a listing *)

Lemma listing_data_pure h w : listing_data h w = (fst (listing_data h w), w).
Proof.
  unfold listing_data, bind, host, world, image_ids.
  destruct (existsb is_nullish _); [reflexivity|]. cbn [ret].
  destruct (listing_schedule _); [reflexivity|].
  destruct (date_parse h _); reflexivity.
Qed.

Lemma listing_data_emit h w e :
  fst (listing_data h (emit e w)) = fst (listing_data h w).
Proof.
  unfold listing_data, bind, host, world, image_ids. cbn [emit app dom].
  destruct (existsb is_nullish _); [reflexivity|]. cbn [ret].
  destruct (listing_schedule _); [reflexivity|].
  destruct (date_parse h _); reflexivity.
Qed.

Lemma listing_data_returns h w :
  well_formed_submission h w -> fst (listing_data h w) = Returned (payload h w).
Proof.
  intros [Himg Hs]. unfold payload.
  unfold listing_data, bind, host, world, image_ids. rewrite Himg. cbn [ret].
  destruct (listing_schedule _) as [|c s]; [reflexivity|].
  destruct Hs as [Hs|[t Ht]]; [discriminate Hs|]. rewrite Ht. reflexivity.
Qed.

Lemma listing_data_throws h w :
  ~ well_formed_submission h w -> exists e, fst (listing_data h w) = Thrown e.
Proof.
  intros Hn. unfold listing_data, bind, host, world, image_ids.
  destruct (existsb is_nullish _) eqn:Himg; [eexists; reflexivity|]. cbn [ret].
  destruct (listing_schedule _) as [|c s] eqn:Hs.
  - exfalso. apply Hn. split; [exact Himg|]. left. exact Hs.
  - destruct (date_parse h (c :: s)) eqn:Hd; [|eexists; reflexivity].
    exfalso. apply Hn. split; [exact Himg|]. right. rewrite Hs, Hd. eauto.
Qed.

Lemma payload_image_ids h w :
  well_formed_submission h w ->
  get (payload h w) (js "image_ids")
  = JArr (List.map (fun img => get img (js "id")) (uploadedImages (app w))).
Proof.
  intros [Himg Hs]. unfold payload, listing_data, bind, host, world, image_ids.
  rewrite Himg. cbn [ret fst].
  destruct (listing_schedule _) as [|c s]; [reflexivity|].
  destruct Hs as [Hs|[t Ht]]; [discriminate Hs|]. rewrite Ht. reflexivity.
Qed.

Lemma payload_unscheduled h w :
  well_formed_submission h w -> listing_schedule (form (dom w)) = [] ->
  has_prop (payload h w) (js "scheduled_at") = false.
Proof.
  intros [Himg _] Hs. unfold payload, listing_data, bind, host, world, image_ids.
  rewrite Himg, Hs. reflexivity.
Qed.

Lemma payload_scheduled h w t :
  well_formed_submission h w -> listing_schedule (form (dom w)) <> [] ->
  date_parse h (listing_schedule (form (dom w))) = Some t ->
  get (payload h w) (js "scheduled_at") = JStr (date_iso h t).
Proof.
  intros [Himg _] Hs Ht. unfold payload, listing_data, bind, host, world, image_ids.
  rewrite Himg. cbn [ret fst].
  destruct (listing_schedule _) as [|c s]; [congruence|].
  rewrite Ht. reflexivity.
Qed.

(** [handleCreateListing] up to its [try] block, which runs in the world
    where the default of the event has been prevented. *)
Lemma handleCreateListing_unfold h w :
  handleCreateListing h w =
  let w0 := emit EPreventDefault w in
  match fst (listing_data h w) with
  | Thrown e => (Thrown e, w0)
  | Returned data =>
      if blocked w then (Returned tt, emit (toast warn_no_category warning) w0)
      else
        try_catch
          (let* listing := createListing data in
           showToast [Lit (js "Annonce créée avec succès")] success ;;;
           match listing_schedule (form (dom w)) with
           | [] =>
               let* id := member listing (js "id") in
               publishListing id ;;;
               showToast [Lit (js "Publication lancée")] success
           | _ => ret tt
           end ;;;
           reset_form ;;;
           modify (with_app (set_uploadedImages [])) ;;;
           set_detected JNull ;;;
           renderImagePreviews ;;;
           show_preview (js "category-preview") (CategoryHint hint_detect) ;;;
           showPage (js "listings"))
          (fun e => showToast [MessageOf e] error) h w0
  end.
Proof.
  unfold handleCreateListing. unfold bind at 1. cbn [modify].
  unfold bind at 1. rewrite listing_data_pure, listing_data_emit.
  cbn zeta. destruct (fst (listing_data h w)) as [data|e]; [|reflexivity].
  unfold bind at 1. cbn [world]. unfold blocked. cbn [emit dom app].
  destruct (post_vinted _ && _); reflexivity.
Qed.

(** C1: when Vinted is targeted and no category is stored,
    [handleCreateListing] sends nothing (no request at all enters the
    trace, so [api.createListing] is not called); for a submission whose
    data can be built, it returns after the warning toast. *)
Theorem vinted_needs_category (h : Host) (w : World) :
  post_vinted (form (dom w)) = true ->
  truthy (detectedCategory (app w)) = false ->
  (forall r, EFetch r ∉ new_events w (snd (handleCreateListing h w)))
  /\ (well_formed_submission h w ->
      handleCreateListing h w
      = (Returned tt, emit (toast warn_no_category warning) (emit EPreventDefault w))).
Proof.
  intros Hv Hc.
  assert (Hb : blocked w = true) by (unfold blocked; rewrite Hv, Hc; reflexivity).
  rewrite handleCreateListing_unfold. cbn zeta. rewrite Hb. split.
  - intros r. unfold new_events.
    destruct (fst (listing_data h w)); cbn [snd emit trace];
      rewrite <- ?app_assoc, drop_app_length; cbn [app];
      unfold toast; intros H; apply list_elem_of_In in H; cbn [In] in H;
      repeat (destruct H as [H|H]; [discriminate H|]); exact H.
  - intros Hwf. rewrite (listing_data_returns h w Hwf). reflexivity.
Qed.

(** What follows a created listing inside the [try] block. *)
Lemma after_creation_extends (scheduleValue : jsstring) (listing : JsVal) :
  extends
    (showToast [Lit (js "Annonce créée avec succès")] success ;;;
     match scheduleValue with
     | [] =>
         let* id := member listing (js "id") in
         publishListing id ;;;
         showToast [Lit (js "Publication lancée")] success
     | _ => ret tt
     end ;;;
     reset_form ;;;
     modify (with_app (set_uploadedImages [])) ;;;
     set_detected JNull ;;;
     renderImagePreviews ;;;
     show_preview (js "category-preview") (CategoryHint hint_detect) ;;;
     showPage (js "listings")).
Proof. unfold publishListing. extends_tac. Qed.

Lemma extends_listing_data : extends listing_data.
Proof. intros h w. rewrite listing_data_pure. apply advances_refl. Qed.

Lemma extends_handleCreateListing : extends handleCreateListing.
Proof.
  unfold handleCreateListing, createListing, publishListing.
  apply extends_bind; [apply extends_prevent_default|]. intros _.
  apply extends_bind; [apply extends_listing_data|]. intros data.
  extends_tac.
Qed.

Lemma submission_sends_create h w :
  well_formed_submission h w -> blocked w = false ->
  exists rest,
    trace (snd (handleCreateListing h w))
    = trace w ++ EPreventDefault :: EFetch (create_request h w) :: rest.
Proof.
  intros Hwf Hb. rewrite handleCreateListing_unfold. cbn zeta.
  rewrite (listing_data_returns h w Hwf), Hb.
  match goal with |- context [try_catch ?m ?k h ?w0] =>
    assert (L : leads (try_catch m k) h w0 [EFetch (create_request h w)]) end.
  { apply leads_try_catch; [apply leads_bind|].
    - apply leads_request.
    - intros listing. apply after_creation_extends.
    - intros e. apply extends_showToast. }
  destruct L as [rest L]. exists rest. rewrite L. cbn [emit trace].
  rewrite <- app_assoc. reflexivity.
Qed.

Lemma createListing_created h w listing :
  created h w listing ->
  createListing (payload h w) h (emit EPreventDefault w)
  = (Returned listing, emit (EFetch (create_request h w)) (emit EPreventDefault w)).
Proof.
  intros (status & json & Hf & H401 & Hs).
  unfold createListing. rewrite request_unfold. cbn zeta.
  change (sent (api (emit EPreventDefault w)) ?e ?o) with (create_request h w).
  change (trace (emit EPreventDefault w)) with (trace w ++ [EPreventDefault]).
  rewrite Hf. apply N.eqb_neq in H401. rewrite H401, Hs. reflexivity.
Qed.

Lemma scheduled_submission_trace h w listing :
  well_formed_submission h w -> blocked w = false -> created h w listing ->
  listing_schedule (form (dom w)) <> [] ->
  trace (snd (handleCreateListing h w))
  = trace w ++ [EPreventDefault; EFetch (create_request h w); created_toast;
                ESpawn LoadListings].
Proof.
  intros Hwf Hb Hc Hs. rewrite handleCreateListing_unfold. cbn zeta.
  rewrite (listing_data_returns h w Hwf), Hb.
  rewrite (try_catch_bind_returned _ _ _ _ _ _ _ (createListing_created h w listing Hc)).
  destruct (listing_schedule (form (dom w))) as [|c s]; [congruence|].
  unfold try_catch, bind, showToast, reset_form, set_detected, renderImagePreviews,
    show_preview, showPage, modify, world, ret. cbn.
  destruct listings_is_loader as [-> ->]. cbn.
  rewrite <- !app_assoc. reflexivity.
Qed.

Lemma unscheduled_submission_trace h w listing :
  well_formed_submission h w -> blocked w = false -> created h w listing ->
  listing_schedule (form (dom w)) = [] -> is_nullish listing = false ->
  exists rest,
    trace (snd (handleCreateListing h w))
    = trace w ++ [EPreventDefault; EFetch (create_request h w); created_toast;
                  EFetch (publish_request w listing)] ++ rest.
Proof.
  intros Hwf Hb Hc Hs Hn. rewrite handleCreateListing_unfold. cbn zeta.
  rewrite (listing_data_returns h w Hwf), Hb.
  rewrite (try_catch_bind_returned _ _ _ _ _ _ _ (createListing_created h w listing Hc)).
  rewrite Hs.
  match goal with |- context [try_catch ?m ?k h ?w1] =>
    assert (L : leads (try_catch m k) h w1
                  [created_toast; EFetch (publish_request w listing)]) end.
  { apply leads_try_catch; [|intros e; apply extends_showToast].
    apply leads_toast_bind. apply leads_bind.
    - unfold member. rewrite Hn. apply leads_ret_bind. apply leads_bind.
      + apply leads_request.
      + intros a. extends_tac.
    - intros a. extends_tac. }
  destruct L as [rest L]. exists rest. rewrite L. cbn [emit trace].
  rewrite <- !app_assoc. reflexivity.
Qed.

Lemma create_request_not_publish h w : ~ is_publish (create_request h w).
Proof. intros [id E]. discriminate E. Qed.


(** ** Uploads *)

Lemma handleImageUpload_nothing_valid h w files :
  filter valid_image files = [] ->
  handleImageUpload files h w
  = (Returned tt, emit (toast [Lit (js "Aucun fichier image valide")] error) w).
Proof. intros E. unfold handleImageUpload. rewrite E. reflexivity. Qed.

Lemma uploadImages_unfold files h w :
  uploadImages files h w =
  let r := upload_request w files in
  match fetch h (trace w) r with
  | Rejected => (Thrown NetworkError, emit (EFetch r) w)
  | Response status json =>
      (if negb (response_ok status)
       then Thrown (Error (JStr (js "Erreur lors de l'upload")))
       else match json with Some v => Returned v | None => Thrown SyntaxError end,
       emit (EFetch r) w)
  end.
Proof.
  unfold uploadImages, bind, world, do_fetch, upload_request. cbn zeta.
  destruct (fetch h (trace w) _) as [|status json]; [reflexivity|].
  destruct (negb (response_ok status)); [reflexivity|]. destruct json; reflexivity.
Qed.

(** An upload with at least one accepted file: one request, carrying the
    accepted files only, then one toast; the images either stay or gain,
    at the end and in order, what the answer iterates to. *)
Lemma handleImageUpload_uploads h w files :
  filter valid_image files <> [] ->
  let r := upload_request w (filter valid_image files) in
  exists out w',
    handleImageUpload files h w = (out, w')
    /\ (exists message type, trace w' = trace w ++ [EFetch r; toast message type])
    /\ (uploadedImages (app w') = uploadedImages (app w)
        \/ exists status uploaded items,
             fetch h (trace w) r = Response status (Some uploaded)
             /\ iterate uploaded = Some items
             /\ uploadedImages (app w') = uploadedImages (app w) ++ items).
Proof.
  intros Hne. cbn zeta. unfold handleImageUpload.
  destruct (filter valid_image files) as [|f fs] eqn:Ef; [congruence|].
  cbn [length Nat.eqb].
  unfold try_catch. unfold bind at 1. rewrite uploadImages_unfold. cbn zeta.
  destruct (fetch h (trace w) (upload_request w (f :: fs))) as [|status json] eqn:Hf.
  { eexists _, _. split; [reflexivity|].
    split; [eexists _, _; unfold toast; cbn -[getToastIcon]; rewrite <- app_assoc; reflexivity | left; reflexivity]. }
  destruct (negb (response_ok status)).
  { eexists _, _. split; [reflexivity|].
    split; [eexists _, _; unfold toast; cbn -[getToastIcon]; rewrite <- app_assoc; reflexivity | left; reflexivity]. }
  destruct json as [uploaded|].
  2:{ eexists _, _. split; [reflexivity|].
      split; [eexists _, _; unfold toast; cbn -[getToastIcon]; rewrite <- app_assoc; reflexivity | left; reflexivity]. }
  unfold bind at 1. unfold spread.
  destruct (iterate uploaded) as [items|] eqn:Hi.
  2:{ eexists _, _. split; [reflexivity|].
      split; [eexists _, _; unfold toast; cbn -[getToastIcon]; rewrite <- app_assoc; reflexivity | left; reflexivity]. }
  cbn [ret]. unfold bind at 1. cbn [modify]. unfold bind at 1.
  unfold renderImagePreviews, bind, world.
  cbn [emit with_app app set_uploadedImages uploadedImages].
  destruct (existsb is_nullish (uploadedImages (app w) ++ items)).
  - eexists _, _. split; [reflexivity|].
    split; [eexists _, _; unfold toast; cbn -[getToastIcon]; rewrite <- app_assoc; reflexivity|].
    right. exists status, uploaded, items. auto.
  - eexists _, _. split; [reflexivity|].
    split; [eexists _, _; unfold toast; cbn -[getToastIcon]; rewrite <- app_assoc; reflexivity|].
    right. exists status, uploaded, items. auto.
Qed.

Lemma from_validated_upload_later h tr evs img :
  from_validated_upload h tr img -> from_validated_upload h (tr ++ evs) img.
Proof.
  intros (before & r & after & files & status & uploaded & items & -> & H).
  exists before, r, (after ++ evs), files, status, uploaded, items.
  split; [|exact H]. rewrite <- app_assoc. reflexivity.
Qed.

Lemma images_validated_advances h w w' :
  advances w w' -> images_validated h w -> images_validated h w'.
Proof.
  intros [[evs Ht] Hs] Hv img Hi. rewrite Ht.
  apply from_validated_upload_later, Hv, Hs, Hi.
Qed.

Lemma images_validated_upload h w files :
  images_validated h w -> images_validated h (snd (handleImageUpload files h w)).
Proof.
  intros Hv. destruct (filter valid_image files) as [|f fs] eqn:Ef.
  - rewrite (handleImageUpload_nothing_valid h w files Ef).
    eapply images_validated_advances; [apply advances_emit | exact Hv].
  - assert (Hne : filter valid_image files <> []) by (rewrite Ef; discriminate).
    destruct (handleImageUpload_uploads h w files Hne)
      as (out & w' & -> & (message & type & Ht) & Hi).
    cbn [snd]. intros img Himg. rewrite Ht.
    destruct Hi as [Hi | (status & uploaded & items & Hf & Hit & Hi)];
      rewrite Hi in Himg.
    + apply from_validated_upload_later, Hv, Himg.
    + apply elem_of_app in Himg as [Himg|Himg].
      * apply from_validated_upload_later, Hv, Himg.
      * exists (trace w), (upload_request w (filter valid_image files)),
          [toast message type],
          (filter valid_image files), status, uploaded, items.
        repeat split; try assumption; try reflexivity.
        apply Forall_forall. intros x Hx. apply list_elem_of_filter in Hx. apply Hx.
Qed.

Lemma extends_removeImage index : extends (removeImage index).
Proof.
  intros h w. unfold removeImage, bind. cbn [modify].
  eapply advances_trans; [|apply extends_renderImagePreviews].
  split; [exists []; rewrite app_nil_r; reflexivity|].
  cbn. intros x Hx. eapply sublist_subseteq; [apply sublist_delete | exact Hx].
Qed.

Lemma extends_analyzeVintedCategory : extends analyzeVintedCategory.
Proof.
  unfold analyzeVintedCategory, analyzeCategory.
  apply extends_bind; [apply extends_host|]. intros h.
  apply extends_bind; [apply extends_world|]. intros w.
  destruct (length _ <? 3)%nat; [apply extends_show_preview|].
  apply extends_bind; [apply extends_show_preview|]. intros _.
  apply extends_try_catch.
  - apply extends_bind; [apply extends_request|]. intros result.
    apply extends_bind; [apply extends_member|]. intros suggested.
    destruct (truthy suggested).
    + destruct (confidence_label h _). extends_tac.
    + extends_tac.
  - extends_tac.
Qed.

Lemma images_validated_perform h a w :
  images_validated h w -> images_validated h (snd (perform a h w)).
Proof.
  intros Hv. destruct a as [f|files|index| |]; cbn [perform].
  - exact Hv.
  - apply images_validated_upload, Hv.
  - eapply images_validated_advances; [apply extends_removeImage | exact Hv].
  - eapply images_validated_advances; [apply extends_analyzeVintedCategory | exact Hv].
  - eapply images_validated_advances; [apply extends_handleCreateListing | exact Hv].
Qed.

Lemma images_validated_perform_all h actions : forall w,
  images_validated h w -> images_validated h (perform_all actions h w).
Proof.
  induction actions as [|a r IH]; intros w Hv; [exact Hv|].
  cbn [perform_all]. apply IH, images_validated_perform, Hv.
Qed.

Lemma images_validated_constructed h stored d : images_validated h (constructed stored d).
Proof. intros img Hi. cbn in Hi. apply elem_of_nil in Hi. destruct Hi. Qed.


(** C10: whatever the user does from a fresh page, every element of
    [uploadedImages] came with the answer to an upload whose files all
    have one of the four accepted types; [handleImageUpload] uploads the
    accepted files only, and nothing when there is none; so the ids that
    a submission sends are ids of such images. *)
Theorem uploaded_images_validated :
  (forall h stored d actions,
     images_validated h (perform_all actions h (constructed stored d)))
  /\ (forall h w files r,
        EFetch r ∈ new_events w (snd (handleImageUpload files h w)) ->
        r = upload_request w (filter valid_image files)
        /\ filter valid_image files <> []
        /\ Forall (fun f => file_type f ∈ image_types) (filter valid_image files))
  /\ (forall h w files,
        filter valid_image files = [] ->
        handleImageUpload files h w
        = (Returned tt, emit (toast [Lit (js "Aucun fichier image valide")] error) w))
  /\ (forall h stored d actions,
        let w := perform_all actions h (constructed stored d) in
        well_formed_submission h w ->
        exists imgs,
          get (payload h w) (js "image_ids")
          = JArr (List.map (fun img => get img (js "id")) imgs)
          /\ forall img, img ∈ imgs -> from_validated_upload h (trace w) img).
Proof.
  split; [|split; [|split]].
  - intros h stored d actions.
    apply images_validated_perform_all, images_validated_constructed.
  - intros h w files r Hr.
    destruct (list_eq_nil_dec (filter valid_image files)) as [Ef|Hne].
    + rewrite (handleImageUpload_nothing_valid h w files Ef) in Hr.
      cbn [snd] in Hr. rewrite (new_events_app _ _ [toast [Lit (js "Aucun fichier image valide")] error]) in Hr
        by reflexivity.
      apply list_elem_of_In in Hr. destruct Hr as [Hr|[]]. discriminate Hr.
    + destruct (handleImageUpload_uploads h w files Hne)
        as (out & w' & E & (message & type & Ht) & _).
      rewrite E in Hr. cbn [snd] in Hr. rewrite (new_events_app _ _ _ Ht) in Hr.
      apply list_elem_of_In in Hr. destruct Hr as [Hr|[Hr|[]]]; [|discriminate Hr].
      injection Hr as <-. split; [reflexivity|]. split; [exact Hne|].
      apply Forall_forall. intros x Hx. apply list_elem_of_filter in Hx. apply Hx.
  - apply handleImageUpload_nothing_valid.
  - intros h stored d actions w Hwf. exists (uploadedImages (app w)).
    split; [apply payload_image_ids, Hwf|].
    apply images_validated_perform_all, images_validated_constructed.
Qed.

(** ** The statements at work on the sample page *)

Lemma vinted_needs_category_witness :
  post_vinted (form (dom (sample_world sample_form))) = true
  /\ truthy (detectedCategory (app (sample_world sample_form))) = false
  /\ well_formed_submission (serving sample_result) (sample_world sample_form)
  /\ handleCreateListing (serving sample_result) (sample_world sample_form)
     = (Returned tt,
        emit (toast warn_no_category warning)
          (emit EPreventDefault (sample_world sample_form))).
Proof.
  assert (Hwf : well_formed_submission (serving sample_result) (sample_world sample_form))
    by (split; [reflexivity | left; reflexivity]).
  split; [reflexivity|]. split; [reflexivity|]. split; [exact Hwf|].
  exact (proj2 (vinted_needs_category (serving sample_result) (sample_world sample_form)
                  eq_refl eq_refl) Hwf).
Defined.

Lemma short_title_never_analyzed_witness :
  ((length (trim (listing_title (form (dom (sample_world short_form))))) < 3)%nat
   /\ trace (snd (analyzeVintedCategory (serving sample_result) (sample_world short_form)))
      = [])
  /\ ((3 <= length (trim (listing_title (form (dom (sample_world sample_form))))))%nat
      /\ trace (snd (analyzeVintedCategory (serving sample_result)
                       (sample_world sample_form)))
         = [EFetch (analyze_request (sample_world sample_form))]).
Proof.
  assert (Hshort : (length (trim (listing_title (form (dom (sample_world short_form))))) < 3)%nat)
    by (vm_compute; lia).
  assert (Hlong : (3 <= length (trim (listing_title (form (dom (sample_world sample_form))))))%nat)
    by (vm_compute; lia).
  split; (split; [assumption|]).
  - rewrite (proj1 (short_title_never_analyzed (serving sample_result)
                      (sample_world short_form)) Hshort).
    reflexivity.
  - exact (proj2 (short_title_never_analyzed (serving sample_result)
                    (sample_world sample_form)) Hlong).
Defined.

Lemma sample_classified (result : JsVal) :
  classified (serving result) (sample_world sample_form) result.
Proof.
  split; [vm_compute; lia|].
  exists 200. split; [reflexivity|]. split; [reflexivity|]. lia.
Defined.



Lemma sample_schedule_parses :
  is_Some (date_parse (serving sample_result)
             (listing_schedule (form (dom (sample_world scheduled_form))))).
Proof. eexists. reflexivity. Defined.


Lemma sample_created (f : Form) :
  created (serving sample_result) (sample_world f) sample_listing.
Proof.
  exists 201, (Some sample_listing). split; [reflexivity|]. split; [lia | reflexivity].
Defined.


Lemma refusing_unauthorized (w : World) : unauthorized refusing w.
Proof. intros r. exists None. reflexivity. Defined.


Lemma sample_upload_sent :
  EFetch (upload_request (sample_world sample_form) [photo])
  ∈ new_events (sample_world sample_form)
      (snd (handleImageUpload [photo; notes] (serving sample_result)
              (sample_world sample_form))).
Proof. apply list_elem_of_In. left. reflexivity. Defined.

Lemma sample_after_upload_well_formed :
  well_formed_submission (serving sample_result)
    (perform_all [DropFiles [photo; notes]] (serving sample_result)
       (constructed (Some (JStr (js "secret"))) (sample_dom sample_form))).
Proof. split; [reflexivity | left; reflexivity]. Defined.

Lemma uploaded_images_validated_witness :
  filter valid_image [notes] = []
  /\ handleImageUpload [notes] (serving sample_result) (sample_world sample_form)
     = (Returned tt,
        emit (toast [Lit (js "Aucun fichier image valide")] error)
          (sample_world sample_form))
  /\ Forall (fun f => file_type f ∈ image_types) (filter valid_image [photo; notes])
  /\ images_validated (serving sample_result)
       (perform_all [DropFiles [photo; notes]; RemoveImage 3; Submit]
          (serving sample_result) (sample_world sample_form))
  /\ exists imgs,
       get (payload (serving sample_result)
              (perform_all [DropFiles [photo; notes]] (serving sample_result)
                 (sample_world sample_form)))
         (js "image_ids")
       = JArr (List.map (fun img => get img (js "id")) imgs)
       /\ forall img,
            img ∈ imgs ->
            from_validated_upload (serving sample_result)
              (trace (perform_all [DropFiles [photo; notes]] (serving sample_result)
                        (sample_world sample_form)))
              img.
Proof.
  destruct uploaded_images_validated as (Hinv & Hsent & Hnone & Hids).
  split; [reflexivity|]. split; [|split; [|split]].
  - exact (Hnone (serving sample_result) (sample_world sample_form) [notes] eq_refl).
  - exact (proj2 (proj2 (Hsent (serving sample_result) (sample_world sample_form)
                           [photo; notes] _ sample_upload_sent))).
  - exact (Hinv (serving sample_result) (Some (JStr (js "secret"))) (sample_dom sample_form)
             [DropFiles [photo; notes]; RemoveImage 3; Submit]).
  - exact (Hids (serving sample_result) (Some (JStr (js "secret"))) (sample_dom sample_form)
             [DropFiles [photo; notes]] sample_after_upload_well_formed).
Defined.

(** * Further properties *)

(** ** Colours *)

Lemma trim_start_clean (s : jsstring) : starts_clean (trim_start s).
Proof.
  induction s as [|c r IH]; [exact I|]. cbn [trim_start].
  destruct (is_white_space c) eqn:E; [exact IH | exact E].
Qed.

Lemma trim_start_id (s : jsstring) : starts_clean s -> trim_start s = s.
Proof. destruct s as [|c r]; [reflexivity|]. cbn. intros ->. reflexivity. Qed.

Lemma trim_start_snoc (l : list N) (c : N) :
  is_white_space c = false -> trim_start (l ++ [c]) = trim_start l ++ [c].
Proof.
  intros Hc. induction l as [|a l IH].
  - change (trim_start [c] = [c]). apply trim_start_id. exact Hc.
  - change (trim_start (a :: (l ++ [c])) = trim_start (a :: l) ++ [c]).
    cbn [trim_start]. destruct (is_white_space a); [exact IH | reflexivity].
Qed.

Lemma trim_end_cons (c : N) (r : list N) :
  is_white_space c = false -> trim_end (c :: r) = c :: trim_end r.
Proof.
  intros Hc. unfold trim_end. cbn [rev].
  rewrite (trim_start_snoc _ _ Hc), rev_app_distr. reflexivity.
Qed.

Lemma trim_trimmed (s : jsstring) : trimmed (trim s).
Proof.
  unfold trimmed, trim. split.
  - pose proof (trim_start_clean s) as H.
    destruct (trim_start s) as [|c r]; [exact I|]. cbn in H.
    rewrite (trim_end_cons c r H). exact H.
  - unfold trim_end. rewrite rev_involutive. apply trim_start_clean.
Qed.

Lemma trimmed_trim (s : jsstring) : trimmed s -> trim s = s.
Proof.
  intros [Hs He]. unfold trim, trim_end.
  rewrite (trim_start_id s Hs), (trim_start_id _ He). apply rev_involutive.
Qed.

Lemma trim_start_subset (s : list N) (x : N) : x ∈ trim_start s -> x ∈ s.
Proof.
  induction s as [|c r IH]; [intros H; exact H|]. cbn [trim_start].
  destruct (is_white_space c); [|intros H; exact H].
  intros H. apply elem_of_cons. right. apply IH, H.
Qed.

Lemma trim_subset (s : list N) (x : N) : x ∈ trim s -> x ∈ s.
Proof.
  unfold trim, trim_end. intros H.
  apply list_elem_of_In, in_rev, list_elem_of_In in H.
  apply trim_start_subset in H.
  apply list_elem_of_In, in_rev, list_elem_of_In in H.
  apply trim_start_subset, H.
Qed.

Lemma trim_blank (s : jsstring) : forallb is_white_space s = true -> trim s = [].
Proof.
  intros H. unfold trim.
  assert (E : trim_start s = []).
  { induction s as [|c r IH]; [reflexivity|]. cbn in H. apply andb_prop in H as [Hc Hr].
    cbn [trim_start]. rewrite Hc. apply IH, Hr. }
  rewrite E. reflexivity.
Qed.

Lemma empty_piece (sep : N) (s : list N) : piece_of sep s [].
Proof.
  split; [apply not_elem_of_nil|]. intros x Hx. apply elem_of_nil in Hx. destruct Hx.
Qed.

Lemma piece_of_cons (sep c : N) (s p : list N) : piece_of sep s p -> piece_of sep (c :: s) p.
Proof.
  intros [Hs Hp]. split; [exact Hs|]. intros x Hx. apply elem_of_cons. right. apply Hp, Hx.
Qed.

Lemma piece_grows (sep c : N) (s p : list N) :
  c <> sep -> piece_of sep s p -> piece_of sep (c :: s) (c :: p).
Proof.
  intros Hc [Hs Hp]. split.
  - intros H. apply elem_of_cons in H as [H|H]; [congruence | exact (Hs H)].
  - intros x Hx. apply elem_of_cons in Hx as [->|Hx];
      [apply elem_of_cons; left; reflexivity | apply elem_of_cons; right; apply Hp, Hx].
Qed.

(** No piece of [split_on sep s] contains [sep], and every unit of a
    piece is a unit of [s]. *)
Lemma split_on_pieces (sep : N) (s : list N) :
  Forall (piece_of sep s) (split_on sep s).
Proof.
  induction s as [|c r IH]; cbn [split_on].
  - constructor; [apply empty_piece | constructor].
  - assert (Hmono : Forall (piece_of sep (c :: r)) (split_on sep r))
      by (eapply Forall_impl; [exact IH | intros p; apply piece_of_cons]).
    destruct (split_on sep r) as [|p ps] eqn:E.
    + destruct (c =? sep) eqn:Ec.
      * constructor; [apply empty_piece|]. constructor; [apply empty_piece | constructor].
      * constructor; [|constructor]. apply N.eqb_neq in Ec.
        apply piece_grows; [exact Ec | apply empty_piece].
    + apply Forall_cons in IH as [Hp _]. apply Forall_cons in Hmono as [Hp' Hps].
      destruct (c =? sep) eqn:Ec.
      * constructor; [apply empty_piece|]. constructor; assumption.
      * constructor; [|exact Hps]. apply N.eqb_neq in Ec. apply piece_grows; assumption.
Qed.

Lemma filter_map_nil {A B} (f : A -> B) (keep : B -> bool) (l : list A) :
  Forall (fun a => keep (f a) = false) l -> List.filter keep (List.map f l) = [].
Proof.
  induction 1 as [|a l Ha _ IH]; [reflexivity|]. cbn. rewrite Ha. exact IH.
Qed.



(** ** Debounce, in general *)

Lemma in_time_order_tail t times : in_time_order (t :: times) -> in_time_order times.
Proof. destruct times; cbn; tauto. Qed.

Lemma trigger_after_silence (t t' : Z) (l : Loop) :
  armed t l -> (t + debounce_delay <= t')%Z ->
  armed t' (triggerCategoryAnalysis t' (advance t' l))
  /\ fired (triggerCategoryAnalysis t' (advance t' l))
     = fired l ++ [((t + debounce_delay)%Z, RunAnalysis)].
Proof.
  intros (id & Hp & Hc) Hgap.
  unfold triggerCategoryAnalysis, advance, armed. cbn. rewrite Hc, Hp. cbn.
  replace (t + debounce_delay <=? t')%Z with true by (symmetry; apply Z.leb_le; lia).
  cbn. eauto.
Qed.

Lemma input_events_fired (times : list Z) : forall (t : Z) (l : Loop),
  armed t l -> in_time_order (t :: times) ->
  fired (settle (input_events times l))
  = fired l ++ List.map (fun x => ((x + debounce_delay)%Z, RunAnalysis))
                 (followed_by_silence (t :: times)).
Proof.
  induction times as [|t' r IH]; intros t l Ha Ho.
  - destruct Ha as (id & Hp & _). cbn. rewrite Hp. reflexivity.
  - destruct Ho as [Hle Ho]. cbn [input_events followed_by_silence].
    destruct (t + debounce_delay <=? t')%Z eqn:Hs;
      [apply Z.leb_le in Hs | apply Z.leb_gt in Hs].
    + destruct (trigger_after_silence t t' l Ha Hs) as [Ha' Hf'].
      rewrite (IH t' _ Ha' Ho), Hf'. cbn [List.map]. rewrite <- app_assoc. reflexivity.
    + destruct (trigger_rearms t t' l Ha (conj Hle Hs)) as [Ha' Hf'].
      rewrite (IH t' _ Ha' Ho), Hf'. reflexivity.
Qed.

Lemma followed_by_silence_sublist (times : list Z) :
  sublist (followed_by_silence times) times.
Proof.
  induction times as [|t r IH]; [constructor|]. cbn [followed_by_silence].
  destruct r as [|t' r']; [apply sublist_skip; constructor|].
  destruct (t + debounce_delay <=? t')%Z;
    [apply sublist_skip | apply sublist_cons]; exact IH.
Qed.

(** X2: for input events in time order, [analyzeVintedCategory] is
    called 500 ms after each event that no other event follows within
    500 ms, and at no other time; so there are never more calls than
    events. *)
Theorem debounce_calls (times : list Z) :
  in_time_order times ->
  analysis_calls times
  = List.map (fun t => (t + debounce_delay)%Z) (followed_by_silence times)
  /\ sublist (followed_by_silence times) times
  /\ (length (analysis_calls times) <= length times)%nat.
Proof.
  intros Ho.
  assert (E : analysis_calls times
              = List.map (fun t => (t + debounce_delay)%Z) (followed_by_silence times)).
  { destruct times as [|t r]; [reflexivity|].
    destruct (trigger_arms t (advance t initial_loop) eq_refl) as [Ha Hf].
    unfold analysis_calls. cbn [input_events].
    rewrite (input_events_fired r t _ Ha Ho), Hf. cbn [fired advance initial_loop].
    change (pending initial_loop) with (@nil Timer).
    change (List.filter _ (@nil Timer)) with (@nil Timer).
    change (List.map _ (@nil Timer)) with (@nil (Z * Callback)).
    rewrite !app_nil_l, List.map_map. reflexivity. }
  split; [exact E|]. split; [apply followed_by_silence_sublist|].
  rewrite E, List.length_map. apply sublist_length, followed_by_silence_sublist.
Qed.

Lemma debounce_calls_witness :
  in_time_order [0; 100; 700; 1200; 1250]%Z
  /\ analysis_calls [0; 100; 700; 1200; 1250]%Z = [600; 1200; 1750]%Z.
Proof.
  assert (Ho : in_time_order [0; 100; 700; 1200; 1250]%Z) by (cbn; lia).
  split; [exact Ho|].
  exact (proj1 (debounce_calls [0; 100; 700; 1200; 1250]%Z Ho)).
Defined.

(** ** Requests that fail *)



(** ** Headers *)

Lemma sent_authorization (c : ApiClient) (endpoint : Template) (options : Options) :
  opt_headers options = ∅ ->
  authorization (sent c endpoint options)
  = if truthy (token c) then Some [Lit (js "Bearer "); Val (token c)] else None.
Proof.
  intros E. unfold authorization, sent. cbn [req_options opt_headers]. rewrite E.
  destruct (truthy (token c)).
  - apply lookup_insert_eq.
  - rewrite lookup_union, lookup_empty, lookup_singleton_ne; [reflexivity|].
    intros H. vm_compute in H. discriminate H.
Qed.

Lemma sent_content_type (c : ApiClient) (endpoint : Template) (options : Options) :
  opt_headers options = ∅ ->
  content_type (sent c endpoint options) = Some [Lit (js "application/json")].
Proof.
  intros E. unfold content_type, sent. cbn [req_options opt_headers]. rewrite E.
  assert (H : (∅ ∪ {[js "Content-Type" := [Lit (js "application/json")]]} : gmap jsstring Template)
              !! js "Content-Type" = Some [Lit (js "application/json")]).
  { rewrite lookup_union, lookup_empty, lookup_singleton_eq. reflexivity. }
  destruct (truthy (token c)); [|exact H].
  rewrite lookup_insert_ne; [exact H|].
  intros H'. vm_compute in H'. discriminate H'.
Qed.



(** ** Submissions that fail, submissions that succeed *)

Lemma createListing_fails h w e :
  creation_fails h w e ->
  createListing (payload h w) h (emit EPreventDefault w)
  = (Thrown e, emit (EFetch (create_request h w)) (emit EPreventDefault w)).
Proof.
  intros Hc. unfold createListing. rewrite request_unfold. cbn zeta.
  change (sent (api (emit EPreventDefault w)) ?e ?o) with (create_request h w).
  change (trace (emit EPreventDefault w)) with (trace w ++ [EPreventDefault]).
  destruct Hc as [[Hf ->] | (status & json & Hf & H401 & Hs)]; rewrite Hf.
  - reflexivity.
  - apply N.eqb_neq in H401. rewrite H401, Hs. reflexivity.
Qed.

Lemma try_catch_bind_thrown {A B} (m : M A) (k : A -> M B) handler h w e w1 :
  m h w = (Thrown e, w1) ->
  try_catch (bind m k) handler h w = handler e h w1.
Proof. intros E. unfold try_catch, bind. rewrite E. reflexivity. Qed.

(** X5: when the creation request fails (no answer, or an error other
    than 401), [handleCreateListing] shows the error and changes nothing
    else: the form, the images and the stored category are as they
    were, and no publish request is made. *)
Theorem failed_creation_keeps_form (h : Host) (w : World) (e : Exn) :
  well_formed_submission h w -> blocked w = false -> creation_fails h w e ->
  handleCreateListing h w
  = (Returned tt,
     emit (toast [MessageOf e] error)
       (emit (EFetch (create_request h w)) (emit EPreventDefault w)))
  /\ app (snd (handleCreateListing h w)) = app w
  /\ dom (snd (handleCreateListing h w)) = dom w
  /\ api (snd (handleCreateListing h w)) = api w.
Proof.
  intros Hwf Hb Hc.
  assert (E : handleCreateListing h w
              = (Returned tt,
                 emit (toast [MessageOf e] error)
                   (emit (EFetch (create_request h w)) (emit EPreventDefault w)))).
  { rewrite handleCreateListing_unfold. cbn zeta.
    rewrite (listing_data_returns h w Hwf), Hb.
    rewrite (try_catch_bind_thrown _ _ _ _ _ _ _ (createListing_fails h w e Hc)).
    reflexivity. }
  rewrite E. repeat split.
Qed.

Lemma sample_creation_fails :
  creation_fails (answering unprocessable) (sample_world short_form)
    (Error (JStr (js "Titre trop court"))).
Proof.
  right. exists 422, (Some (JObj [(js "detail", JStr (js "Titre trop court"))])).
  split; [reflexivity|]. split; [lia | reflexivity].
Defined.

Lemma failed_creation_keeps_form_witness :
  well_formed_submission (answering unprocessable) (sample_world short_form)
  /\ blocked (sample_world short_form) = false
  /\ creation_fails (answering unprocessable) (sample_world short_form)
       (Error (JStr (js "Titre trop court")))
  /\ form (dom (snd (handleCreateListing (answering unprocessable) (sample_world short_form))))
     = short_form.
Proof.
  assert (Hwf : well_formed_submission (answering unprocessable) (sample_world short_form))
    by (split; [reflexivity | left; reflexivity]).
  split; [exact Hwf|]. split; [reflexivity|]. split; [exact sample_creation_fails|].
  destruct (failed_creation_keeps_form (answering unprocessable) (sample_world short_form)
              _ Hwf eq_refl sample_creation_fails) as (_ & _ & Hd & _).
  rewrite Hd. reflexivity.
Defined.

(** The end of the [try] block, from the images being dropped on. *)
Lemma reset_after_success h w1 :
  (reset_form ;;;
   modify (with_app (set_uploadedImages [])) ;;;
   set_detected JNull ;;;
   renderImagePreviews ;;;
   show_preview (js "category-preview") (CategoryHint hint_detect) ;;;
   showPage (js "listings")) h w1
  = (Returned tt,
     snd (showPage (js "listings") h
            (with_dom (set_preview (js "category-preview") (CategoryHint hint_detect))
               (with_dom (set_image_preview [])
                  (with_app (set_detectedCategory JNull)
                     (with_app (set_uploadedImages [])
                        (with_dom (fun d => set_form (form_defaults d) d) w1))))))).
Proof. reflexivity. Qed.

Lemma showPage_listings h w :
  snd (showPage (js "listings") h w)
  = with_app (set_currentPage (js "listings"))
      (emit (ESpawn LoadListings)
         (with_dom (set_page (if bool_decide (js "listings" ∈ pages (dom w))
                              then Some (js "listings") else None)
                      (js "listings") false) w)).
Proof.
  unfold showPage, modify. cbn [snd].
  destruct listings_is_loader as [-> ->].
  replace (bool_decide (js "listings" ∈ [js "login"; js "register"])) with false
    by (vm_compute; reflexivity).
  reflexivity.
Qed.

Lemma form_is_reset_after h w w1 :
  form_defaults (dom w1) = form_defaults (dom w) -> api w1 = api w ->
  form_is_reset w
    (snd (showPage (js "listings") h
            (with_dom (set_preview (js "category-preview") (CategoryHint hint_detect))
               (with_dom (set_image_preview [])
                  (with_app (set_detectedCategory JNull)
                     (with_app (set_uploadedImages [])
                        (with_dom (fun d => set_form (form_defaults d) d) w1))))))).
Proof.
  intros Hd Ha. rewrite showPage_listings. unfold form_is_reset. cbn.
  rewrite Hd, Ha. repeat split.
Qed.

Lemma publishListing_published h w listing :
  published h w listing ->
  exists v,
    publishListing (get listing (js "id")) h
      (emit created_toast (emit (EFetch (create_request h w)) (emit EPreventDefault w)))
    = (Returned v,
       emit (EFetch (publish_request w listing))
         (emit created_toast (emit (EFetch (create_request h w)) (emit EPreventDefault w)))).
Proof.
  intros (status & json & v & Hf & H401 & Hs). exists v.
  unfold publishListing. rewrite request_unfold. cbn zeta.
  change (sent (api (emit ?a (emit ?b (emit ?c w)))) ?e ?o) with (publish_request w listing).
  replace (trace (emit created_toast
                    (emit (EFetch (create_request h w)) (emit EPreventDefault w))))
    with (trace_at_publish h w)
    by (unfold trace_at_publish; cbn [emit trace]; rewrite <- !app_assoc; reflexivity).
  rewrite Hf. apply N.eqb_neq in H401. rewrite H401, Hs. reflexivity.
Qed.

Lemma publishListing_fails h w listing e :
  publication_fails h w listing e ->
  publishListing (get listing (js "id")) h
    (emit created_toast (emit (EFetch (create_request h w)) (emit EPreventDefault w)))
  = (Thrown e,
     emit (EFetch (publish_request w listing))
       (emit created_toast (emit (EFetch (create_request h w)) (emit EPreventDefault w)))).
Proof.
  intros Hp. unfold publishListing. rewrite request_unfold. cbn zeta.
  change (sent (api (emit ?a (emit ?b (emit ?c w)))) ?e ?o) with (publish_request w listing).
  replace (trace (emit created_toast
                    (emit (EFetch (create_request h w)) (emit EPreventDefault w))))
    with (trace_at_publish h w)
    by (unfold trace_at_publish; cbn [emit trace]; rewrite <- !app_assoc; reflexivity).
  destruct Hp as [[Hf ->] | (status & json & Hf & H401 & Hs)]; rewrite Hf.
  - reflexivity.
  - apply N.eqb_neq in H401. rewrite H401, Hs. reflexivity.
Qed.

(** X6: a submission that succeeds (the listing is created and, when no
    schedule was entered, its publication is accepted) empties the
    images and their previews, forgets the category, puts the form back
    to its defaults, shows the hint again and goes to the listings page;
    the session is untouched. *)
Theorem successful_submission_resets (h : Host) (w : World) (listing : JsVal) :
  well_formed_submission h w -> blocked w = false -> created h w listing ->
  (listing_schedule (form (dom w)) <> [] ->
     form_is_reset w (snd (handleCreateListing h w)))
  /\ (listing_schedule (form (dom w)) = [] -> is_nullish listing = false ->
      published h w listing ->
      form_is_reset w (snd (handleCreateListing h w))
      /\ new_events w (snd (handleCreateListing h w))
         = [EPreventDefault; EFetch (create_request h w); created_toast;
            EFetch (publish_request w listing);
            toast [Lit (js "Publication lancée")] success; ESpawn LoadListings]).
Proof.
  intros Hwf Hb Hc. split.
  - intros Hs. rewrite handleCreateListing_unfold. cbn zeta.
    rewrite (listing_data_returns h w Hwf), Hb.
    rewrite (try_catch_bind_returned _ _ _ _ _ _ _ (createListing_created h w listing Hc)).
    destruct (listing_schedule (form (dom w))) as [|c s]; [congruence|].
    unfold try_catch. unfold bind at 1. cbn [showToast modify].
    unfold bind at 1. cbn [ret]. rewrite reset_after_success. cbn [snd].
    apply form_is_reset_after; reflexivity.
  - intros Hs Hn Hp. destruct (publishListing_published h w listing Hp) as [v Hv].
    assert (E : handleCreateListing h w
                = (Returned tt,
                   snd (showPage (js "listings") h
                     (with_dom (set_preview (js "category-preview") (CategoryHint hint_detect))
                        (with_dom (set_image_preview [])
                           (with_app (set_detectedCategory JNull)
                              (with_app (set_uploadedImages [])
                                 (with_dom (fun d => set_form (form_defaults d) d)
                                    (emit (toast [Lit (js "Publication lancée")] success)
                                       (emit (EFetch (publish_request w listing))
                                          (emit created_toast
                                             (emit (EFetch (create_request h w))
                                                (emit EPreventDefault w))))))))))))).
    { rewrite handleCreateListing_unfold. cbn zeta.
      rewrite (listing_data_returns h w Hwf), Hb.
      rewrite (try_catch_bind_returned _ _ _ _ _ _ _ (createListing_created h w listing Hc)).
      rewrite Hs. unfold try_catch. unfold bind at 1. cbn [showToast modify].
      unfold bind at 1. unfold bind at 1. unfold member. rewrite Hn. cbn [ret].
      change (EToast [Lit (js "Annonce créée avec succès")] success (getToastIcon success))
        with created_toast.
      unfold bind at 1. rewrite Hv.
      cbn [showToast modify]. rewrite reset_after_success. reflexivity. }
    rewrite E. cbn [snd]. split; [apply form_is_reset_after; reflexivity|].
    apply new_events_app. rewrite showPage_listings. cbn [trace with_app with_dom emit].
    rewrite <- !app_assoc. reflexivity.
Qed.

Lemma sample_published :
  published (serving sample_result) (sample_world short_form) sample_listing.
Proof.
  exists 200, (Some (JObj [])), (JObj []). split; [reflexivity|]. split; [lia | reflexivity].
Defined.

Lemma successful_submission_resets_witness :
  (listing_schedule (form (dom (sample_world scheduled_form))) <> []
   /\ form_is_reset (sample_world scheduled_form)
        (snd (handleCreateListing (serving sample_result) (sample_world scheduled_form))))
  /\ (listing_schedule (form (dom (sample_world short_form))) = []
      /\ is_nullish sample_listing = false
      /\ published (serving sample_result) (sample_world short_form) sample_listing
      /\ form_is_reset (sample_world short_form)
           (snd (handleCreateListing (serving sample_result) (sample_world short_form)))).
Proof.
  assert (Hwf1 : well_formed_submission (serving sample_result) (sample_world scheduled_form))
    by (split; [reflexivity | right; apply sample_schedule_parses]).
  assert (Hwf2 : well_formed_submission (serving sample_result) (sample_world short_form))
    by (split; [reflexivity | left; reflexivity]).
  assert (Hs : listing_schedule (form (dom (sample_world scheduled_form))) <> [])
    by (intros E; vm_compute in E; discriminate E).
  split.
  - split; [exact Hs|].
    exact (proj1 (successful_submission_resets (serving sample_result)
                    (sample_world scheduled_form) sample_listing Hwf1 eq_refl
                    (sample_created scheduled_form)) Hs).
  - split; [reflexivity|]. split; [reflexivity|]. split; [exact sample_published|].
    exact (proj1 (proj2 (successful_submission_resets (serving sample_result)
                           (sample_world short_form) sample_listing Hwf2 eq_refl
                           (sample_created short_form))
                    eq_refl eq_refl sample_published)).
Defined.

(** X7: when the listing is created but cannot be published at once
    (the publish request fails, or the creation answered without a
    listing to read an id from), the error is shown and nothing is
    reset: the form, the images and the category stay, although the
    listing exists. *)
Theorem failed_publication_keeps_form (h : Host) (w : World) (listing : JsVal) :
  well_formed_submission h w -> blocked w = false -> created h w listing ->
  listing_schedule (form (dom w)) = [] ->
  (forall e, is_nullish listing = false -> publication_fails h w listing e ->
     handleCreateListing h w
     = (Returned tt,
        emit (toast [MessageOf e] error)
          (emit (EFetch (publish_request w listing))
             (emit created_toast
                (emit (EFetch (create_request h w)) (emit EPreventDefault w))))))
  /\ (is_nullish listing = true ->
      handleCreateListing h w
      = (Returned tt,
         emit (toast [MessageOf TypeError] error)
           (emit created_toast
              (emit (EFetch (create_request h w)) (emit EPreventDefault w))))).
Proof.
  intros Hwf Hb Hc Hs.
  assert (E : handleCreateListing h w
    = try_catch
        (bind (let* id := member listing (js "id") in
               publishListing id ;;;
               showToast [Lit (js "Publication lancée")] success)
           (fun _ =>
              reset_form ;;;
              modify (with_app (set_uploadedImages [])) ;;;
              set_detected JNull ;;;
              renderImagePreviews ;;;
              show_preview (js "category-preview") (CategoryHint hint_detect) ;;;
              showPage (js "listings")))
        (fun e => showToast [MessageOf e] error) h
        (emit created_toast (emit (EFetch (create_request h w)) (emit EPreventDefault w)))).
  { rewrite handleCreateListing_unfold. cbn zeta.
    rewrite (listing_data_returns h w Hwf), Hb.
    rewrite (try_catch_bind_returned _ _ _ _ _ _ _ (createListing_created h w listing Hc)).
    rewrite Hs. reflexivity. }
  rewrite E. split.
  - intros e Hn Hp.
    rewrite (try_catch_bind_thrown _ _ _ _ _ e
               (emit (EFetch (publish_request w listing))
                  (emit created_toast
                     (emit (EFetch (create_request h w)) (emit EPreventDefault w)))));
      [reflexivity|].
    unfold bind at 1. unfold member. rewrite Hn. cbn [ret].
    unfold bind. rewrite (publishListing_fails h w listing e Hp). reflexivity.
  - intros Hn.
    rewrite (try_catch_bind_thrown _ _ _ _ _ TypeError
               (emit created_toast
                  (emit (EFetch (create_request h w)) (emit EPreventDefault w))));
      [reflexivity|].
    unfold bind at 1. unfold member. rewrite Hn. reflexivity.
Qed.

Lemma sample_created_only :
  created creating_only (sample_world short_form) sample_listing.
Proof.
  exists 201, (Some sample_listing). split; [reflexivity|]. split; [lia | reflexivity].
Defined.

Lemma sample_publication_fails :
  publication_fails creating_only (sample_world short_form) sample_listing
    (Error generic_failure).
Proof.
  right. exists 500, None. split; [reflexivity|]. split; [lia | reflexivity].
Defined.

Lemma sample_created_without_listing :
  created (answering (Response 204 None)) (sample_world short_form) JNull.
Proof. exists 204, None. split; [reflexivity|]. split; [lia | reflexivity]. Defined.

Lemma failed_publication_keeps_form_witness :
  (well_formed_submission creating_only (sample_world short_form)
   /\ blocked (sample_world short_form) = false
   /\ created creating_only (sample_world short_form) sample_listing
   /\ listing_schedule (form (dom (sample_world short_form))) = []
   /\ is_nullish sample_listing = false
   /\ publication_fails creating_only (sample_world short_form) sample_listing
        (Error generic_failure)
   /\ handleCreateListing creating_only (sample_world short_form)
      = (Returned tt,
         emit (toast [MessageOf (Error generic_failure)] error)
           (emit (EFetch (publish_request (sample_world short_form) sample_listing))
              (emit created_toast
                 (emit (EFetch (create_request creating_only (sample_world short_form)))
                    (emit EPreventDefault (sample_world short_form)))))))
  /\ (created (answering (Response 204 None)) (sample_world short_form) JNull
      /\ is_nullish JNull = true
      /\ handleCreateListing (answering (Response 204 None)) (sample_world short_form)
         = (Returned tt,
            emit (toast [MessageOf TypeError] error)
              (emit created_toast
                 (emit (EFetch (create_request (answering (Response 204 None))
                                  (sample_world short_form)))
                    (emit EPreventDefault (sample_world short_form)))))).
Proof.
  assert (Hwf : forall h, well_formed_submission h (sample_world short_form))
    by (intros h; split; [reflexivity | left; reflexivity]).
  split.
  - split; [apply Hwf|]. split; [reflexivity|]. split; [exact sample_created_only|].
    split; [reflexivity|]. split; [reflexivity|]. split; [exact sample_publication_fails|].
    exact (proj1 (failed_publication_keeps_form creating_only (sample_world short_form)
                    sample_listing (Hwf _) eq_refl sample_created_only eq_refl)
             _ eq_refl sample_publication_fails).
  - split; [exact sample_created_without_listing|]. split; [reflexivity|].
    exact (proj2 (failed_publication_keeps_form (answering (Response 204 None))
                    (sample_world short_form) JNull (Hwf _) eq_refl
                    sample_created_without_listing eq_refl) eq_refl).
Defined.

(** ** Analyses that fail *)

Lemma alternative_names_throws h w alts :
  ~ alternatives_listable h alts ->
  alternative_names alts h w = (Thrown TypeError, w).
Proof.
  intros Hn. unfold alternative_names, bind, host.
  destruct (truthy alts && length_positive h alts) eqn:Ec.
  - destruct alts as [| | | | |l|]; try reflexivity.
    destruct (existsb is_nullish l) eqn:El; [reflexivity|].
    exfalso. apply Hn. right. exists l. auto.
  - exfalso. apply Hn. left. exact Ec.
Qed.

Lemma analyzeVintedCategory_long h w :
  (3 <= length (trim (listing_title (form (dom w)))))%nat ->
  analyzeVintedCategory h w
  = try_catch
      (let* result := analyzeCategory (trim (listing_title (form (dom w))))
                        (trim (listing_description (form (dom w)))) in
       let* suggested := member result (js "suggested_category") in
       if truthy suggested then
         let confidence := get result (js "confidence") in
         let '(confidenceClass, confidenceText) := confidence_label h confidence in
         let percent := Rounded (PrimFloat.mul (ToNumber h confidence) 100%float) in
         let gender :=
           if truthy (get result (js "detected_gender"))
           then Some (get result (js "detected_gender")) else None in
         let* names := alternative_names (get result (js "alternatives")) in
         show_preview (js "category-preview detected")
           (CategoryDetected (get suggested (js "full_path")) confidenceClass
              confidenceText percent gender names) ;;;
         set_detected suggested
       else
         show_preview (js "category-preview")
           (CategoryHint
              [Lit (js "⚠️ ");
               Val (or_else (get result (js "message"))
                            (JStr (js "Impossible de détecter la catégorie")))]) ;;;
         set_detected JNull)
      (fun _ =>
         show_preview (js "category-preview")
           (CategoryHint [Lit (js "❌ Erreur lors de l'analyse")]) ;;;
         set_detected JNull) h (loading w).
Proof.
  intros Hlen. apply Nat.ltb_ge in Hlen.
  unfold analyzeVintedCategory. unfold bind at 1 2, host, world.
  rewrite Hlen. reflexivity.
Qed.

Lemma analyze_request_outcome h w :
  analyzeCategory (trim (listing_title (form (dom w))))
    (trim (listing_description (form (dom w)))) h (loading w)
  = match fetch h (trace w) (analyze_request w) with
    | Rejected => (Thrown NetworkError, emit (EFetch (analyze_request w)) (loading w))
    | Response status json =>
        if status =? 401
        then (Thrown session_expired,
              logged_out h (emit (EFetch (analyze_request w)) (loading w)))
        else (settled status json, emit (EFetch (analyze_request w)) (loading w))
    end.
Proof. unfold analyzeCategory. rewrite request_unfold. reflexivity. Qed.

Lemma logged_out_dom_preview h w :
  preview_class (dom (logged_out h w)) = preview_class (dom w)
  /\ preview_content (dom (logged_out h w)) = preview_content (dom w).
Proof.
  unfold logged_out, showPage, clearToken, modify. cbn.
  destruct login_is_no_loader as [-> ->]. split; reflexivity.
Qed.

Lemma analysis_fails_unfold (h : Host) (w : World) :
  (3 <= length (trim (listing_title (form (dom w)))))%nat ->
  analysis_fails h w ->
  exists w1,
    analyzeVintedCategory h w
    = (Returned tt,
       with_app (set_detectedCategory JNull)
         (with_dom (set_preview (js "category-preview") analysis_error) w1)).
Proof.
  intros Hlen Hf. rewrite (analyzeVintedCategory_long h w Hlen).
  unfold try_catch. unfold bind at 1. rewrite analyze_request_outcome.
  destruct Hf as [Hf | (status & json & Hf & Hcase)]; rewrite Hf.
  - eexists. reflexivity.
  - destruct Hcase as [-> | [[e He] | (result & Hr & Hcase)]].
    + rewrite N.eqb_refl. eexists. reflexivity.
    + destruct (status =? 401); [eexists; reflexivity|]. rewrite He. eexists. reflexivity.
    + destruct (status =? 401); [eexists; reflexivity|]. rewrite Hr.
      destruct Hcase as [Hn | [Hsc Hal]].
      * unfold bind at 1. unfold member. rewrite Hn. eexists. reflexivity.
      * unfold bind at 1. unfold member. rewrite (truthy_get_not_nullish _ _ Hsc).
        cbn [ret]. rewrite Hsc.
        destruct (confidence_label h (get result (js "confidence"))) as [cls txt].
        unfold bind at 1. rewrite (alternative_names_throws h _ _ Hal).
        eexists. reflexivity.
Qed.

(** X8: when the analysis gets no usable answer (no answer, a 401, an
    error, [null], or a suggestion whose alternatives cannot be listed),
    the preview shows the error text and the stored category becomes
    [null], even if the answer held a suggestion. *)
Theorem failed_analysis_resets_category (h : Host) (w : World) :
  (3 <= length (trim (listing_title (form (dom w)))))%nat ->
  analysis_fails h w ->
  let w' := snd (analyzeVintedCategory h w) in
  preview_class (dom w') = js "category-preview"
  /\ preview_content (dom w') = analysis_error
  /\ detectedCategory (app w') = JNull.
Proof.
  intros Hlen Hf w'. subst w'.
  destruct (analysis_fails_unfold h w Hlen Hf) as [w1 ->].
  repeat split.
Qed.

Lemma failed_analysis_resets_category_witness :
  (3 <= length (trim (listing_title (form (dom (sample_world sample_form))))))%nat
  /\ analysis_fails (answering (Response 204 None)) (sample_world sample_form)
  /\ detectedCategory
       (app (snd (analyzeVintedCategory (answering (Response 204 None))
                    (sample_world sample_form))))
     = JNull.
Proof.
  assert (Hlen : (3 <= length (trim (listing_title (form (dom (sample_world sample_form))))))%nat)
    by (vm_compute; lia).
  assert (Hf : analysis_fails (answering (Response 204 None)) (sample_world sample_form)).
  { right. exists 204, None. split; [reflexivity|]. right. right.
    exists JNull. split; [reflexivity|]. left. reflexivity. }
  split; [exact Hlen|]. split; [exact Hf|].
  exact (proj2 (proj2 (failed_analysis_resets_category (answering (Response 204 None))
                         (sample_world sample_form) Hlen Hf))).
Defined.

(** ** A category that outlives its title *)

(** X9: an analysis with a title of fewer than 3 code units leaves the
    stored category alone; so after a category was detected and the
    title was then cut short, a submission to Vinted still passes the
    guard and sends the category detected earlier. *)
Theorem short_title_keeps_category (h : Host) (w : World) (f : Form) :
  (length (trim (listing_title f)) < 3)%nat ->
  let w1 := perform_all [FillForm f; Analyze] h w in
  app w1 = app w
  /\ (truthy (detectedCategory (app w)) = true -> blocked w1 = false)
  /\ (well_formed_submission h w1 ->
      get (payload h w1) (js "category")
      = or_else (get (detectedCategory (app w)) (js "name")) JNull).
Proof.
  intros Hlen w1.
  assert (E : w1 = with_dom (set_preview (js "category-preview") (CategoryHint hint_detect))
                     (with_dom (set_form f) w)).
  { subst w1. cbn [perform_all perform modify snd].
    unfold analyzeVintedCategory, bind, host, world. cbn [with_dom dom form set_form].
    apply Nat.ltb_lt in Hlen. rewrite Hlen. reflexivity. }
  rewrite E. split; [reflexivity|]. split.
  - intros Ht. unfold blocked. cbn [with_dom app]. rewrite Ht. apply andb_false_r.
  - intros [Himg Hs]. unfold payload, listing_data, bind, host, world, image_ids.
    cbn [with_dom app] in *. rewrite Himg. cbn [ret fst].
    destruct (listing_schedule _) as [|c s]; [reflexivity|].
    destruct Hs as [Hs|[t Ht]]; [discriminate Hs|]. rewrite Ht. reflexivity.
Qed.

Lemma short_title_keeps_category_witness :
  (length (trim (listing_title cut_form)) < 3)%nat
  /\ truthy (detectedCategory
               (app (perform_all [Analyze] (serving sample_result)
                       (sample_world sample_form)))) = true
  /\ blocked (perform_all [Analyze; FillForm cut_form; Analyze] (serving sample_result)
                (sample_world sample_form)) = false
  /\ get (payload (serving sample_result)
            (perform_all [Analyze; FillForm cut_form; Analyze] (serving sample_result)
               (sample_world sample_form)))
        (js "category")
     = JStr (js "Vestes en jean").
Proof.
  assert (Hlen : (length (trim (listing_title cut_form)) < 3)%nat) by (vm_compute; lia).
  pose proof (short_title_keeps_category (serving sample_result)
                (perform_all [Analyze] (serving sample_result) (sample_world sample_form))
                cut_form Hlen) as H.
  cbv zeta in H. destruct H as (_ & Hb & Hp).
  split; [exact Hlen|]. split; [reflexivity|]. split; [exact (Hb eq_refl)|].
  refine (eq_trans (Hp _) _); [split; [reflexivity | left; reflexivity] | reflexivity].
Defined.

(** ** Computations that keep a relation between worlds *)

Section Respects.

Variable R : World -> World -> Prop.
Hypothesis R_refl : forall w, R w w.
Hypothesis R_trans : forall w1 w2 w3, R w1 w2 -> R w2 w3 -> R w1 w3.

Lemma respects_ret {A} (a : A) : respects R (ret a).
Proof. intros h w. apply R_refl. Qed.

Lemma respects_throw {A} (e : Exn) : respects R (@throw A e).
Proof. intros h w. apply R_refl. Qed.

Lemma respects_world : respects R world.
Proof. intros h w. apply R_refl. Qed.

Lemma respects_host : respects R host.
Proof. intros h w. apply R_refl. Qed.

Lemma respects_bind {A B} (m : M A) (k : A -> M B) :
  respects R m -> (forall a, respects R (k a)) -> respects R (bind m k).
Proof.
  intros Hm Hk h w. unfold bind. specialize (Hm h w).
  destruct (m h w) as [[a|e] w1]; cbn [snd] in *; [|exact Hm].
  eapply R_trans; [exact Hm | apply Hk].
Qed.

Lemma respects_try_catch {A} (m : M A) (k : Exn -> M A) :
  respects R m -> (forall e, respects R (k e)) -> respects R (try_catch m k).
Proof.
  intros Hm Hk h w. unfold try_catch. specialize (Hm h w).
  destruct (m h w) as [[a|e] w1]; cbn [snd] in *; [exact Hm|].
  eapply R_trans; [exact Hm | apply Hk].
Qed.

End Respects.

(** ** Images and their previews *)

Lemma same_gallery_refl w : same_gallery w w.
Proof. reflexivity. Qed.

Lemma same_gallery_trans w1 w2 w3 :
  same_gallery w1 w2 -> same_gallery w2 w3 -> same_gallery w1 w3.
Proof. unfold same_gallery. congruence. Qed.

Lemma kept_or_emptied_refl w : kept_or_emptied w w.
Proof. left. reflexivity. Qed.

Lemma kept_or_emptied_trans w1 w2 w3 :
  kept_or_emptied w1 w2 -> kept_or_emptied w2 w3 -> kept_or_emptied w1 w3.
Proof.
  unfold kept_or_emptied. intros [H1|H1] [H2|H2]; rewrite H2; auto.
Qed.

Lemma same_gallery_kept w w' : same_gallery w w' -> kept_or_emptied w w'.
Proof. intros H. left. exact H. Qed.

Lemma keeps_request endpoint options : respects same_gallery (request endpoint options).
Proof.
  intros h w. unfold same_gallery, gallery. rewrite request_unfold. cbn zeta.
  destruct (fetch h (trace w) _) as [|status json]; [reflexivity|].
  destruct (status =? 401); [|reflexivity]. cbn [snd].
  unfold logged_out, showPage, clearToken, modify. cbn.
  destruct login_is_no_loader as [-> ->]. reflexivity.
Qed.

Lemma keeps_showToast message type : respects same_gallery (showToast message type).
Proof. intros h w. reflexivity. Qed.

Lemma keeps_showPage p : respects same_gallery (showPage p).
Proof.
  intros h w. unfold same_gallery, gallery, showPage, modify. cbn [snd].
  destruct (jsstring_eqb p (js "dashboard")); [reflexivity|].
  destruct (jsstring_eqb p (js "listings")); reflexivity.
Qed.

Lemma keeps_show_preview cls c : respects same_gallery (show_preview cls c).
Proof. intros h w. reflexivity. Qed.

Lemma keeps_set_detected c : respects same_gallery (set_detected c).
Proof. intros h w. reflexivity. Qed.

Lemma keeps_member v k : respects same_gallery (member v k).
Proof. intros h w. unfold member. destruct (is_nullish v); reflexivity. Qed.

Lemma keeps_alternative_names alts : respects same_gallery (alternative_names alts).
Proof.
  intros h w. unfold alternative_names, bind, host. cbn.
  destruct (truthy alts && length_positive h alts); [|reflexivity].
  destruct alts; try reflexivity. destruct (existsb is_nullish items); reflexivity.
Qed.

Lemma keeps_prevent_default : respects same_gallery (modify (emit EPreventDefault)).
Proof. intros h w. reflexivity. Qed.

Lemma keeps_listing_data : respects same_gallery listing_data.
Proof. intros h w. rewrite listing_data_pure. reflexivity. Qed.

Create HintDb galleries.
#[local] Hint Resolve keeps_request keeps_showToast keeps_showPage keeps_show_preview
  keeps_set_detected keeps_member keeps_alternative_names keeps_prevent_default
  keeps_listing_data : galleries.

Ltac keeps_tac :=
  repeat first
    [ progress intros
    | solve [ auto with galleries ]
    | solve [ apply (respects_ret same_gallery same_gallery_refl) ]
    | solve [ apply (respects_throw same_gallery same_gallery_refl) ]
    | solve [ apply (respects_world same_gallery same_gallery_refl) ]
    | solve [ apply (respects_host same_gallery same_gallery_refl) ]
    | match goal with |- respects same_gallery (match ?x with _ => _ end) => destruct x end
    | match goal with |- respects same_gallery (if ?x then _ else _) => destruct x end
    | apply (respects_bind same_gallery same_gallery_trans)
    | apply (respects_try_catch same_gallery same_gallery_trans) ].

Lemma keeps_analyzeVintedCategory : respects same_gallery analyzeVintedCategory.
Proof.
  unfold analyzeVintedCategory, analyzeCategory.
  apply (respects_bind same_gallery same_gallery_trans);
    [apply (respects_host same_gallery same_gallery_refl)|]. intros h.
  apply (respects_bind same_gallery same_gallery_trans);
    [apply (respects_world same_gallery same_gallery_refl)|]. intros w.
  destruct (length _ <? 3)%nat; [apply keeps_show_preview|].
  apply (respects_bind same_gallery same_gallery_trans); [apply keeps_show_preview|].
  intros _. apply (respects_try_catch same_gallery same_gallery_trans).
  - apply (respects_bind same_gallery same_gallery_trans); [apply keeps_request|].
    intros result.
    apply (respects_bind same_gallery same_gallery_trans); [apply keeps_member|].
    intros suggested. destruct (truthy suggested).
    + destruct (confidence_label h _). keeps_tac.
    + keeps_tac.
  - keeps_tac.
Qed.

Lemma reset_empties_gallery :
  respects kept_or_emptied
    (reset_form ;;;
     modify (with_app (set_uploadedImages [])) ;;;
     set_detected JNull ;;;
     renderImagePreviews ;;;
     show_preview (js "category-preview") (CategoryHint hint_detect) ;;;
     showPage (js "listings")).
Proof.
  intros h w. rewrite reset_after_success. cbn [snd]. right.
  rewrite showPage_listings. reflexivity.
Qed.

Lemma keeps_then_kept {A} (m : M A) : respects same_gallery m -> respects kept_or_emptied m.
Proof. intros H h w. apply same_gallery_kept, H. Qed.

Lemma handleCreateListing_gallery : respects kept_or_emptied handleCreateListing.
Proof.
  unfold handleCreateListing, createListing, publishListing.
  apply (respects_bind _ kept_or_emptied_trans);
    [apply keeps_then_kept, keeps_prevent_default|]. intros _.
  apply (respects_bind _ kept_or_emptied_trans);
    [apply keeps_then_kept, keeps_listing_data|]. intros data.
  apply (respects_bind _ kept_or_emptied_trans);
    [apply (respects_world _ kept_or_emptied_refl)|]. intros w.
  destruct (post_vinted _ && _); [apply keeps_then_kept, keeps_showToast|].
  apply (respects_try_catch _ kept_or_emptied_trans);
    [|intros e; apply keeps_then_kept, keeps_showToast].
  apply (respects_bind _ kept_or_emptied_trans); [apply keeps_then_kept, keeps_request|].
  intros listing.
  apply (respects_bind _ kept_or_emptied_trans); [apply keeps_then_kept, keeps_showToast|].
  intros _.
  apply (respects_bind _ kept_or_emptied_trans); [|intros _; apply reset_empties_gallery].
  apply keeps_then_kept. keeps_tac.
Qed.

Lemma no_null_delete (i : nat) (l : list JsVal) :
  existsb is_nullish l = false -> existsb is_nullish (delete i l) = false.
Proof.
  revert i. induction l as [|x l IH]; intros i H; [destruct i; exact H|].
  cbn in H. apply orb_false_elim in H as [Hx Hl].
  destruct i as [|i]; [exact Hl|]. cbn. rewrite Hx. apply IH, Hl.
Qed.

Lemma removeImage_unfold h w index :
  no_null_images w ->
  removeImage index h w
  = (Returned tt,
     with_dom (set_image_preview
                 (imap (fun index img => (get img (js "url"), index))
                    (delete index (uploadedImages (app w)))))
       (with_app (fun a => set_uploadedImages (delete index (uploadedImages a)) a) w)).
Proof.
  intros Hn. unfold removeImage, bind, renderImagePreviews, world, modify.
  cbn -[imap delete existsb].
  rewrite (no_null_delete index _ Hn). reflexivity.
Qed.

Lemma removeImage_in_sync h w index :
  no_null_images w ->
  previews_in_sync (snd (removeImage index h w))
  /\ no_null_images (snd (removeImage index h w)).
Proof.
  intros Hn. rewrite (removeImage_unfold h w index Hn). split; [reflexivity|].
  apply (no_null_delete index _ Hn).
Qed.

Lemma gallery_in_sync w w' :
  kept_or_emptied w w' -> previews_in_sync w -> no_null_images w ->
  previews_in_sync w' /\ no_null_images w'.
Proof.
  unfold kept_or_emptied, gallery, previews_in_sync, no_null_images.
  intros [H|H] Hs Hn; injection H as Hi Hp; rewrite Hi, Hp; auto.
Qed.

Lemma handleImageUpload_gallery h w files :
  delivers_objects h -> no_null_images w ->
  exists out w',
    handleImageUpload files h w = (out, w')
    /\ (gallery w' = gallery w
        \/ exists items,
             existsb is_nullish (uploadedImages (app w) ++ items) = false
             /\ gallery w'
                = (uploadedImages (app w) ++ items,
                   imap (fun index img => (get img (js "url"), index))
                     (uploadedImages (app w) ++ items))).
Proof.
  intros Hd Hn. unfold handleImageUpload.
  destruct (Nat.eqb (length (filter valid_image files)) 0);
    [eexists _, _; split; [reflexivity | left; reflexivity]|].
  unfold try_catch. unfold bind at 1. rewrite uploadImages_unfold. cbn zeta.
  destruct (fetch h (trace w) _) as [|status json] eqn:Hf;
    [eexists _, _; split; [reflexivity | left; reflexivity]|].
  destruct (negb (response_ok status));
    [eexists _, _; split; [reflexivity | left; reflexivity]|].
  destruct json as [uploaded|];
    [|eexists _, _; split; [reflexivity | left; reflexivity]].
  unfold bind at 1. unfold spread.
  destruct (iterate uploaded) as [items|] eqn:Hi;
    [|eexists _, _; split; [reflexivity | left; reflexivity]].
  cbn [ret]. unfold bind at 1. cbn [modify]. unfold bind at 1.
  unfold renderImagePreviews, bind, world.
  cbn [emit with_app app set_uploadedImages uploadedImages].
  assert (Hall : existsb is_nullish (uploadedImages (app w) ++ items) = false).
  { rewrite existsb_app. unfold no_null_images in Hn. rewrite Hn.
    rewrite (Hd _ _ _ _ _ Hf Hi). reflexivity. }
  rewrite Hall. eexists _, _. split; [reflexivity|].
  right. exists items. split; [exact Hall | reflexivity].
Qed.

Lemma handleImageUpload_in_sync h w files :
  delivers_objects h -> previews_in_sync w -> no_null_images w ->
  previews_in_sync (snd (handleImageUpload files h w))
  /\ no_null_images (snd (handleImageUpload files h w)).
Proof.
  intros Hd Hs Hn.
  destruct (handleImageUpload_gallery h w files Hd Hn)
    as (out & w' & -> & [H | (items & Hall & H)]); cbn [snd].
  - apply (gallery_in_sync w); [left; exact H | assumption..].
  - unfold gallery in H. injection H as Hi Hp.
    unfold previews_in_sync, no_null_images. rewrite Hi, Hp. auto.
Qed.

Lemma perform_in_sync h a w :
  delivers_objects h -> previews_in_sync w -> no_null_images w ->
  previews_in_sync (snd (perform a h w)) /\ no_null_images (snd (perform a h w)).
Proof.
  intros Hd Hs Hn. destruct a as [f|files|index| |]; cbn [perform].
  - split; assumption.
  - apply handleImageUpload_in_sync; assumption.
  - apply removeImage_in_sync; assumption.
  - apply (gallery_in_sync w); [|assumption..].
    apply same_gallery_kept, keeps_analyzeVintedCategory.
  - apply (gallery_in_sync w); [|assumption..]. apply handleCreateListing_gallery.
Qed.


Lemma serving_delivers_objects : delivers_objects (serving sample_result).
Proof.
  intros tr r status v items. cbn [serving fetch].
  assert (Hobj : forall (b : bool) s1 s2 (v1 v2 : JsVal),
             is_nullish v1 = false -> iterate v1 = None ->
             is_nullish v2 = false -> iterate v2 = None ->
             (if b then Response s1 (Some v1) else Response s2 (Some v2))
             = Response status (Some v) ->
             iterate v = Some items -> existsb is_nullish items = false).
  { intros b s1 s2 v1 v2 _ H1 _ H2 E Hi.
    destruct b; injection E as _ <-; congruence. }
  destruct (opt_body (req_options r)) as [|body|files].
  - destruct (jsstring_eqb (endpoint_of r) (js "/categories/analyze"));
      [intros E; injection E as _ <-; intros Hi; discriminate Hi|].
    apply Hobj; reflexivity.
  - destruct (jsstring_eqb (endpoint_of r) (js "/categories/analyze"));
      [intros E; injection E as _ <-; intros Hi; discriminate Hi|].
    apply Hobj; reflexivity.
  - clear Hobj. intros E. injection E as _ <-. cbn [iterate]. intros Hi.
    injection Hi as <-. induction files as [|f files IH]; [reflexivity | exact IH].
Qed.


(** ** The page: lifting, requests accepted and turned down *)

Lemma lift_unfold {A} (m : M A) h p :
  lift m h p = (fst (m h (base p)), {| base := snd (m h (base p)); account := account p |}).
Proof. unfold lift. destruct (m h (base p)); reflexivity. Qed.

Lemma lift_eq {A} (m : M A) h p o w' :
  m h (base p) = (o, w') -> lift m h p = (o, {| base := w'; account := account p |}).
Proof. intros E. unfold lift. rewrite E. reflexivity. Qed.

Lemma bindP_returned {A B} (m : MP A) (k : A -> MP B) h p a p1 :
  m h p = (Returned a, p1) -> bindP m k h p = k a h p1.
Proof. intros E. unfold bindP. rewrite E. reflexivity. Qed.

Lemma bindP_thrown {A B} (m : MP A) (k : A -> MP B) h p e p1 :
  m h p = (Thrown e, p1) -> bindP m k h p = (Thrown e, p1).
Proof. intros E. unfold bindP. rewrite E. reflexivity. Qed.

Lemma try_catchP_returned {A} (m : MP A) (k : Exn -> MP A) h p a p1 :
  m h p = (Returned a, p1) -> try_catchP m k h p = (Returned a, p1).
Proof. intros E. unfold try_catchP. rewrite E. reflexivity. Qed.

Lemma try_catchP_thrown {A} (m : MP A) (k : Exn -> MP A) h p e p1 :
  m h p = (Thrown e, p1) -> try_catchP m k h p = k e h p1.
Proof. intros E. unfold try_catchP. rewrite E. reflexivity. Qed.

Lemma request_accepted endpoint options h w data :
  accepted h (trace w) (sent (api w) endpoint options) data ->
  request endpoint options h w
  = (Returned data, emit (EFetch (sent (api w) endpoint options)) w).
Proof.
  intros (status & Hf & Hok & H204). rewrite request_unfold. cbn zeta.
  rewrite Hf, (ok_not_401 _ Hok), (settled_ok _ _ Hok H204). reflexivity.
Qed.

Lemma request_turned_down endpoint options h w e :
  turned_down h (trace w) (sent (api w) endpoint options) e ->
  request endpoint options h w
  = (Thrown e, emit (EFetch (sent (api w) endpoint options)) w).
Proof.
  intros Ht. rewrite request_unfold. cbn zeta.
  destruct Ht as [[Hf ->] | (status & json & Hf & H401 & Hs)]; rewrite Hf.
  - reflexivity.
  - apply N.eqb_neq in H401. rewrite H401, Hs. reflexivity.
Qed.

Lemma request_expired endpoint options h w json :
  fetch h (trace w) (sent (api w) endpoint options) = Response 401 json ->
  request endpoint options h w
  = (Thrown session_expired, logged_out h (emit (EFetch (sent (api w) endpoint options)) w)).
Proof. intros Hf. rewrite request_unfold. cbn zeta. rewrite Hf. reflexivity. Qed.

Lemma dashboard_is_loader : jsstring_eqb (js "dashboard") (js "dashboard") = true.
Proof. vm_compute. reflexivity. Qed.

Lemma showPage_dashboard h w :
  snd (showPage (js "dashboard") h w)
  = with_app (set_currentPage (js "dashboard"))
      (emit (ESpawn LoadDashboard)
         (with_dom (set_page (if bool_decide (js "dashboard" ∈ pages (dom w))
                              then Some (js "dashboard") else None)
                      (js "dashboard") false) w)).
Proof.
  unfold showPage, modify. cbn [snd]. rewrite dashboard_is_loader.
  replace (bool_decide (js "dashboard" ∈ [js "login"; js "register"])) with false
    by (vm_compute; reflexivity).
  reflexivity.
Qed.

Lemma showPage_login h w :
  snd (showPage (js "login") h w)
  = with_app (set_currentPage (js "login"))
      (with_dom (set_page (if bool_decide (js "login" ∈ pages (dom w))
                           then Some (js "login") else None)
                   (js "login") true) w).
Proof.
  unfold showPage, modify. cbn [snd]. destruct login_is_no_loader as [-> ->].
  replace (bool_decide (js "login" ∈ [js "login"; js "register"])) with true
    by (vm_compute; reflexivity).
  reflexivity.
Qed.

Lemma showPage_returns page h w : showPage page h w = (Returned tt, snd (showPage page h w)).
Proof. reflexivity. Qed.

(** ** Signing in *)

Lemma login_accepted h w email password data :
  accepted h (trace w) (login_request w email password) data ->
  is_nullish data = false ->
  login (JStr email) (JStr password) h w
  = (Returned data,
     with_api (fun _ => {| token := get data (js "access_token");
                           stored_token := Some (get data (js "access_token")) |})
       (emit (EFetch (login_request w email password)) w)).
Proof.
  intros Ha Hn. unfold login. unfold bind at 1.
  unfold login_request in Ha. rewrite (request_accepted _ _ h w data Ha).
  unfold bind at 1. unfold member. rewrite Hn. reflexivity.
Qed.

Lemma login_expired h w email password json :
  fetch h (trace w) (login_request w email password) = Response 401 json ->
  login (JStr email) (JStr password) h w
  = (Thrown session_expired,
     logged_out h (emit (EFetch (login_request w email password)) w)).
Proof.
  intros Hf. unfold login. unfold bind at 1. unfold login_request in Hf.
  rewrite (request_expired _ _ h w json Hf). reflexivity.
Qed.

Lemma login_turned_down h w email password e :
  turned_down h (trace w) (login_request w email password) e ->
  login (JStr email) (JStr password) h w
  = (Thrown e, emit (EFetch (login_request w email password)) w).
Proof.
  intros Ht. unfold login. unfold bind at 1. unfold login_request in Ht.
  rewrite (request_turned_down _ _ h w e Ht). reflexivity.
Qed.

Lemma handleLogin_failed h p email password e w1 :
  login (JStr email) (JStr password) h (emit EPreventDefault (base p)) = (Thrown e, w1) ->
  handleLogin email password h p
  = (Returned tt,
     {| base := emit (toast [MessageOf e] error) w1; account := account p |}).
Proof.
  intros E. unfold handleLogin.
  rewrite (bindP_returned _ _ h p tt
             {| base := emit EPreventDefault (base p); account := account p |})
    by (apply lift_eq; reflexivity).
  rewrite (try_catchP_thrown _ _ h _ e {| base := w1; account := account p |}).
  - reflexivity.
  - apply bindP_thrown. apply (lift_eq _ h {| base := _; account := _ |}). exact E.
Qed.

Lemma handleLogin_accepted h p email password data :
  accepted h (trace (base p) ++ [EPreventDefault])
    (login_request (base p) email password) data ->
  is_nullish data = false ->
  handleLogin email password h p
  = (Returned tt,
     {| base :=
          snd (showPage (js "dashboard") h
                 (emit (toast [Lit (js "Connexion réussie")] success)
                    (with_api
                       (fun _ => {| token := get data (js "access_token");
                                    stored_token := Some (get data (js "access_token")) |})
                       (emit (EFetch (login_request (base p) email password))
                          (emit EPreventDefault (base p))))));
        account := set_user (get data (js "user")) (account p) |}).
Proof.
  intros Ha Hn. unfold handleLogin. unfold bindP at 1. rewrite lift_unfold.
  cbn [modify fst snd base account]. unfold try_catchP. unfold bindP at 1.
  rewrite lift_unfold. cbn [base account].
  rewrite (login_accepted h (emit EPreventDefault (base p)) email password data Ha Hn).
  cbn [fst snd]. unfold bindP at 1. rewrite lift_unfold. cbn [base account].
  unfold member. rewrite Hn. cbn [ret fst snd].
  unfold bindP at 1. cbn [modify_account base account].
  unfold bindP at 1. rewrite lift_unfold. cbn [showToast modify fst snd base account].
  rewrite lift_unfold. reflexivity.
Qed.



(** X12: when the server answers the credentials with a 401,
    [handleLogin] shows "Session expirée", whatever the body of the
    answer says, and the token is cleared; when it turns them down in
    another way, the error of the answer is shown and the token is the
    one from before; in both cases the user is as before and the
    dashboard is not loaded. *)
Theorem login_failure (h : Host) (p : Page) (email password : jsstring) :
  (forall json,
     fetch h (trace (base p) ++ [EPreventDefault]) (login_request (base p) email password)
     = Response 401 json ->
     let p' := snd (handleLogin email password h p) in
     new_page_events p p'
     = [EPreventDefault; EFetch (login_request (base p) email password);
        toast [MessageOf session_expired] error]
     /\ token (api (base p')) = JNull /\ stored_token (api (base p')) = None
     /\ account p' = account p
     /\ currentPage (app (base p')) = js "login")
  /\ (forall e,
        turned_down h (trace (base p) ++ [EPreventDefault])
          (login_request (base p) email password) e ->
        handleLogin email password h p
        = (Returned tt,
           {| base := emit (toast [MessageOf e] error)
                        (emit (EFetch (login_request (base p) email password))
                           (emit EPreventDefault (base p)));
              account := account p |})).
Proof.
  split.
  - intros json Hf p'. subst p'.
    rewrite (handleLogin_failed h p email password _ _
               (login_expired h (emit EPreventDefault (base p)) email password json Hf)).
    cbn [snd base account emit api app].
    rewrite logged_out_api, logged_out_app. repeat split.
    unfold new_page_events. apply new_events_app. cbn [base emit trace].
    rewrite logged_out_trace. cbn [emit trace]. rewrite <- ?app_assoc. reflexivity.
  - intros e Ht.
    apply (handleLogin_failed h p email password _ _
             (login_turned_down h (emit EPreventDefault (base p)) email password e Ht)).
Qed.

Lemma login_failure_witness :
  token (api (base (snd (handleLogin (js "cappo@example.org") (js "motdepasse") refusing
                           (sample_page sample_form))))) = JNull
  /\ handleLogin (js "cappo@example.org") (js "motdepasse") (answering unprocessable)
       (sample_page sample_form)
     = (Returned tt,
        {| base := emit (toast [MessageOf (Error (JStr (js "Titre trop court")))] error)
                     (emit (EFetch (login_request (base (sample_page sample_form))
                                      (js "cappo@example.org") (js "motdepasse")))
                        (emit EPreventDefault (base (sample_page sample_form))));
           account := account (sample_page sample_form) |}).
Proof.
  assert (H401 : (422 : N) <> 401) by lia.
  split.
  - exact (proj1 (proj2 (proj1 (login_failure refusing (sample_page sample_form)
                                  (js "cappo@example.org") (js "motdepasse"))
                           None eq_refl))).
  - exact (proj2 (login_failure (answering unprocessable) (sample_page sample_form)
                    (js "cappo@example.org") (js "motdepasse"))
             (Error (JStr (js "Titre trop court")))
             (or_intror (ex_intro _ 422
                           (ex_intro _ (Some (JObj [(js "detail",
                                                     JStr (js "Titre trop court"))]))
                              (conj eq_refl (conj H401 eq_refl)))))).
Defined.

(** ** Registering *)

Lemma register_accepted h w username email password telegram data :
  accepted h (trace w) (register_request w username email password telegram) data ->
  is_nullish data = false ->
  register (JStr username) (JStr email) (JStr password) (str_or_null telegram) h w
  = (Returned data,
     with_api (fun _ => {| token := get data (js "access_token");
                           stored_token := Some (get data (js "access_token")) |})
       (emit (EFetch (register_request w username email password telegram)) w)).
Proof.
  intros Ha Hn. unfold register. unfold bind at 1.
  unfold register_request in Ha. rewrite (request_accepted _ _ h w data Ha).
  unfold bind at 1. unfold member. rewrite Hn. reflexivity.
Qed.

Lemma handleRegister_accepted h p username email password telegram data :
  accepted h (trace (base p) ++ [EPreventDefault])
    (register_request (base p) username email password telegram) data ->
  is_nullish data = false ->
  handleRegister username email password telegram h p
  = (Returned tt,
     {| base :=
          snd (showPage (js "dashboard") h
                 (emit (toast [Lit (js "Compte créé avec succès")] success)
                    (with_api
                       (fun _ => {| token := get data (js "access_token");
                                    stored_token := Some (get data (js "access_token")) |})
                       (emit (EFetch (register_request (base p) username email
                                        password telegram))
                          (emit EPreventDefault (base p))))));
        account := set_user (get data (js "user")) (account p) |}).
Proof.
  intros Ha Hn. unfold handleRegister. unfold bindP at 1. rewrite lift_unfold.
  cbn [modify fst snd base account]. unfold try_catchP. unfold bindP at 1.
  rewrite lift_unfold. cbn [base account].
  rewrite (register_accepted h (emit EPreventDefault (base p)) username email password
             telegram data Ha Hn).
  cbn [fst snd]. unfold bindP at 1. rewrite lift_unfold. cbn [base account].
  unfold member. rewrite Hn. cbn [ret fst snd].
  unfold bindP at 1. cbn [modify_account base account].
  unfold bindP at 1. rewrite lift_unfold. cbn [showToast modify fst snd base account].
  rewrite lift_unfold. reflexivity.
Qed.




(** ** Signing out *)

Lemma handleLogout_unfold h p :
  handleLogout h p
  = (Returned tt,
     {| base := emit (toast [Lit (js "Déconnexion réussie")] success)
                  (snd (showPage (js "login") h
                          (with_api (fun _ => {| token := JNull; stored_token := None |})
                             (base p))));
        account := set_user JNull (account p) |}).
Proof. reflexivity. Qed.

(** X14: [handleLogout] forgets the token (client and storage) and the
    user, shows the login page with the navigation hidden, and sends
    nothing to the server; a request made afterwards carries no
    [Authorization] header. *)
Theorem logout_closes_session (h : Host) (p : Page) :
  let p' := snd (handleLogout h p) in
  token (api (base p')) = JNull
  /\ stored_token (api (base p')) = None
  /\ user (account p') = JNull
  /\ currentPage (app (base p')) = js "login"
  /\ nav_hidden (dom (base p')) = true
  /\ new_page_events p p' = [toast [Lit (js "Déconnexion réussie")] success]
  /\ forall endpoint options,
       opt_headers options = ∅ ->
       authorization (sent (api (base p')) endpoint options) = None.
Proof.
  intros p'. subst p'. rewrite handleLogout_unfold. cbn [snd base account].
  rewrite showPage_login.
  cbn [emit with_app with_dom with_api api app dom set_currentPage currentPage token
       stored_token set_user user set_page nav_hidden].
  repeat split.
  - unfold new_page_events. apply new_events_app. reflexivity.
  - intros endpoint options E. rewrite (sent_authorization _ _ _ E). reflexivity.
Qed.

(** ** Start of the page *)

Lemma getMe_outcome h w :
  getMe h w = request [Lit (js "/auth/me")] no_options h w.
Proof. reflexivity. Qed.

(** X15: [checkAuth] without a token shows the login page without
    asking the server; with a token it asks [/auth/me]: the answer
    becomes [user] and the dashboard is shown, while any failure leads
    to the login page without a message, the user being as before. *)
Theorem checkAuth_routes (h : Host) (p : Page) :
  (truthy (token (api (base p))) = false ->
     checkAuth h p
     = (Returned tt,
        {| base := snd (showPage (js "login") h (base p)); account := account p |})
     /\ new_page_events p (snd (checkAuth h p)) = [])
  /\ (truthy (token (api (base p))) = true ->
      forall me,
        accepted h (trace (base p)) (me_request (base p)) me ->
        checkAuth h p
        = (Returned tt,
           {| base := snd (showPage (js "dashboard") h
                             (emit (EFetch (me_request (base p))) (base p)));
              account := set_user me (account p) |}))
  /\ (truthy (token (api (base p))) = true ->
      forall e,
        turned_down h (trace (base p)) (me_request (base p)) e ->
        checkAuth h p
        = (Returned tt,
           {| base := snd (showPage (js "login") h
                             (emit (EFetch (me_request (base p))) (base p)));
              account := account p |})).
Proof.
  split; [|split].
  - intros Ht.
    assert (E : checkAuth h p
                = (Returned tt,
                   {| base := snd (showPage (js "login") h (base p));
                      account := account p |})).
    { unfold checkAuth, bindP, page. rewrite Ht. reflexivity. }
    split; [exact E|]. rewrite E. cbn [snd]. unfold new_page_events.
    apply new_events_app. cbn [base]. rewrite showPage_login.
    cbn [with_app with_dom trace]. rewrite app_nil_r. reflexivity.
  - intros Ht me Ha. unfold checkAuth, bindP at 1, page. rewrite Ht. cbn [negb].
    apply try_catchP_returned. erewrite bindP_returned.
    2:{ apply lift_eq. unfold me_request in Ha.
        apply (request_accepted _ _ h (base p) me Ha). }
    reflexivity.
  - intros Ht e Hd. unfold checkAuth, bindP at 1, page. rewrite Ht. cbn [negb].
    erewrite try_catchP_thrown.
    2:{ apply bindP_thrown. apply lift_eq. unfold me_request in Hd.
        apply (request_turned_down _ _ h (base p) e Hd). }
    reflexivity.
Qed.

Lemma checkAuth_routes_witness :
  new_page_events (constructed_page None (sample_dom sample_form))
    (snd (checkAuth refusing (constructed_page None (sample_dom sample_form)))) = []
  /\ checkAuth (answering (Response 200 (Some sample_session))) (sample_page sample_form)
     = (Returned tt,
        {| base := snd (showPage (js "dashboard")
                          (answering (Response 200 (Some sample_session)))
                          (emit (EFetch (me_request (base (sample_page sample_form))))
                             (base (sample_page sample_form))));
           account := set_user sample_session (account (sample_page sample_form)) |})
  /\ checkAuth (answering (Response 500 None)) (sample_page sample_form)
     = (Returned tt,
        {| base := snd (showPage (js "login") (answering (Response 500 None))
                          (emit (EFetch (me_request (base (sample_page sample_form))))
                             (base (sample_page sample_form))));
           account := account (sample_page sample_form) |}).
Proof.
  assert (H204 : (200 : N) <> 204) by lia.
  assert (H401 : (500 : N) <> 401) by lia.
  split; [|split].
  - exact (proj2 (proj1 (checkAuth_routes refusing
                           (constructed_page None (sample_dom sample_form))) eq_refl)).
  - exact (proj1 (proj2 (checkAuth_routes (answering (Response 200 (Some sample_session)))
                           (sample_page sample_form)))
             eq_refl sample_session (ex_intro _ 200 (conj eq_refl (conj eq_refl H204)))).
  - exact (proj2 (proj2 (checkAuth_routes (answering (Response 500 None))
                           (sample_page sample_form)))
             eq_refl (Error generic_failure)
             (or_intror (ex_intro _ 500 (ex_intro _ None
                                           (conj eq_refl (conj H401 eq_refl)))))).
Defined.

(** ** Publishing and deleting from a card *)

(** X16: [deleteListing] does nothing at all when the user does not
    confirm; confirmed, it sends the DELETE request and, when the
    server accepts, announces it and reloads the listings; when the
    server turns it down, the error is shown and nothing is reloaded.
    [publishListing] does the same with the publish request, without
    asking. *)
Theorem card_actions (h : Host) (p : Page) (id : JsVal) :
  deleteListing_app false id h p = (Returned tt, p)
  /\ (forall e,
        turned_down h (trace (base p)) (delete_request (base p) id) e ->
        deleteListing_app true id h p
        = (Returned tt,
           {| base := emit (toast [MessageOf e] error)
                        (emit (EFetch (delete_request (base p) id)) (base p));
              account := account p |}))
  /\ (forall status json v,
        fetch h (trace (base p)) (delete_request (base p) id) = Response status json ->
        status <> 401 -> settled status json = Returned v ->
        deleteListing_app true id h p
        = (Returned tt,
           {| base := emit (ESpawn LoadListings)
                        (emit (toast [Lit (js "Annonce supprimée")] success)
                           (emit (EFetch (delete_request (base p) id)) (base p)));
              account := account p |}))
  /\ (forall e,
        turned_down h (trace (base p)) (publish_request_for (base p) id) e ->
        publishListing_app id h p
        = (Returned tt,
           {| base := emit (toast [MessageOf e] error)
                        (emit (EFetch (publish_request_for (base p) id)) (base p));
              account := account p |}))
  /\ (forall status json v,
        fetch h (trace (base p)) (publish_request_for (base p) id) = Response status json ->
        status <> 401 -> settled status json = Returned v ->
        publishListing_app id h p
        = (Returned tt,
           {| base := emit (ESpawn LoadListings)
                        (emit (toast [Lit (js "Publication lancée")] success)
                           (emit (EFetch (publish_request_for (base p) id)) (base p)));
              account := account p |})).
Proof.
  split; [destruct p; reflexivity|]. split; [|split; [|split]].
  - intros e Ht. unfold deleteListing_app. cbn [negb].
    erewrite try_catchP_thrown.
    2:{ apply bindP_thrown. apply lift_eq. unfold deleteListing, delete_request in *.
        apply (request_turned_down _ _ h (base p) e Ht). }
    reflexivity.
  - intros status json v Hf H401 Hs. unfold deleteListing_app. cbn [negb].
    apply try_catchP_returned. erewrite bindP_returned.
    2:{ apply lift_eq. unfold deleteListing. rewrite request_unfold. cbn zeta.
        unfold delete_request in Hf. rewrite Hf. apply N.eqb_neq in H401.
        rewrite H401, Hs. reflexivity. }
    reflexivity.
  - intros e Ht. unfold publishListing_app.
    erewrite try_catchP_thrown.
    2:{ apply bindP_thrown. apply lift_eq. unfold publishListing, publish_request_for in *.
        apply (request_turned_down _ _ h (base p) e Ht). }
    reflexivity.
  - intros status json v Hf H401 Hs. unfold publishListing_app.
    apply try_catchP_returned. erewrite bindP_returned.
    2:{ apply lift_eq. unfold publishListing. rewrite request_unfold. cbn zeta.
        unfold publish_request_for in Hf. rewrite Hf. apply N.eqb_neq in H401.
        rewrite H401, Hs. reflexivity. }
    reflexivity.
Qed.

Lemma card_actions_witness :
  deleteListing_app true (JNum 7%float) (answering (Response 204 None))
    (sample_page sample_form)
  = (Returned tt,
     {| base := emit (ESpawn LoadListings)
                  (emit (toast [Lit (js "Annonce supprimée")] success)
                     (emit (EFetch (delete_request (base (sample_page sample_form))
                                      (JNum 7%float)))
                        (base (sample_page sample_form))));
        account := account (sample_page sample_form) |})
  /\ publishListing_app (JNum 7%float) (answering (Response 500 None))
       (sample_page sample_form)
     = (Returned tt,
        {| base := emit (toast [MessageOf (Error generic_failure)] error)
                     (emit (EFetch (publish_request_for (base (sample_page sample_form))
                                      (JNum 7%float)))
                        (base (sample_page sample_form)));
           account := account (sample_page sample_form) |}).
Proof.
  assert (H401 : (204 : N) <> 401) by lia.
  assert (H401' : (500 : N) <> 401) by lia.
  split.
  - exact (proj1 (proj2 (proj2 (card_actions (answering (Response 204 None))
                                  (sample_page sample_form) (JNum 7%float))))
             204 None JNull eq_refl H401 eq_refl).
  - exact (proj1 (proj2 (proj2 (proj2 (card_actions (answering (Response 500 None))
                                         (sample_page sample_form) (JNum 7%float)))))
             (Error generic_failure)
             (or_intror (ex_intro _ 500 (ex_intro _ None
                                           (conj eq_refl (conj H401' eq_refl)))))).
Defined.

(** ** Dashboard *)

Lemma request_answered endpoint options h w v :
  answered h (trace w) (sent (api w) endpoint options) v ->
  request endpoint options h w
  = (Returned v, emit (EFetch (sent (api w) endpoint options)) w).
Proof.
  intros (status & json & Hf & H401 & Hs). rewrite request_unfold. cbn zeta.
  apply N.eqb_neq in H401. rewrite Hf, H401, Hs. reflexivity.
Qed.

Lemma getListings_answered h p v :
  answered h (trace (base p)) (listings_request (base p)) v ->
  lift getListings h p
  = (Returned v,
     {| base := emit (EFetch (listings_request (base p))) (base p); account := account p |}).
Proof.
  intros Ha. apply lift_eq. unfold getListings, listings_request in *.
  apply (request_answered _ _ h (base p) v Ha).
Qed.

Lemma getListings_turned_down h p e :
  turned_down h (trace (base p)) (listings_request (base p)) e ->
  lift getListings h p
  = (Thrown e,
     {| base := emit (EFetch (listings_request (base p))) (base p); account := account p |}).
Proof.
  intros Ha. apply lift_eq. unfold getListings, listings_request in *.
  apply (request_turned_down _ _ h (base p) e Ha).
Qed.

Lemma getListings_expired h p json :
  fetch h (trace (base p)) (listings_request (base p)) = Response 401 json ->
  lift getListings h p
  = (Thrown session_expired,
     {| base := logged_out h (emit (EFetch (listings_request (base p))) (base p));
        account := account p |}).
Proof.
  intros Ha. apply lift_eq. unfold getListings, listings_request in *.
  apply (request_expired _ _ h (base p) json Ha).
Qed.

Lemma emoji_published l : shows "✅" l = has_status (js "published") l.
Proof.
  unfold shows, getStatusEmoji.
  destruct (has_status (js "published") l); [vm_compute; reflexivity|].
  destruct (has_status (js "pending") l); [vm_compute; reflexivity|].
  destruct (has_status (js "failed") l); vm_compute; reflexivity.
Qed.

Lemma emoji_pending l : shows "⏳" l = true -> has_status (js "pending") l = true.
Proof.
  unfold shows, getStatusEmoji.
  destruct (has_status (js "published") l); [vm_compute; intros E; discriminate E|].
  destruct (has_status (js "pending") l); [reflexivity|].
  destruct (has_status (js "failed") l); vm_compute; intros E; discriminate E.
Qed.

Lemma emoji_failed l : shows "❌" l = true -> has_status (js "failed") l = true.
Proof.
  unfold shows, getStatusEmoji.
  destruct (has_status (js "published") l); [vm_compute; intros E; discriminate E|].
  destruct (has_status (js "pending") l); [vm_compute; intros E; discriminate E|].
  destruct (has_status (js "failed") l); [reflexivity|].
  vm_compute; intros E; discriminate E.
Qed.

Lemma emoji_draft l :
  shows "📝" l
  = negb (has_status (js "published") l || has_status (js "pending") l
          || has_status (js "failed") l).
Proof.
  unfold shows, getStatusEmoji.
  destruct (has_status (js "published") l); [vm_compute; reflexivity|].
  destruct (has_status (js "pending") l); [vm_compute; reflexivity|].
  destruct (has_status (js "failed") l); vm_compute; reflexivity.
Qed.

Lemma filter_length_le_of {A} (f g : A -> bool) (l : list A) :
  (forall x, f x = true -> g x = true) ->
  (length (List.filter f l) <= length (List.filter g l))%nat.
Proof.
  intros Hfg. induction l as [|x l IH]; [reflexivity|]. cbn [List.filter].
  destruct (f x) eqn:Ef.
  - rewrite (Hfg x Ef). cbn [length]. lia.
  - destruct (g x); cbn [length]; lia.
Qed.

Lemma filter_length_le {A} (f : A -> bool) (l : list A) :
  (length (List.filter f l) <= length l)%nat.
Proof.
  induction l as [|x l IH]; [reflexivity|]. cbn [List.filter].
  destruct (f x); cbn [length]; lia.
Qed.

Lemma every_listing_counted (items : list JsVal) :
  (length items
   <= length (List.filter (has_status (js "published")) items)
      + length (List.filter (has_status (js "pending")) items)
      + length (List.filter (has_status (js "failed")) items)
      + count_showing "📝" items)%nat.
Proof.
  unfold count_showing. induction items as [|l items IH]; [reflexivity|].
  cbn [List.filter]. rewrite emoji_draft.
  destruct (has_status (js "published") l), (has_status (js "pending") l),
    (has_status (js "failed") l); cbn [orb negb length]; lia.
Qed.

Lemma loadDashboard_loaded h p items :
  answered h (trace (base p)) (listings_request (base p)) (JArr items) ->
  existsb is_nullish items = false ->
  loadDashboard h p
  = (Returned tt,
     {| base := emit (EFetch (listings_request (base p))) (base p);
        account :=
          set_dashboard
            {| total_listings := length items;
               published_listings :=
                 length (List.filter (has_status (js "published")) items);
               pending_listings := length (List.filter (has_status (js "pending")) items);
               failed_listings := length (List.filter (has_status (js "failed")) items) |}
            match items with
            | [] => NoActivity
            | _ => RecentActivity (List.map activity_item (take 5 items))
            end
            (set_listings (JArr items) (account p)) |}).
Proof.
  intros Ha Hn. unfold loadDashboard. apply try_catchP_returned.
  rewrite (bindP_returned _ _ h p _ _ (getListings_answered h p _ Ha)).
  unfold bindP at 1. cbn [modify_account base account is_nullish elements_of].
  rewrite Hn. reflexivity.
Qed.



(** ** Loaders that fail *)

Lemma run_task_failed t h p e w1 :
  getListings h (base p) = (Thrown e, w1) ->
  run_task t h p
  = (Returned tt, {| base := emit (toast [MessageOf e] error) w1; account := account p |}).
Proof.
  intros E.
  assert (L : lift getListings h p = (Thrown e, {| base := w1; account := account p |}))
    by (apply lift_eq; exact E).
  destruct t; cbn [run_task]; [unfold loadDashboard | unfold loadListings];
    (rewrite (try_catchP_thrown _ _ h p e {| base := w1; account := account p |});
     [reflexivity | apply bindP_thrown; exact L]).
Qed.

(** X18: when the request of a loader ([loadDashboard], [loadListings])
    fails, the listings and what the pages show stay as they were and
    the error is shown; after a 401 the token is forgotten as well and
    the login page is the current one. *)
Theorem loader_failure (t : Task) (h : Host) (p : Page) :
  (forall e,
     turned_down h (trace (base p)) (listings_request (base p)) e ->
     run_task t h p
     = (Returned tt,
        {| base := emit (toast [MessageOf e] error)
                     (emit (EFetch (listings_request (base p))) (base p));
           account := account p |}))
  /\ (forall json,
        fetch h (trace (base p)) (listings_request (base p)) = Response 401 json ->
        let p' := snd (run_task t h p) in
        account p' = account p
        /\ token (api (base p')) = JNull /\ stored_token (api (base p')) = None
        /\ currentPage (app (base p')) = js "login"
        /\ new_page_events p p'
           = [EFetch (listings_request (base p)); toast [MessageOf session_expired] error]).
Proof.
  split.
  - intros e Ht. apply run_task_failed. unfold getListings, listings_request in *.
    apply (request_turned_down _ _ h (base p) e Ht).
  - intros json Hf p'. subst p'.
    rewrite (run_task_failed t h p session_expired
               (logged_out h (emit (EFetch (listings_request (base p))) (base p)))).
    2:{ unfold getListings, listings_request in *.
        apply (request_expired _ _ h (base p) json Hf). }
    cbn [snd base account emit api app].
    rewrite logged_out_api, logged_out_app. repeat split.
    unfold new_page_events. apply new_events_app. cbn [base emit trace].
    rewrite logged_out_trace. cbn [emit trace]. rewrite <- ?app_assoc. reflexivity.
Qed.

Lemma elements_of_malformed v h p :
  is_nullish v = false -> malformed v -> elements_of v h p = (Thrown TypeError, p).
Proof.
  intros Hn Hm. destruct v; try reflexivity. cbn [malformed] in Hm.
  cbn [elements_of]. rewrite Hm. reflexivity.
Qed.

Lemma drawable_card listing h p :
  drawable listing = true ->
  exists c, card listing h p = (Returned c, p) /\ card_matches listing c.
Proof.
  unfold drawable, card. intros Hd.
  destruct (is_nullish listing); [discriminate Hd|].
  destruct (is_nullish (get listing (js "images"))); [discriminate Hd|].
  destruct (get listing (js "price")) as [| | |price| | |] eqn:Hp; try discriminate Hd.
  eexists. split; [reflexivity|]. unfold card_matches.
  cbn [card_id card_title card_price card_leboncoin card_vinted card_image].
  split; [reflexivity|]. split; [reflexivity|]. split; [exact Hp|].
  split; [|split].
  - destruct (truthy (get listing (js "post_to_leboncoin"))); split; intros H;
      try reflexivity; try (eexists; reflexivity); try discriminate H.
    destruct H as [? H]; discriminate H.
  - destruct (truthy (get listing (js "post_to_vinted"))); split; intros H;
      try reflexivity; try (eexists; reflexivity); try discriminate H.
    destruct H as [? H]; discriminate H.
  - intros Hu. unfold or_else. rewrite Hu. reflexivity.
Qed.

Lemma undrawable_card listing h p :
  drawable listing = false -> card listing h p = (Thrown TypeError, p).
Proof.
  unfold drawable, card. intros Hd.
  destruct (is_nullish listing); [reflexivity|].
  destruct (is_nullish (get listing (js "images"))); [reflexivity|].
  destruct (get listing (js "price")); try reflexivity. discriminate Hd.
Qed.

Lemma cards_of_drawable items h p :
  forallb drawable items = true ->
  exists cs, cards_of items h p = (Returned cs, p) /\ Forall2 card_matches items cs.
Proof.
  induction items as [|l items IH]; intros Hd.
  - exists []. split; [reflexivity | constructor].
  - cbn [forallb] in Hd. apply andb_prop in Hd as [Hl Hr].
    destruct (drawable_card l h p Hl) as (c & Ec & Hc).
    destruct (IH Hr) as (cs & Ecs & Hcs).
    exists (c :: cs). split; [|constructor; assumption].
    cbn [cards_of]. rewrite (bindP_returned _ _ h p c p Ec).
    rewrite (bindP_returned _ _ h p cs p Ecs). reflexivity.
Qed.

Lemma cards_of_undrawable items h p :
  forallb drawable items = false -> cards_of items h p = (Thrown TypeError, p).
Proof.
  induction items as [|l items IH]; intros Hd; [discriminate Hd|].
  cbn [forallb] in Hd. cbn [cards_of]. destruct (drawable l) eqn:Hl.
  - destruct (drawable_card l h p Hl) as (c & Ec & _).
    rewrite (bindP_returned _ _ h p c p Ec).
    apply bindP_thrown. apply IH. exact Hd.
  - apply bindP_thrown. apply undrawable_card. exact Hl.
Qed.

Lemma loader_failure_witness :
  run_task LoadDashboard (answering (Response 500 None)) (sample_page sample_form)
  = (Returned tt,
     {| base := emit (toast [MessageOf (Error generic_failure)] error)
                  (emit (EFetch (listings_request (base (sample_page sample_form))))
                     (base (sample_page sample_form)));
        account := account (sample_page sample_form) |})
  /\ account (snd (run_task LoadListings refusing (sample_page sample_form)))
     = account (sample_page sample_form).
Proof.
  assert (H401 : (500 : N) <> 401) by lia.
  split.
  - exact (proj1 (loader_failure LoadDashboard (answering (Response 500 None))
                    (sample_page sample_form)) (Error generic_failure)
             (or_intror (ex_intro _ 500 (ex_intro _ None
                                           (conj eq_refl (conj H401 eq_refl)))))).
  - exact (proj1 (proj2 (loader_failure LoadListings refusing (sample_page sample_form))
                    None eq_refl)).
Defined.

(** X19: an answer that is no array, or an array holding [null], is
    kept in [listings] by both loaders, but nothing of it is shown: the
    dashboard and the listings page stay as they were and the type
    error is shown.  [null], the result of a 204, is such an answer;
    the empty string is one for the dashboard only. *)
Theorem malformed_answer_is_kept (t : Task) (h : Host) (p : Page) (v : JsVal) :
  answered h (trace (base p)) (listings_request (base p)) v ->
  malformed v ->
  (t = LoadListings -> length_is_zero v = false) ->
  let p' := snd (run_task t h p) in
  listings (account p') = v
  /\ views (account p') = views (account p)
  /\ user (account p') = user (account p)
  /\ new_page_events p p'
     = [EFetch (listings_request (base p)); toast [MessageOf TypeError] error].
Proof.
  intros Ha Hm Hz p'.
  assert (E : run_task t h p
              = (Returned tt,
                 {| base := emit (toast [MessageOf TypeError] error)
                              (emit (EFetch (listings_request (base p))) (base p));
                    account := set_listings v (account p) |})).
  2:{ subst p'. rewrite E. cbn [snd account base]. repeat split.
      unfold new_page_events. apply new_events_app. cbn [base emit trace].
      rewrite <- ?app_assoc. reflexivity. }
  set (p1 := {| base := emit (EFetch (listings_request (base p))) (base p);
                account := set_listings v (account p) |}).
  destruct t; cbn [run_task]; [unfold loadDashboard | unfold loadListings].
  - rewrite (try_catchP_thrown _ _ h p TypeError p1); [reflexivity|].
    rewrite (bindP_returned _ _ h p _ _ (getListings_answered h p _ Ha)).
    unfold bindP at 1. cbn [modify_account base account]. fold p1.
    destruct (is_nullish v) eqn:Hn; [reflexivity|].
    apply bindP_thrown. apply (elements_of_malformed v h _ Hn Hm).
  - rewrite (try_catchP_thrown _ _ h p TypeError p1); [reflexivity|].
    rewrite (bindP_returned _ _ h p _ _ (getListings_answered h p _ Ha)).
    unfold bindP at 1. cbn [modify_account base account]. fold p1.
    destruct (is_nullish v) eqn:Hn; [reflexivity|].
    rewrite (Hz eq_refl).
    destruct v as [| | | | |items|]; try reflexivity.
    cbn [malformed] in Hm. apply bindP_thrown. apply cards_of_undrawable.
    clear -Hm. induction items as [|l items IH]; [discriminate Hm|].
    cbn [existsb forallb] in *. destruct (is_nullish l) eqn:Hl.
    + unfold drawable. rewrite Hl. reflexivity.
    + rewrite (IH Hm). apply andb_false_r.
Qed.

Lemma malformed_answer_is_kept_witness :
  listings (account (snd (run_task LoadDashboard (answering (Response 204 None))
                            (sample_page sample_form)))) = JNull
  /\ listings (account (snd (run_task LoadListings
                               (answering (Response 200 (Some (JArr [JNull]))))
                               (sample_page sample_form)))) = JArr [JNull].
Proof.
  assert (H401 : (204 : N) <> 401) by lia.
  assert (H401' : (200 : N) <> 401) by lia.
  split.
  - refine (proj1 (malformed_answer_is_kept LoadDashboard (answering (Response 204 None))
                     (sample_page sample_form) JNull
                     (ex_intro _ 204 (ex_intro _ None (conj eq_refl (conj H401 eq_refl))))
                     I _)).
    intros E. discriminate E.
  - exact (proj1 (malformed_answer_is_kept LoadListings
                    (answering (Response 200 (Some (JArr [JNull]))))
                    (sample_page sample_form) (JArr [JNull])
                    (ex_intro _ 200 (ex_intro _ (Some (JArr [JNull]))
                                       (conj eq_refl (conj H401' eq_refl))))
                    eq_refl (fun _ => eq_refl))).
Defined.

(** ** The listings page *)


